(** * hotelsofathens: the data-build script and the static-site generator

    A shallow embedding of [scripts/fetch-hotels.js] and
    [scripts/generate.js], and the properties of the page-generation
    pipeline that the specification states about them.

    Conventions of the embedding:
    - a JavaScript string is the list of its UTF-16 code units;
    - a JavaScript number that the data model declares an integer (price,
      star rating, rooftop rating, counts) is a [Z], which is exact for the
      integers below [2 ^ 53]; the two places where the scripts leave the
      integers ([price * 0.8] and [price * 1.5], [sum / length]) go through
      the binary64 operations of module [JS];
    - a call that can throw returns a [result];
    - what [generate.js] does when it is loaded (creating the directories of
      [dist], reading the templates and the two data files) is taken as
      done: the templates and the data are the [Input] of the builders;
    - the output directory is a finite map from paths to file contents, and
      the builders run in a small state-and-exception monad over it, in which
      a write always succeeds;
    - [console.log] calls are not part of the model.

    What a page is expected to be is written a second time, in the words of
    the specification: module [Template] reads a template as a list of
    literal texts and named placeholders, module [Page] gives the text of
    each page over it.  The theorems about pages compare the file that a
    builder writes with the text that [Page] expects. *)

From Stdlib Require Import ZArith List Lia Sorted Permutation.
From stdpp Require Import gmap strings list sorting pretty.

Local Open Scope Z_scope.

(** ** JavaScript built-ins used by the two scripts *)
Module JS.

Abbreviation jsstring := (list N).

(** Code units of an ASCII literal.  A Rocq string cannot hold an undoubled
    double quote, so inside literals the circumflex (which occurs nowhere in
    the two scripts) stands for the double quote character. *)
Definition unit_of_ascii (a : Ascii.ascii) : N :=
  let n := Ascii.N_of_ascii a in if N.eqb n 94 then 34%N else n.

Fixpoint js (s : string) : jsstring :=
  match s with
  | String.EmptyString => []
  | String.String a s' => unit_of_ascii a :: js s'
  end.

(** A template literal or any text that spans several source lines: the
    lines, joined by the line feed. *)
Fixpoint text (ls : list string) : jsstring :=
  match ls with
  | [] => []
  | [l] => js l
  | l :: ls' => js l ++ 10%N :: text ls'
  end.

Inductive exn := RangeError | URIError | TypeError | ENOENT.

Inductive result (A : Type) :=
  | Ok (a : A)
  | Throw (e : exn).
Arguments Ok {A} a.
Arguments Throw {A} e.

Definition rbind {A B} (r : result A) (k : A → result B) : result B :=
  match r with Ok a => k a | Throw e => Throw e end.

(** [Array.prototype.map] with a callback that may throw: the first
    exception aborts the traversal. *)
Fixpoint rmap {A B} (f : A → result B) (l : list A) : result (list B) :=
  match l with
  | [] => Ok []
  | x :: l' => rbind (f x) (λ y, rbind (rmap f l') (λ ys, Ok (y :: ys)))
  end.

(** [String(n)] for an integer-valued number. *)
Definition String_of_Z (n : Z) : jsstring := js (pretty n).

Definition String_of_bool (b : bool) : jsstring :=
  if b then js "true" else js "false".

(** [s.repeat(count)]: a negative count is a [RangeError]. *)
Definition String_repeat (s : jsstring) (count : Z) : result jsstring :=
  if count <? 0 then Throw RangeError
  else Ok (mjoin (replicate (Z.to_nat count) s)).

(** [arr.join(sep)] on an array of strings. *)
Fixpoint Array_join (sep : jsstring) (l : list jsstring) : jsstring :=
  match l with
  | [] => []
  | [x] => x
  | x :: l' => x ++ sep ++ Array_join sep l'
  end.

(** [arr.slice(0, n)]. *)
Definition Array_slice0 {A} (n : nat) (l : list A) : list A := take n l.

(** [arr.sort(cmp)].  ECMAScript requires the sort to be stable and, for a
    consistent comparator, to leave the array ordered by it, which fixes the
    result; it is written here as the stable insertion sort. [cmp a b < 0]
    puts [a] first, [cmp a b > 0] puts [b] first, [0] keeps their order. *)
Fixpoint sort_insert {A} (cmp : A → A → Z) (x : A) (l : list A) : list A :=
  match l with
  | [] => [x]
  | y :: l' => if cmp y x <? 0 then y :: sort_insert cmp x l' else x :: y :: l'
  end.

Fixpoint Array_sort {A} (cmp : A → A → Z) (l : list A) : list A :=
  match l with
  | [] => []
  | x :: l' => sort_insert cmp x (Array_sort cmp l')
  end.

(** Does [s] start with [pat]? *)
Fixpoint starts_with (pat s : jsstring) : bool :=
  match pat, s with
  | [], _ => true
  | _ :: _, [] => false
  | p :: pat', c :: s' => N.eqb p c && starts_with pat' s'
  end.

(** The replacement text of one match (ECMAScript GetSubstitution) for a
    pattern without capture groups: [$$], [$&], [$`] and [$'] are
    interpreted, every other code unit is copied. *)
Fixpoint GetSubstitution (matched before after repl : jsstring) : jsstring :=
  match repl with
  | [] => []
  | c :: r =>
      if N.eqb c 36 then
        match r with
        | [] => [c]
        | d :: r' =>
            if N.eqb d 36 then 36%N :: GetSubstitution matched before after r'
            else if N.eqb d 38 then matched ++ GetSubstitution matched before after r'
            else if N.eqb d 96 then before ++ GetSubstitution matched before after r'
            else if N.eqb d 39 then after ++ GetSubstitution matched before after r'
            else c :: GetSubstitution matched before after r
        end
      else c :: GetSubstitution matched before after r
  end.

(** [s.replace(pat, repl)] with a string pattern: the first occurrence only. *)
Fixpoint replace_from (pat repl before_rev s : jsstring) : jsstring :=
  if starts_with pat s then
    let after := drop (length pat) s in
    GetSubstitution pat (rev before_rev) after repl ++ after
  else
    match s with
    | [] => []
    | c :: s' => c :: replace_from pat repl (c :: before_rev) s'
    end.

Definition String_replace (s pat repl : jsstring) : jsstring :=
  replace_from pat repl [] s.

(** [s.replace(/pat/g, repl)] where the regular expression is the escaped
    literal [pat] (non-empty): every occurrence, found left to right without
    overlap.  [skip] counts the code units of the current match that are still
    to be passed over. *)
Fixpoint replace_all_from (pat repl : jsstring) (skip : nat)
    (before_rev s : jsstring) : jsstring :=
  match s with
  | [] => []
  | c :: s' =>
      match skip with
      | S k => replace_all_from pat repl k (c :: before_rev) s'
      | O =>
          if starts_with pat s then
            GetSubstitution pat (rev before_rev) (drop (length pat) s) repl
              ++ replace_all_from pat repl (pred (length pat)) (c :: before_rev) s'
          else c :: replace_all_from pat repl O (c :: before_rev) s'
      end
  end.

Definition String_replace_g (s pat repl : jsstring) : jsstring :=
  replace_all_from pat repl O [] s.

(** [s.split(sep)[0]] for a one-unit separator: the text before its first
    occurrence, or all of [s]. *)
Fixpoint split_head (sep : N) (s : jsstring) : jsstring :=
  match s with
  | [] => []
  | c :: s' => if N.eqb c sep then [] else c :: split_head sep s'
  end.

(** [s.toLowerCase()] on the letters A-Z; the Unicode case tables beyond
    ASCII are not modelled and other code units are left as they are. *)
Definition lower_unit (c : N) : N :=
  if (N.leb 65 c && N.leb c 90)%bool then (c + 32)%N else c.

Definition toLowerCase (s : jsstring) : jsstring := map lower_unit s.

(** The white space of [\s] and of [trim]: the ASCII and the Unicode
    space separators and line terminators. *)
Definition is_space (c : N) : bool :=
  (N.leb 9 c && N.leb c 13)%bool || N.eqb c 32 || N.eqb c 160
  || N.eqb c 5760 || (N.leb 8192 c && N.leb c 8202)%bool
  || N.eqb c 8232 || N.eqb c 8233 || N.eqb c 8239 || N.eqb c 8287
  || N.eqb c 12288 || N.eqb c 65279.

Fixpoint trim_start (s : jsstring) : jsstring :=
  match s with
  | c :: s' => if is_space c then trim_start s' else s
  | [] => []
  end.

Definition String_trim (s : jsstring) : jsstring :=
  rev (trim_start (rev (trim_start s))).

(** [parseInt(s)] without a radix: leading white space is skipped, a sign
    is read, [0x] or [0X] selects base 16, and the longest run of digits is
    the value; without a digit the result is [NaN], here [None].  (The value
    is the exact integer: the rounding of integers beyond [2 ^ 53] and the
    sign of zero are not modelled.) *)
Definition digit_value (radix : Z) (c : N) : option Z :=
  let v :=
    if (N.leb 48 c && N.leb c 57)%bool then Z.of_N c - 48
    else if (N.leb 97 c && N.leb c 122)%bool then Z.of_N c - 87
    else if (N.leb 65 c && N.leb c 90)%bool then Z.of_N c - 55
    else 36 in
  if v <? radix then Some v else None.

Fixpoint parse_digits (radix : Z) (acc : option Z) (s : jsstring) : option Z :=
  match s with
  | [] => acc
  | c :: s' =>
      match digit_value radix c with
      | Some v => parse_digits radix (Some (default 0 acc * radix + v)) s'
      | None => acc
      end
  end.

Definition parseInt (s : jsstring) : option Z :=
  let s1 := trim_start s in
  let '(sign, s2) :=
    match s1 with
    | c :: r => if N.eqb c 45 then (-1, r) else if N.eqb c 43 then (1, r) else (1, s1)
    | [] => (1, s1)
    end in
  let '(radix, s3) :=
    match s2 with
    | c :: x :: r =>
        if (N.eqb c 48 && (N.eqb x 120 || N.eqb x 88))%bool then (16, r) else (10, s2)
    | _ => (10, s2)
    end in
  Z.mul sign <$> parse_digits radix None s3.

(** *** Numbers outside the integers: binary64

    A finite double is [mant * 2 ^ expo].  The scripts apply [*] and [/] to
    integers below [2 ^ 53] and to the literals [0.8] and [1.5], so results
    stay in the normal range; subnormals, overflow and the sign of zero are
    not modelled.  A division by zero (NaN or an infinity) is [None]. *)
Record f64 := F64 { mant : Z; expo : Z }.

(** [num / den] rounded to the nearest integer, ties to even
    ([0 <= num], [0 < den]). *)
Definition rne (num den : Z) : Z :=
  let q := num / den in
  let r := num mod den in
  if 2 * r <? den then q
  else if den <? 2 * r then q + 1
  else if Z.even q then q else q + 1.

(** The exponent [e] of the double nearest to [num / den] ([0 < num],
    [0 < den]): the one with [2 ^ 52 <= (num / den) / 2 ^ e < 2 ^ 53]. *)
Definition ratio_expo (num den : Z) : Z :=
  let d := Z.log2 num - Z.log2 den in
  let ge := if 0 <=? d then den * 2 ^ d <=? num else den <=? num * 2 ^ (- d) in
  (if ge then d else d - 1) - 52.

(** The double nearest to the rational [num / den] ([0 < den]):
    round-to-nearest, ties-to-even on a 53-bit significand. *)
Definition f64_of_ratio (num den : Z) : f64 :=
  if num =? 0 then F64 0 0
  else
    let a := Z.abs num in
    let e := ratio_expo a den in
    let m := if 0 <=? e then rne a (den * 2 ^ e) else rne (a * 2 ^ (- e)) den in
    F64 (Z.sgn num * m) e.

(** An integer [n] with [|n| <= 2 ^ 53] as a double. *)
Definition f64_of_Z (n : Z) : f64 := F64 n 0.

(** The literals [0.8] and [1.5]. *)
Definition f64_0_8 : f64 := Eval vm_compute in f64_of_ratio 8 10.
Definition f64_1_5 : f64 := Eval vm_compute in f64_of_ratio 15 10.

(** [x * y] *)
Definition f64_mul (x y : f64) : f64 :=
  let m := mant x * mant y in
  let e := expo x + expo y in
  if 0 <=? e then f64_of_ratio (m * 2 ^ e) 1 else f64_of_ratio m (2 ^ (- e)).

(** [x / y] *)
Definition f64_div (x y : f64) : option f64 :=
  if mant y =? 0 then None
  else
    let s := Z.sgn (mant y) in
    let d := expo x - expo y in
    Some (if 0 <=? d then f64_of_ratio (s * mant x * 2 ^ d) (Z.abs (mant y))
          else f64_of_ratio (s * mant x) (Z.abs (mant y) * 2 ^ (- d))).

(** [Math.round(x)]: the integer nearest to [x], a tie going up, that is
    [floor (x + 1/2)]. *)
Definition Math_round (x : f64) : Z :=
  if 0 <=? expo x then mant x * 2 ^ expo x
  else (2 * mant x + 2 ^ (- expo x)) / 2 ^ (1 - expo x).

(** [encodeURIComponent(s)]: the unreserved ASCII units are kept, every
    other code point is written as the percent-escaped bytes of its UTF-8
    form, and a lone surrogate is a [URIError]. *)
Definition uri_unreserved (c : N) : bool :=
  (N.leb 65 c && N.leb c 90)%bool || (N.leb 97 c && N.leb c 122)%bool
  || (N.leb 48 c && N.leb c 57)%bool
  || bool_decide (c ∈ [45; 95; 46; 33; 126; 42; 39; 40; 41]%N).

Definition hex_digit (n : N) : N :=
  if N.ltb n 10 then (48 + n)%N else (55 + n)%N.

Definition percent (b : N) : jsstring :=
  [37%N; hex_digit (b / 16); hex_digit (b mod 16)].

Definition utf8 (cp : N) : list N :=
  (if N.ltb cp 128 then [cp]
   else if N.ltb cp 2048 then [192 + cp / 64; 128 + cp mod 64]
   else if N.ltb cp 65536 then
     [224 + cp / 4096; 128 + (cp / 64) mod 64; 128 + cp mod 64]
   else
     [240 + cp / 262144; 128 + (cp / 4096) mod 64;
      128 + (cp / 64) mod 64; 128 + cp mod 64])%N.

Definition escape (cp : N) : jsstring := mjoin (map percent (utf8 cp)).

Definition is_high_surrogate (c : N) : bool := N.leb 55296 c && N.leb c 56319.
Definition is_low_surrogate (c : N) : bool := N.leb 56320 c && N.leb c 57343.

Fixpoint encodeURIComponent (s : jsstring) : result jsstring :=
  match s with
  | [] => Ok []
  | c :: r =>
      if uri_unreserved c then
        rbind (encodeURIComponent r) (λ t, Ok (c :: t))
      else if is_low_surrogate c then Throw URIError
      else if is_high_surrogate c then
        match r with
        | [] => Throw URIError
        | d :: r' =>
            if is_low_surrogate d then
              rbind (encodeURIComponent r') (λ t,
                Ok (escape (65536 + (c - 55296) * 1024 + (d - 56320))%N ++ t))
            else Throw URIError
        end
      else rbind (encodeURIComponent r) (λ t, Ok (escape c ++ t))
  end.

(** The names that every object inherits from [Object.prototype]: for an
    object literal [o] and such a name, [o[name]] is there whatever the keys
    of [o] are. *)
Definition Object_prototype_names : list jsstring :=
  [ js "constructor"; js "__proto__"; js "hasOwnProperty"; js "isPrototypeOf";
    js "propertyIsEnumerable"; js "toLocaleString"; js "toString"; js "valueOf";
    js "__defineGetter__"; js "__defineSetter__"; js "__lookupGetter__";
    js "__lookupSetter__" ].

End JS.
Import JS.

(** ** The data files

    The records of [data/neighborhoods.json], [data/hotels/<id>.json] and
    [data/all-hotels.json], as the data build writes them and the generator
    reads them.  A field that the generator guards with [||] is optional.
    The time stamps ([lastVerified], [lastUpdated]) and [isActive], which the
    data build writes and the generator never reads, are left out. *)
Module Hotel.
Record t := {
  id : jsstring;
  slug : jsstring;
  name : jsstring;
  starRating : Z;
  pricePerNight : Z;
  neighborhood : jsstring;
  neighborhoodName : option jsstring;
  distanceToAcropolis : jsstring;
  hasAcropolisView : bool;
  hasRooftopBar : bool;
  rooftopRating : option Z;
  amenities : option (list jsstring);
  bestFor : option (list jsstring);
  overview : option jsstring;
  pros : option (list jsstring);
  cons : option (list jsstring)
}.
End Hotel.

Module Hood.
Record t := {
  id : jsstring;
  name : jsstring;
  emoji : jsstring;
  tagline : jsstring;
  description : jsstring;
  avgPrice : Z;
  walkToAcropolis : jsstring;
  vibe : list jsstring;
  bestFor : list jsstring
}.
End Hood.

(** [data/hotels/<id>.json] *)
Record HoodData := {
  hotelCount : Z;
  hood_hotels : list Hotel.t
}.

Record PriceStats := {
  budget_count : Z;
  midRange_count : Z;
  upscale_count : Z;
  luxury_count : Z
}.

(** [data/all-hotels.json]; [avgPrice] is [None] when the file holds
    [null], which is how JSON writes a NaN. *)
Record AllHotels := {
  totalHotels : Z;
  avgPrice : option Z;
  priceStats : PriceStats;
  hotels : list Hotel.t
}.

(** ** scripts/fetch-hotels.js

    The data build: it seeds the curated hotels, gives each an id and a slug,
    and derives the aggregate index.  The search and extraction helpers above
    [generateSlug] are never called by [main]; of these, [fetchWithRetry] is
    modelled apart, in the module [Retry] below. *)
Module Fetch.

(** The class [[a-z0-9\s-]]. *)
Definition slug_unit (c : N) : bool :=
  (N.leb 97 c && N.leb c 122)%bool || (N.leb 48 c && N.leb c 57)%bool
  || is_space c || N.eqb c 45.

(** [s.replace(/p+/g, '-')] for a class [p] of code units: every maximal
    run of [p]-units becomes one hyphen. *)
Fixpoint squeeze (p : N → bool) (in_run : bool) (s : jsstring) : jsstring :=
  match s with
  | [] => []
  | c :: s' =>
      if p c then (if in_run then squeeze p true s' else 45%N :: squeeze p true s')
      else c :: squeeze p false s'
  end.

(** [generateSlug(name)] *)
Definition generateSlug (name : jsstring) : jsstring :=
  String_trim
    (squeeze (N.eqb 45) false
       (squeeze is_space false
          (List.filter slug_unit (toLowerCase name))))
  ++ js "-athens".

(** A curated hotel of [getSeedHotels]. *)
Record SeedHotel := Seed {
  seed_name : jsstring;
  seed_starRating : Z;
  seed_pricePerNight : Z;
  seed_hasAcropolisView : bool;
  seed_hasRooftopBar : bool;
  seed_rooftopRating : Z;
  seed_amenities : list jsstring;
  seed_bestFor : list jsstring;
  seed_overview : jsstring;
  seed_pros : list jsstring;
  seed_cons : list jsstring
}.

Definition seed_plaka : list SeedHotel := [
  Seed (js "Electra Palace Athens") 5 280 true true 5
    [js "Pool"; js "Spa"; js "Restaurant"; js "Gym"]
    [js "Luxury"; js "Couples"; js "Views"]
    (js "Iconic luxury hotel in the heart of Plaka with stunning rooftop pool and Acropolis views. Neoclassical elegance meets modern comfort.")
    [js "Rooftop pool with Acropolis view"; js "Prime Plaka location"; js "Excellent service"]
    [js "Premium pricing"; js "Can be busy"];
  Seed (js "Plaka Hotel") 3 95 true false 0
    [js "Breakfast"; js "WiFi"; js "AC"]
    [js "Budget"; js "Location"; js "Solo travelers"]
    (js "Charming budget-friendly hotel in the heart of Plaka. Simple rooms with great location and friendly staff.")
    [js "Unbeatable location"; js "Great value"; js "Rooftop terrace"]
    [js "Basic rooms"; js "No pool"];
  Seed (js "AVA Hotel Athens") 4 180 true true 4
    [js "Restaurant"; js "Bar"; js "WiFi"; js "Concierge"]
    [js "Boutique"; js "Couples"; js "Design lovers"]
    (js "Stylish boutique hotel with contemporary design and Acropolis views. Perfect blend of comfort and aesthetics.")
    [js "Beautiful design"; js "Great rooftop"; js "Quiet location"]
    [js "Small rooms"; js "Limited amenities"];
  Seed (js "Herodion Hotel") 4 165 true true 4
    [js "Restaurant"; js "Bar"; js "Garden"; js "WiFi"]
    [js "Families"; js "Couples"; js "History buffs"]
    (js "Elegant hotel at the foot of the Acropolis with beautiful garden and rooftop restaurant.")
    [js "Steps from Acropolis"; js "Lovely garden"; js "Family-friendly"]
    [js "Dated decor in some rooms"];
  Seed (js "Central Athens Hotel") 3 85 false false 0
    [js "Breakfast"; js "WiFi"; js "AC"]
    [js "Budget"; js "Solo travelers"; js "Short stays"]
    (js "Clean and comfortable budget option in central Plaka. No frills but excellent value.")
    [js "Great price"; js "Central location"; js "Clean rooms"]
    [js "Basic amenities"; js "No views"]
].

Definition seed_monastiraki : list SeedHotel := [
  Seed (js "A for Athens") 4 150 true true 5
    [js "Rooftop Bar"; js "Restaurant"; js "WiFi"]
    [js "Nightlife"; js "Young travelers"; js "Views"]
    (js "Hip hotel right on Monastiraki Square with the best rooftop bar in Athens. Unbeatable Acropolis views.")
    [js "Famous rooftop bar"; js "Perfect location"; js "Trendy vibe"]
    [js "Can be noisy"; js "Small rooms"];
  Seed (js "360 Degrees Hotel") 4 140 true true 4
    [js "Rooftop"; js "Bar"; js "WiFi"; js "Breakfast"]
    [js "Views"; js "Couples"; js "Photographers"]
    (js "Modern hotel with panoramic rooftop offering 360-degree views of Athens landmarks.")
    [js "Incredible views"; js "Modern rooms"; js "Great breakfast"]
    [js "Street noise"; js "Busy area"];
  Seed (js "Attalos Hotel") 3 75 true false 0
    [js "Rooftop Terrace"; js "Breakfast"; js "WiFi"]
    [js "Budget"; js "Backpackers"; js "Location"]
    (js "Classic budget hotel with rooftop terrace views. Simple but clean with unbeatable location.")
    [js "Budget-friendly"; js "Rooftop views"; js "Helpful staff"]
    [js "Basic rooms"; js "Old building"];
  Seed (js "O&B Athens Boutique Hotel") 4 170 true true 4
    [js "Spa"; js "Restaurant"; js "Bar"; js "Gym"]
    [js "Boutique"; js "Couples"; js "Wellness"]
    (js "Elegant boutique hotel combining neoclassical architecture with modern luxury.")
    [js "Beautiful building"; js "Excellent spa"; js "Quiet rooms"]
    [js "Pricey restaurant"];
  Seed (js "Athens Backpackers") 2 35 true true 3
    [js "Rooftop Bar"; js "Kitchen"; js "WiFi"]
    [js "Backpackers"; js "Budget"; js "Social"]
    (js "Legendary backpacker hostel with famous rooftop bar. Social atmosphere and great location.")
    [js "Super cheap"; js "Great rooftop"; js "Social vibe"]
    [js "Hostel dorms"; js "Can be loud"]
].

Definition seed_syntagma : list SeedHotel := [
  Seed (js "Hotel Grande Bretagne") 5 450 true true 5
    [js "Pool"; js "Spa"; js "Restaurant"; js "Gym"; js "Concierge"]
    [js "Luxury"; js "Special occasions"; js "Business"]
    (js "Athens' most iconic luxury hotel overlooking Syntagma Square. Historic grandeur with world-class service.")
    [js "Legendary hotel"; js "Stunning rooftop"; js "Impeccable service"]
    [js "Very expensive"; js "Formal atmosphere"];
  Seed (js "King George Athens") 5 380 true true 5
    [js "Restaurant"; js "Spa"; js "Butler Service"; js "Gym"]
    [js "Luxury"; js "Couples"; js "Fine dining"]
    (js "Boutique luxury hotel next to Grande Bretagne with intimate atmosphere and Tudor Hall restaurant.")
    [js "Intimate luxury"; js "Amazing restaurant"; js "Personal service"]
    [js "Expensive"; js "Smaller than GB"];
  Seed (js "NJV Athens Plaza") 5 220 true false 0
    [js "Restaurant"; js "Bar"; js "Gym"; js "Business Center"]
    [js "Business"; js "Central location"; js "Comfort"]
    (js "Modern luxury hotel on Syntagma Square. Excellent for business travelers and those wanting central location.")
    [js "Prime location"; js "Modern rooms"; js "Good value luxury"]
    [js "Less character"; js "No rooftop"];
  Seed (js "Electra Hotel Athens") 4 140 false true 3
    [js "Restaurant"; js "Bar"; js "WiFi"; js "Breakfast"]
    [js "Mid-range"; js "Shopping"; js "Convenience"]
    (js "Comfortable hotel on Ermou shopping street. Great base for exploring with rooftop restaurant.")
    [js "Shopping location"; js "Good breakfast"; js "Friendly staff"]
    [js "No Acropolis view"; js "Busy street"];
  Seed (js "Arethusa Hotel") 3 90 false false 0
    [js "Breakfast"; js "WiFi"; js "AC"]
    [js "Budget"; js "Central"; js "Practical"]
    (js "Simple, clean hotel steps from Syntagma metro. Perfect budget base for sightseeing.")
    [js "Great location"; js "Clean rooms"; js "Affordable"]
    [js "Basic amenities"; js "No views"]
].

Definition seed_kolonaki : list SeedHotel := [
  Seed (js "St. George Lycabettus") 5 250 true true 5
    [js "Pool"; js "Spa"; js "Restaurant"; js "Gym"]
    [js "Luxury"; js "Views"; js "Quiet"]
    (js "Hillside luxury hotel with stunning city views. Rooftop pool and Le Grand Balcon restaurant.")
    [js "Amazing views"; js "Rooftop pool"; js "Quiet area"]
    [js "Uphill walk"; js "Away from sites"];
  Seed (js "Periscope Hotel") 4 160 false true 3
    [js "Rooftop"; js "Bar"; js "WiFi"; js "Breakfast"]
    [js "Design"; js "Boutique"; js "Hip"]
    (js "Design-forward boutique hotel in fashionable Kolonaki. Modern aesthetic with rooftop terrace.")
    [js "Great design"; js "Trendy area"; js "Good breakfast"]
    [js "Small rooms"; js "No major views"];
  Seed (js "Coco-Mat Athens BC") 4 180 false false 0
    [js "Spa"; js "Restaurant"; js "Gym"; js "Organic Bedding"]
    [js "Wellness"; js "Eco-conscious"; js "Sleep quality"]
    (js "Wellness-focused hotel featuring Coco-Mat's famous organic mattresses and sustainable design.")
    [js "Best beds in Athens"; js "Eco-friendly"; js "Great spa"]
    [js "No rooftop"; js "Quiet area"];
  Seed (js "Kolonaki Townhouse") 3 120 false false 0
    [js "Breakfast"; js "WiFi"; js "Garden"]
    [js "Boutique"; js "Quiet"; js "Local feel"]
    (js "Charming small hotel in residential Kolonaki. Feels like staying at a friend's elegant home.")
    [js "Charming atmosphere"; js "Quiet street"; js "Personal service"]
    [js "Limited amenities"; js "No views"]
].

Definition seed_psyrri : list SeedHotel := [
  Seed (js "Pallas Athena Grecotel") 5 200 false true 4
    [js "Restaurant"; js "Bar"; js "Spa"; js "Art Gallery"]
    [js "Art lovers"; js "Design"; js "Nightlife"]
    (js "Art-focused luxury hotel with rotating exhibitions and vibrant design. In the heart of creative Psyrri.")
    [js "Unique art concept"; js "Great location"; js "Excellent restaurant"]
    [js "No Acropolis view"; js "Can be noisy"];
  Seed (js "Athens Tiare Hotel") 4 130 false true 3
    [js "Rooftop"; js "Bar"; js "WiFi"; js "Breakfast"]
    [js "Nightlife"; js "Young travelers"; js "Value"]
    (js "Modern hotel in the heart of Athens' nightlife district. Great rooftop for evening drinks.")
    [js "Nightlife location"; js "Modern rooms"; js "Good value"]
    [js "Street noise"; js "Basic breakfast"];
  Seed (js "InnAthens") 4 110 false false 0
    [js "Restaurant"; js "Bar"; js "WiFi"; js "Breakfast"]
    [js "Foodies"; js "Local experience"; js "Value"]
    (js "Boutique hotel with excellent restaurant serving modern Greek cuisine. Perfect for food lovers.")
    [js "Great restaurant"; js "Authentic area"; js "Good value"]
    [js "No rooftop"; js "Gritty neighborhood"];
  Seed (js "Athens Way Hotel") 3 80 false false 0
    [js "Breakfast"; js "WiFi"; js "AC"]
    [js "Budget"; js "Nightlife"; js "Young travelers"]
    (js "Simple budget hotel in vibrant Psyrri. Clean rooms and great location for exploring.")
    [js "Budget-friendly"; js "Great location"; js "Clean"]
    [js "Basic rooms"; js "Noisy area"]
].

Definition seed_koukaki : list SeedHotel := [
  Seed (js "Herodion Hotel") 4 155 true true 4
    [js "Restaurant"; js "Bar"; js "Garden"; js "WiFi"]
    [js "Families"; js "Quiet"; js "Acropolis access"]
    (js "Elegant hotel at the south slope of the Acropolis. Beautiful garden and easy access to sites.")
    [js "Quiet location"; js "Garden setting"; js "Near Acropolis"]
    [js "Uphill walk to center"];
  Seed (js "Acropolis Hill Hotel") 3 85 true false 0
    [js "Breakfast"; js "WiFi"; js "AC"; js "Terrace"]
    [js "Budget"; js "Views"; js "Local area"]
    (js "Great value hotel with Acropolis views in authentic Koukaki neighborhood.")
    [js "Acropolis views"; js "Local neighborhood"; js "Great value"]
    [js "Basic amenities"; js "Uphill location"];
  Seed (js "Marble House") 2 55 false false 0
    [js "Kitchen"; js "WiFi"; js "Garden"]
    [js "Budget"; js "Long stays"; js "Self-catering"]
    (js "Family-run pension with garden courtyard. Simple rooms but incredible value and warm hospitality.")
    [js "Super affordable"; js "Lovely garden"; js "Friendly owners"]
    [js "Very basic"; js "Shared facilities"];
  Seed (js "Philippos Hotel") 3 95 true false 0
    [js "Breakfast"; js "WiFi"; js "AC"]
    [js "Mid-range"; js "Quiet"; js "Couples"]
    (js "Comfortable hotel in quiet Koukaki with partial Acropolis views. Good base for sightseeing.")
    [js "Quiet area"; js "Good breakfast"; js "Near metro"]
    [js "Dated decor"; js "No rooftop"]
].

Definition seed_exarchia : list SeedHotel := [
  Seed (js "Exarchion Hotel") 3 65 false false 0
    [js "Breakfast"; js "WiFi"; js "AC"]
    [js "Budget"; js "Alternative culture"; js "Students"]
    (js "Classic hotel in bohemian Exarchia. Simple but clean with authentic neighborhood experience.")
    [js "Very affordable"; js "Authentic area"; js "Near museums"]
    [js "Gritty neighborhood"; js "Basic rooms"];
  Seed (js "Orion Hotel") 2 50 false false 0
    [js "WiFi"; js "AC"]
    [js "Budget"; js "Backpackers"; js "Long stays"]
    (js "No-frills budget hotel in Exarchia. Perfect for travelers who want to save money.")
    [js "Rock-bottom prices"; js "Central location"; js "Clean"]
    [js "Very basic"; js "Alternative area"];
  Seed (js "City Circus Athens") 3 40 false true 3
    [js "Rooftop"; js "Bar"; js "Kitchen"; js "Events"]
    [js "Backpackers"; js "Social"; js "Budget"]
    (js "Award-winning hostel with great rooftop and social events. Mix of dorms and private rooms.")
    [js "Great atmosphere"; js "Rooftop bar"; js "Social events"]
    [js "Hostel vibe"; js "Can be loud"]
].

Definition seed_piraeus : list SeedHotel := [
  Seed (js "Piraeus Theoxenia Hotel") 4 120 false false 0
    [js "Restaurant"; js "Bar"; js "WiFi"; js "Parking"]
    [js "Ferry travelers"; js "Business"; js "Marina views"]
    (js "Modern hotel near Piraeus port. Perfect for early ferry departures to the islands.")
    [js "Near ferries"; js "Marina views"; js "Good restaurant"]
    [js "Far from Athens center"; js "Industrial area"];
  Seed (js "Phidias Hotel") 3 75 false false 0
    [js "Breakfast"; js "WiFi"; js "AC"]
    [js "Ferry travelers"; js "Budget"; js "Practical"]
    (js "Simple hotel walking distance from Piraeus port. Ideal for catching early ferries.")
    [js "Very close to port"; js "Affordable"; js "Clean"]
    [js "Basic rooms"; js "Not scenic"];
  Seed (js "Kastella Hotel") 3 85 false false 0
    [js "Breakfast"; js "WiFi"; js "Sea View"]
    [js "Seafood lovers"; js "Local experience"; js "Quiet"]
    (js "Charming hotel in Kastella neighborhood with sea views. Near excellent seafood tavernas.")
    [js "Sea views"; js "Great restaurants nearby"; js "Authentic area"]
    [js "Far from center"; js "Limited transport"]
].

(** [getSeedHotels()]: the curated hotels by neighborhood id. *)
Definition getSeedHotels : gmap jsstring (list SeedHotel) :=
  list_to_map [
    (js "plaka", seed_plaka); (js "monastiraki", seed_monastiraki);
    (js "syntagma", seed_syntagma); (js "kolonaki", seed_kolonaki);
    (js "psyrri", seed_psyrri); (js "koukaki", seed_koukaki);
    (js "exarchia", seed_exarchia); (js "piraeus", seed_piraeus) ].

(** The callback of [hotels.map] in [main]: the derived fields, then the
    seed's own. *)
Definition processHotel (hood : Hood.t) (hotel : SeedHotel) : Hotel.t := {|
  Hotel.id :=
    String_replace (generateSlug (seed_name hotel)) (js "-athens") []
      ++ js "-" ++ Hood.id hood;
  Hotel.slug := generateSlug (seed_name hotel);
  Hotel.neighborhood := Hood.id hood;
  Hotel.neighborhoodName := Some (Hood.name hood);
  Hotel.distanceToAcropolis := Hood.walkToAcropolis hood;
  Hotel.name := seed_name hotel;
  Hotel.starRating := seed_starRating hotel;
  Hotel.pricePerNight := seed_pricePerNight hotel;
  Hotel.hasAcropolisView := seed_hasAcropolisView hotel;
  Hotel.hasRooftopBar := seed_hasRooftopBar hotel;
  Hotel.rooftopRating := Some (seed_rooftopRating hotel);
  Hotel.amenities := Some (seed_amenities hotel);
  Hotel.bestFor := Some (seed_bestFor hotel);
  Hotel.overview := Some (seed_overview hotel);
  Hotel.pros := Some (seed_pros hotel);
  Hotel.cons := Some (seed_cons hotel)
|}.

(** The variables of [main] that its loop over the neighborhoods updates,
    and the files it has written under [data/hotels]. *)
Record loop_state := {
  hoodFiles : gmap jsstring HoodData;
  allHotels : list Hotel.t;
  total : Z
}.

(** One turn of [for (const hood of neighborhoods.neighborhoods)].  The seed
    is read by its own keys: the model covers the catalogs none of whose ids
    is one of [Object_prototype_names], for which [seedHotels[hood.id]] is
    no array and the script stops with a [TypeError]. *)
Definition loop_body (seedHotels : gmap jsstring (list SeedHotel))
    (st : loop_state) (hood : Hood.t) : loop_state :=
  let hotels := default [] (seedHotels !! Hood.id hood) in
  let processedHotels := map (processHotel hood) hotels in
  let neighborhoodData :=
    {| hotelCount := Z.of_nat (length processedHotels);
       hood_hotels := processedHotels |} in
  {| hoodFiles := <[Hood.id hood := neighborhoodData]> (hoodFiles st);
     allHotels := allHotels st ++ processedHotels;
     total := total st + Z.of_nat (length processedHotels) |}.

(** [prices.reduce((a, b) => a + b, 0)] *)
Definition sum_prices (prices : list Z) : Z := fold_left Z.add prices 0.

(** [allHotels.filter(p).length] *)
Definition count (p : Hotel.t → bool) (l : list Hotel.t) : Z :=
  Z.of_nat (length (List.filter p l)).

(** The body of [main()] once the catalog and the seed are read: the files
    under [data/hotels], by neighborhood id, and the master file. *)
Definition build (seedHotels : gmap jsstring (list SeedHotel))
    (neighborhoods : list Hood.t) : gmap jsstring HoodData * AllHotels :=
  let st :=
    fold_left (loop_body seedHotels) neighborhoods
      {| hoodFiles := ∅; allHotels := []; total := 0 |} in
  let allHotels := allHotels st in
  let prices := map Hotel.pricePerNight allHotels in
  let avgPrice :=
    Math_round <$>
      f64_div (f64_of_Z (sum_prices prices)) (f64_of_Z (Z.of_nat (length prices))) in
  let priceStats := {|
    budget_count := count (λ h, Hotel.pricePerNight h <? 80) allHotels;
    midRange_count :=
      count (λ h, (80 <=? Hotel.pricePerNight h) && (Hotel.pricePerNight h <? 150)) allHotels;
    upscale_count :=
      count (λ h, (150 <=? Hotel.pricePerNight h) && (Hotel.pricePerNight h <? 250)) allHotels;
    luxury_count := count (λ h, 250 <=? Hotel.pricePerNight h) allHotels |} in
  (hoodFiles st,
   {| totalHotels := total st;
      avgPrice := avgPrice;
      priceStats := priceStats;
      hotels := allHotels |}).

(** [main()], given the catalog of [data/neighborhoods.json]. *)
Definition main (neighborhoods : list Hood.t) : gmap jsstring HoodData * AllHotels :=
  build getSeedHotels neighborhoods.

End Fetch.

(** ** scripts/fetch-hotels.js: [fetchWithRetry]

    The helper of the search and extraction functions.  The network is an
    oracle: [fetch i] is how the [i]-th call of [fetch(url, options)] settles,
    with a response or with a rejection.  A run gives the calls and the waits
    in their order, and how the function completes.  The console output is
    not modelled. *)
Module Retry.

(** What the function reads of a [Response]: [res.ok], [res.status] and
    [res.headers.get('Retry-After')]. *)
Record Response := {
  ok : bool;
  status : Z;
  retry_after : option jsstring
}.

Section fetchWithRetry.

(** The values a rejected [fetch] throws. *)
Context {error : Type}.

Inductive outcome :=
| Responded (res : Response)
| Rejected (e : error).

(** [Request]: a call of [fetch]; [Delay ms]: an [await delay(ms)], where
    [None] is [NaN]. *)
Inductive event :=
| Request
| Delay (ms : option Z).

Inductive completion :=
| Returned (res : option Response)
| Thrown (e : error).

(** [parseInt(res.headers.get('Retry-After') || '60') * 1000] *)
Definition waitTime (res : Response) : option Z :=
  let header :=
    match retry_after res with
    | Some (c :: s) => c :: s
    | _ => js "60"
    end in
  (λ seconds, seconds * 1000) <$> parseInt header.

(** The turns of [for (let i = 0; i < retries; i++)] from [i] on, when
    [turns] of them are left. *)
Fixpoint attempts (fetch : nat → outcome) (retries : Z) (turns i : nat)
    : list event * completion :=
  match turns with
  | O => ([], Returned None)
  | S turns' =>
      let continue (ms : option Z) :=
        let '(trace, c) := attempts fetch retries turns' (S i) in
        (Request :: Delay ms :: trace, c) in
      match fetch i with
      | Responded res =>
          if ok res then ([Request], Returned (Some res))
          else if status res =? 429 then continue (waitTime res)
          else continue (Some (2000 * (Z.of_nat i + 1)))
      | Rejected e =>
          if Z.of_nat i =? retries - 1 then ([Request], Thrown e)
          else continue (Some (2000 * (Z.of_nat i + 1)))
      end
  end.

(** [fetchWithRetry(url, options, retries)], for an integer [retries] and
    responses that have their headers. *)
Definition fetchWithRetry (fetch : nat → outcome) (retries : Z)
    : list event * completion :=
  attempts fetch retries (Z.to_nat retries) 0.

(** The [j]-th call gets a response that is [ok]. *)
Definition succeeds (fetch : nat → outcome) (j : nat) : Prop :=
  ∃ res, fetch j = Responded res ∧ ok res = true.

(** The wait that follows the [j]-th call when the loop goes on. *)
Definition wait_after (fetch : nat → outcome) (j : nat) : option Z :=
  match fetch j with
  | Responded res =>
      if status res =? 429 then waitTime res else Some (2000 * (Z.of_nat j + 1))
  | Rejected _ => Some (2000 * (Z.of_nat j + 1))
  end.

(** The calls and the waits of [n] turns, from the [i]-th on, that do not
    end the run. *)
Definition rounds (fetch : nat → outcome) (i n : nat) : list event :=
  mjoin (map (λ j, [Request; Delay (wait_after fetch j)]) (seq i n)).

End fetchWithRetry.

Arguments outcome : clear implicits.
Arguments completion : clear implicits.

End Retry.

(** ** scripts/generate.js *)
Module Generate.

(** The code units of the symbols in the script's literals. *)
Definition star_filled : N := 9733.
Definition star_empty : N := 9734.
Definition u_bullet : jsstring := [8226%N].
Definition u_euro : jsstring := [8364%N].
Definition u_check : jsstring := [10003%N].
Definition u_hotel : jsstring := [55356; 57320]%N.
Definition u_temple : jsstring := [55356; 57307]%N.
Definition u_vs16 : jsstring := [65039%N].
Definition u_cocktail : jsstring := [55356; 57208]%N.
Definition u_crown : jsstring := [55357; 56401]%N.

(** What the script loads when it starts: the six templates, the two data
    files, and what its builders read later (the per-neighborhood files by
    neighborhood id, the [FORMSPREE_ID] of the process environment). *)
Record Input := {
  layoutTemplate : jsstring;
  homeTemplate : jsstring;
  neighborhoodTemplate : jsstring;
  hotelTemplate : jsstring;
  contactTemplate : jsstring;
  thankYouTemplate : jsstring;
  allHotelsData : AllHotels;
  neighborhoodsData : list Hood.t;
  hoodFile : gmap jsstring HoodData;
  FORMSPREE_ID : option jsstring
}.

(** The world a run acts on: the files of [dist], by their path below it,
    and how many times the clock has been read. *)
Record world := World {
  files : gmap jsstring jsstring;
  ticks : nat
}.

(** A builder: it may write files, read the clock, and throw. *)
Definition M (A : Type) : Type := world → world * result A.

Definition ret {A} (a : A) : M A := λ w, (w, Ok a).

Definition bind {A B} (m : M A) (k : A → M B) : M B :=
  λ w, match m w with
       | (w', Ok a) => k a w'
       | (w', Throw e) => (w', Throw e)
       end.

Definition lift {A} (r : result A) : M A := λ w, (w, r).

#[export] Instance M_ret : MRet M := @ret.
#[export] Instance M_bind : MBind M := λ A B k m, bind m k.

(** [m] neither reads the files nor the clock: whatever the world, it adds
    the files [E] (replacing those already there) and returns [r]. *)
Definition writes {A} (m : M A) (E : gmap jsstring jsstring) (r : result A) : Prop :=
  ∀ w, m w = (World (E ∪ files w) (ticks w), r).

(** [m] ends without an exception exactly when [ok] holds, whatever the
    world; it creates or replaces files at [paths] only and leaves every
    other file as it is; when it ends without an exception it has written
    all of [paths]. *)
Definition runs {A} (m : M A) (ok : Prop) (paths : gset jsstring) : Prop :=
  ∀ w, ∃ E t r,
    m w = (World (E ∪ files w) t, r) ∧
    ((∃ a, r = Ok a) ↔ ok) ∧
    dom E ⊆ paths ∧
    ((∃ a, r = Ok a) → dom E = paths).

(** [m] does not read the clock, creates or replaces files at [paths] only,
    and throws no exception other than those of [exns]. *)
Definition within {A} (m : M A) (exns : list exn) (paths : gset jsstring) : Prop :=
  ∀ w, ∃ E r,
    m w = (World (E ∪ files w) (ticks w), r) ∧
    dom E ⊆ paths ∧
    ∀ e, r = Throw e → e ∈ exns.

(** [fs.writeFileSync(path.join(distDir, ...), data)]: the file is created
    or replaced.  A write is taken to succeed: the errors of the file system
    (a directory that is missing, as for a slug with a separator) are not
    part of the model. *)
Definition writeFileSync (path data : jsstring) : M unit :=
  λ w, (World (<[path := data]> (files w)) (ticks w), Ok tt).

(** [for (const x of l) body] *)
Fixpoint for_of {A} (l : list A) (body : A → M unit) : M unit :=
  match l with
  | [] => ret tt
  | x :: l' => body x ;; for_of l' body
  end.

(** [l.map(f)] for a callback with effects. *)
Fixpoint map_M {A B} (f : A → M B) (l : list A) : M (list B) :=
  match l with
  | [] => ret []
  | x :: l' => y ← f x ; ys ← map_M f l' ; ret (y :: ys)
  end.

(** [path.join] of segments that need no normalisation (the identifiers and
    slugs of the data build hold no separator and no dot segment): for a
    slug or an id with a separator the model path is not the path of the
    script. *)
Definition path_join (segments : list jsstring) : jsstring :=
  Array_join (js "/") segments.

(** [a || d] for a string [a] that may be missing: the empty string is
    falsy too. *)
Definition or_string (a : option jsstring) (d : jsstring) : jsstring :=
  match a with
  | Some (c :: s) => c :: s
  | _ => d
  end.

(** [`${a}`] for a string [a] that may be missing (a key that is absent; a
    JSON [null], which would print as "null", is no value of the model). *)
Definition interpolate (a : option jsstring) : jsstring :=
  match a with
  | Some s => s
  | None => js "undefined"
  end.

(** [String(n)] for a number that may be [null]. *)
Definition String_of_number (n : option Z) : jsstring :=
  match n with
  | Some z => String_of_Z z
  | None => js "null"
  end.

(** [r >= n] for a number [r] that may be missing. *)
Definition number_ge (r : option Z) (n : Z) : bool :=
  match r with
  | Some z => n <=? z
  | None => false
  end.

(** The chained [.replace(/\{\{X\}\}/g, v)] and [.replace('{{X}}', v)]. *)
Definition replace_g (pat repl s : jsstring) : jsstring := String_replace_g s pat repl.
Definition replace (pat repl s : jsstring) : jsstring := String_replace s pat repl.
Notation "s ▷ f" := (f s) (at level 45, left associativity, only parsing).

(** [getPriceTier(price)] *)
Definition getPriceTier (price : Z) : jsstring :=
  if price <? 80 then js "budget"
  else if price <? 150 then js "mid"
  else if price <? 250 then js "upscale"
  else js "luxury".

(** [generateStars(rating)] *)
Definition generateStars (rating : Z) : result jsstring :=
  rbind (String_repeat [star_filled] rating) (λ filled,
  rbind (String_repeat [star_empty] (5 - rating)) (λ empty,
  Ok (filled ++ empty))).

(** The badge literals of [generateHotelCard] and of [generateHotelPages]. *)
Definition card_badge_view : jsstring :=
  mjoin [js "<span class=^badge badge-view^>"; u_temple; u_vs16; js " Acropolis View</span>"].
Definition card_badge_rooftop : jsstring :=
  mjoin [js "<span class=^badge badge-rooftop^>"; u_cocktail; js " Rooftop Bar</span>"].
Definition page_badge_view : jsstring :=
  mjoin [js "<span class=^hotel-badge^>"; u_temple; u_vs16; js " Acropolis View</span>"].
Definition page_badge_rooftop : jsstring :=
  mjoin [js "<span class=^hotel-badge^>"; u_cocktail; js " Rooftop Bar</span>"].
Definition page_badge_luxury : jsstring :=
  mjoin [js "<span class=^hotel-badge^>"; u_crown; js " Luxury</span>"].

(** The [badges] array of [generateHotelCard]. *)
Definition card_badges (hotel : Hotel.t) : list jsstring :=
  (if Hotel.hasAcropolisView hotel then [card_badge_view] else [])
  ++ (if Hotel.hasRooftopBar hotel then [card_badge_rooftop] else []).

(** [generateHotelCard(hotel)] *)
Definition generateHotelCard (hotel : Hotel.t) : result jsstring :=
  let badges := card_badges hotel in
  rbind (generateStars (Hotel.starRating hotel)) (λ stars,
  Ok (mjoin [
    text [""; "    <a href=^/hotel/"];
    Hotel.slug hotel;
    js "^ class=^hotel-card^ data-tier=^";
    getPriceTier (Hotel.pricePerNight hotel);
    js "^ data-view=^";
    String_of_bool (Hotel.hasAcropolisView hotel);
    text ["^>"; "      <div class=^hotel-card-image^>"];
    u_hotel;
    text ["</div>"; "      <div class=^hotel-card-content^>"; "        <h3>"];
    Hotel.name hotel;
    text ["</h3>"; "        <div class=^hotel-card-meta^>"; "          <span>"];
    stars;
    text ["</span>"; "          <span>"];
    u_bullet;
    text ["</span>"; "          <span>"];
    or_string (Hotel.neighborhoodName hotel) (Hotel.neighborhood hotel);
    text ["</span>"; "        </div>"; "        <div class=^hotel-card-badges^>"];
    Array_join [] badges;
    text ["</div>"; "        <div class=^hotel-card-price^>";
          "          <span class=^from^>from</span>";
          "          <span class=^price^>"];
    u_euro;
    String_of_Z (Hotel.pricePerNight hotel);
    text ["</span>"; "          <span class=^per^>/night</span>";
          "        </div>"; "      </div>"; "    </a>"; "  "] ])).

(** [generateNeighborhoodCard(hood)] *)
Definition generateNeighborhoodCard (hood : Hood.t) : jsstring :=
  mjoin [
    text [""; "    <a href=^/athens-hotels/"];
    Hood.id hood;
    text ["^ class=^neighborhood-card^>"; "      <span class=^emoji^>"];
    Hood.emoji hood;
    text ["</span>"; "      <h3>"];
    Hood.name hood;
    text ["</h3>"; "      <p class=^price^>from "];
    u_euro;
    String_of_Z (Hood.avgPrice hood);
    text ["/night</p>"; "      <p class=^walk^>"];
    Hood.walkToAcropolis hood;
    text [" to Acropolis</p>"; "    </a>"; "  "] ].

(** [hotels.map(generateHotelCard).join('')] *)
Definition hotelCards (l : list Hotel.t) : result jsstring :=
  rbind (rmap generateHotelCard l) (λ cards, Ok (Array_join [] cards)).

Section builders.

(** The loaded input, and the clock: [clock i] is what
    [new Date().toISOString()] returns the [i]-th time the run asks. *)
Context (inp : Input) (clock : nat → jsstring).

(** [new Date().toISOString()] *)
Definition now : M jsstring :=
  λ w, (World (files w) (S (ticks w)), Ok (clock (ticks w))).

(** [wrapInLayout(content, title, description, url)] *)
Definition wrapInLayout (content title description url : jsstring) : jsstring :=
  layoutTemplate inp
    ▷ replace_g (js "{{PAGE_TITLE}}") title
    ▷ replace_g (js "{{PAGE_DESCRIPTION}}") description
    ▷ replace_g (js "{{PAGE_URL}}") url
    ▷ replace (js "{{CONTENT}}") content.

(** The hotels of the home page's two sections, before they are rendered:
    [.filter(...).slice(0, 6)]. *)
Definition home_acropolisViewHotels : list Hotel.t :=
  Array_slice0 6
    (filter (λ h, Hotel.hasAcropolisView h) (hotels (allHotelsData inp))).

Definition home_rooftopHotels : list Hotel.t :=
  Array_slice0 6
    (filter (λ h, Hotel.hasRooftopBar h && number_ge (Hotel.rooftopRating h) 4)
       (hotels (allHotelsData inp))).

(** [generateHomepage()] *)
Definition generateHomepage : M unit :=
  let neighborhoodsGrid :=
    Array_join [] (map generateNeighborhoodCard (neighborhoodsData inp)) in
  acropolisViewHotels ← lift (hotelCards home_acropolisViewHotels) ;
  rooftopHotels ← lift (hotelCards home_rooftopHotels) ;
  let stats := priceStats (allHotelsData inp) in
  let content :=
    homeTemplate inp
      ▷ replace_g (js "{{TOTAL_HOTELS}}") (String_of_Z (totalHotels (allHotelsData inp)))
      ▷ replace (js "{{AVG_PRICE}}") (String_of_number (avgPrice (allHotelsData inp)))
      ▷ replace (js "{{BUDGET_COUNT}}") (String_of_Z (budget_count stats))
      ▷ replace (js "{{MID_COUNT}}") (String_of_Z (midRange_count stats))
      ▷ replace (js "{{UPSCALE_COUNT}}") (String_of_Z (upscale_count stats))
      ▷ replace (js "{{LUXURY_COUNT}}") (String_of_Z (luxury_count stats))
      ▷ replace (js "{{NEIGHBORHOODS_GRID}}") neighborhoodsGrid
      ▷ replace (js "{{ACROPOLIS_VIEW_HOTELS}}") acropolisViewHotels
      ▷ replace (js "{{ROOFTOP_HOTELS}}") rooftopHotels in
  let html :=
    wrapInLayout content
      (js "Compare Hotels by Neighborhood")
      (mjoin [js "Discover "; String_of_Z (totalHotels (allHotelsData inp));
              js "+ Athens hotels. Compare prices, Acropolis views, rooftop bars by neighborhood."])
      (js "https://hotelsofathens.com/") in
  writeFileSync (path_join [js "index.html"]) html.

(** The body of the loop of [generateNeighborhoodPages()].  A file of
    [data/hotels] that is there holds its [hotels] and [hotelCount]: the
    [SyntaxError] of [JSON.parse] and the [TypeError] of a file without
    hotels are not part of the model. *)
Definition generateNeighborhoodPage (hood : Hood.t) : M unit :=
  hoodData ←
    lift (match hoodFile inp !! Hood.id hood with
          | Some d => Ok d
          | None => Throw ENOENT
          end) ;
  hotelsGrid ← lift (hotelCards (hood_hotels hoodData)) ;
  let vibeTags :=
    Array_join []
      (map (λ v, mjoin [js "<span class=^vibe-tag^>"; v; js "</span>"]) (Hood.vibe hood)) in
  let nearby :=
    Array_join []
      (map generateNeighborhoodCard
         (Array_slice0 4
            (filter (λ n, Hood.id n ≠ Hood.id hood) (neighborhoodsData inp)))) in
  let faqGoodArea :=
    mjoin [js "Yes! "; Hood.name hood; js " is ";
           toLowerCase (split_head 46 (Hood.description hood));
           js ". It's especially good for ";
           toLowerCase (Array_join (js ", ") (Hood.bestFor hood)); js "."] in
  let faqDistance :=
    mjoin [js "Most hotels in "; Hood.name hood;
           js " are within easy walking distance of the Acropolis and other major attractions."] in
  let faqPrice :=
    js "You can find options ranging from budget hostels to luxury hotels depending on your preferences." in
  let content :=
    neighborhoodTemplate inp
      ▷ replace_g (js "{{NAME}}") (Hood.name hood)
      ▷ replace_g (js "{{EMOJI}}") (Hood.emoji hood)
      ▷ replace_g (js "{{TAGLINE}}") (Hood.tagline hood)
      ▷ replace_g (js "{{DESCRIPTION}}") (Hood.description hood)
      ▷ replace_g (js "{{HOTEL_COUNT}}") (String_of_Z (hotelCount hoodData))
      ▷ replace_g (js "{{AVG_PRICE}}") (String_of_Z (Hood.avgPrice hood))
      ▷ replace_g (js "{{WALK_TIME}}") (Hood.walkToAcropolis hood)
      ▷ replace (js "{{VIBE_TAGS}}") vibeTags
      ▷ replace (js "{{BEST_FOR}}") (Array_join (js ", ") (Hood.bestFor hood))
      ▷ replace (js "{{HOTELS_GRID}}") hotelsGrid
      ▷ replace (js "{{NEARBY_NEIGHBORHOODS}}") nearby
      ▷ replace (js "{{FAQ_GOOD_AREA}}") faqGoodArea
      ▷ replace (js "{{FAQ_DISTANCE}}") faqDistance
      ▷ replace (js "{{FAQ_PRICE}}") faqPrice in
  let html :=
    wrapInLayout content
      (mjoin [js "Hotels in "; Hood.name hood; js ", Athens"])
      (mjoin [js "Find the best hotels in "; Hood.name hood; js ", Athens. ";
              Hood.tagline hood; js ". Compare "; String_of_Z (hotelCount hoodData);
              js " hotels from "; u_euro; String_of_Z (Hood.avgPrice hood); js "/night."])
      (mjoin [js "https://hotelsofathens.com/athens-hotels/"; Hood.id hood]) in
  writeFileSync (path_join [js "athens-hotels"; Hood.id hood ++ js ".html"]) html.

(** [generateNeighborhoodPages()] *)
Definition generateNeighborhoodPages : M unit :=
  for_of (neighborhoodsData inp) generateNeighborhoodPage.

(** The [badges] array of a hotel page. *)
Definition page_badges (hotel : Hotel.t) : list jsstring :=
  (if Hotel.hasAcropolisView hotel then [page_badge_view] else [])
  ++ (if Hotel.hasRooftopBar hotel then [page_badge_rooftop] else [])
  ++ (if 5 <=? Hotel.starRating hotel then [page_badge_luxury] else []).

(** The two ends of the price range of a hotel page:
    [Math.round(hotel.pricePerNight * 0.8)] and
    [Math.round(hotel.pricePerNight * 1.5)]. *)
Definition price_min (hotel : Hotel.t) : Z :=
  Math_round (f64_mul (f64_of_Z (Hotel.pricePerNight hotel)) f64_0_8).

Definition price_max (hotel : Hotel.t) : Z :=
  Math_round (f64_mul (f64_of_Z (Hotel.pricePerNight hotel)) f64_1_5).

(** The hotels of the [similarHotels] grid of a hotel page, before they are
    rendered. *)
Definition similar (hotel : Hotel.t) : list Hotel.t :=
  Array_slice0 3
    (filter (λ h, Hotel.neighborhood h = Hotel.neighborhood hotel
                  ∧ Hotel.id h ≠ Hotel.id hotel)
       (hotels (allHotelsData inp))).

(** The path, below [dist], of a hotel's page. *)
Definition hotel_path (hotel : Hotel.t) : jsstring :=
  path_join [js "hotel"; Hotel.slug hotel ++ js ".html"].

(** The page of a hotel, as [generateHotelPages()] builds it. *)
Definition hotel_html (hotel : Hotel.t) : result jsstring :=
  let amenitiesHtml :=
    Array_join []
      (map (λ a, mjoin [js "<span class=^amenity^>"; a; js "</span>"])
         (default [] (Hotel.amenities hotel))) in
  let prosHtml :=
    Array_join []
      (map (λ p, mjoin [js "<li>"; p; js "</li>"])
         (default [js "Great location"; js "Good value"] (Hotel.pros hotel))) in
  let consHtml :=
    Array_join []
      (map (λ c, mjoin [js "<li>"; c; js "</li>"])
         (default [js "Book early"] (Hotel.cons hotel))) in
  let badges := page_badges hotel in
  let bestForTags :=
    Array_join []
      (map (λ b, mjoin [js "<span class=^best-for-tag^>"; b; js "</span>"])
         (default [js "Travelers"] (Hotel.bestFor hotel))) in
  rbind (hotelCards (similar hotel)) (λ similarHotels,
  rbind (generateStars (Hotel.starRating hotel)) (λ stars,
  rbind (encodeURIComponent (Hotel.name hotel ++ js " Athens")) (λ query,
  let content :=
    hotelTemplate inp
      ▷ replace_g (js "{{NAME}}") (Hotel.name hotel)
      ▷ replace_g (js "{{NEIGHBORHOOD_ID}}") (Hotel.neighborhood hotel)
      ▷ replace_g (js "{{NEIGHBORHOOD_NAME}}")
          (or_string (Hotel.neighborhoodName hotel) (Hotel.neighborhood hotel))
      ▷ replace (js "{{STARS}}") stars
      ▷ replace (js "{{STAR_RATING}}") (String_of_Z (Hotel.starRating hotel))
      ▷ replace (js "{{BADGES}}") (Array_join [] badges)
      ▷ replace_g (js "{{PRICE}}") (String_of_Z (Hotel.pricePerNight hotel))
      ▷ replace (js "{{PRICE_MIN}}") (String_of_Z (price_min hotel))
      ▷ replace (js "{{PRICE_MAX}}") (String_of_Z (price_max hotel))
      ▷ replace (js "{{OVERVIEW}}")
          (or_string (Hotel.overview hotel)
             (mjoin [Hotel.name hotel; js " is a "; String_of_Z (Hotel.starRating hotel);
                     js "-star hotel in "; interpolate (Hotel.neighborhoodName hotel);
                     js ", Athens."]))
      ▷ replace (js "{{AMENITIES}}") amenitiesHtml
      ▷ replace (js "{{PROS}}") prosHtml
      ▷ replace (js "{{CONS}}") consHtml
      ▷ replace (js "{{LOCATION_DESC}}")
          (mjoin [Hotel.distanceToAcropolis hotel; js " walk to the Acropolis."])
      ▷ replace (js "{{DISTANCE_ACROPOLIS}}") (Hotel.distanceToAcropolis hotel)
      ▷ replace (js "{{DISTANCE_METRO}}") (js "5-10 min")
      ▷ replace (js "{{HAS_VIEW}}")
          (if Hotel.hasAcropolisView hotel then js "Yes " ++ u_check else js "No")
      ▷ replace (js "{{HAS_ROOFTOP}}")
          (if Hotel.hasRooftopBar hotel then js "Yes " ++ u_check else js "No")
      ▷ replace (js "{{BEST_FOR_TAGS}}") bestForTags
      ▷ replace (js "{{SIMILAR_HOTELS}}") similarHotels
      ▷ replace (js "{{BOOKING_URL}}")
          (mjoin [js "https://www.booking.com/searchresults.html?ss="; query]) in
  Ok (wrapInLayout content
        (Hotel.name hotel)
        (mjoin [Hotel.name hotel; js " - "; String_of_Z (Hotel.starRating hotel);
                js "-star hotel in "; interpolate (Hotel.neighborhoodName hotel);
                js ", Athens. From "; u_euro; String_of_Z (Hotel.pricePerNight hotel);
                js "/night. ";
                if Hotel.hasAcropolisView hotel then js "Acropolis views available." else []])
        (mjoin [js "https://hotelsofathens.com/hotel/"; Hotel.slug hotel]))))).

(** [generateHotelPages()] *)
Definition generateHotelPages : M unit :=
  for_of (hotels (allHotelsData inp)) (λ hotel,
    html ← lift (hotel_html hotel) ;
    writeFileSync (hotel_path hotel) html).

(** [generateContactPage()] *)
Definition generateContactPage : M unit :=
  let formspreeId := or_string (FORMSPREE_ID inp) (js "xnjzokwn") in
  let content := contactTemplate inp ▷ replace (js "{{FORMSPREE_ID}}") formspreeId in
  let html :=
    wrapInLayout content
      (js "Contact Us")
      (js "Questions about Athens hotels? Contact the Hotels of Athens team for personalized recommendations.")
      (js "https://hotelsofathens.com/contact") in
  writeFileSync (path_join [js "contact.html"]) html.

(** [generateThankYouPage()] *)
Definition generateThankYouPage : M unit :=
  let html :=
    wrapInLayout (thankYouTemplate inp)
      (js "Message Sent")
      (js "Thank you for contacting Hotels of Athens.")
      (js "https://hotelsofathens.com/thank-you") in
  writeFileSync (path_join [js "thank-you.html"]) html.

(** The hotels of the three guide pages, before they are rendered:
    [.filter(...).sort(...)]. *)
Definition guide_budgetHotels : list Hotel.t :=
  Array_sort (λ a b, Hotel.pricePerNight a - Hotel.pricePerNight b)
    (filter (λ h, Hotel.pricePerNight h < 80) (hotels (allHotelsData inp))).

Definition guide_luxuryHotels : list Hotel.t :=
  Array_sort (λ a b, Hotel.pricePerNight b - Hotel.pricePerNight a)
    (filter (λ h, 200 ≤ Hotel.pricePerNight h) (hotels (allHotelsData inp))).

Definition guide_rooftopHotels : list Hotel.t :=
  Array_sort
    (λ a b, default 0 (Hotel.rooftopRating b) - default 0 (Hotel.rooftopRating a))
    (filter (λ h, Hotel.hasRooftopBar h) (hotels (allHotelsData inp))).

(** [generateGuidePages()] *)
Definition generateGuidePages : M unit :=
  budgetHotels ← lift (hotelCards guide_budgetHotels) ;
  let budgetContent :=
    mjoin [
      text [""; "    <section class=^guide-hero^>"; "      <div class=^container^>";
            "        <h1>Budget Hotels in Athens</h1>"; "        <p>Great stays under "];
      u_euro;
      text ["80/night</p>"; "      </div>"; "    </section>";
            "    <section class=^section^>"; "      <div class=^container^>";
            "        <div class=^guide-intro^>";
            "          <p>Athens offers excellent budget accommodation without sacrificing location or comfort. These hotels prove you don't need to spend a fortune to enjoy the Greek capital.</p>";
            "        </div>"; "        <div class=^hotels-grid^>"];
      budgetHotels;
      text ["</div>"; "      </div>"; "    </section>"; "  "] ] in
  writeFileSync (path_join [js "budget-hotels-athens.html"])
    (wrapInLayout budgetContent
       (js "Budget Hotels in Athens")
       (mjoin [js "Find affordable Athens hotels under "; u_euro;
               js "80/night. Great locations, clean rooms, excellent value."])
       (js "https://hotelsofathens.com/budget-hotels-athens")) ;;
  luxuryHotels ← lift (hotelCards guide_luxuryHotels) ;
  let luxuryContent :=
    mjoin [
      text [""; "    <section class=^guide-hero^>"; "      <div class=^container^>";
            "        <h1>Luxury Hotels in Athens</h1>";
            "        <p>The finest 5-star experiences</p>"; "      </div>";
            "    </section>"; "    <section class=^section^>";
            "      <div class=^container^>"; "        <div class=^guide-intro^>";
            "          <p>Experience Athens in style at these exceptional luxury hotels. World-class service, stunning views, and unforgettable experiences await.</p>";
            "        </div>"; "        <div class=^hotels-grid^>"];
      luxuryHotels;
      text ["</div>"; "      </div>"; "    </section>"; "  "] ] in
  writeFileSync (path_join [js "luxury-hotels-athens.html"])
    (wrapInLayout luxuryContent
       (js "Luxury Hotels in Athens")
       (js "Discover Athens' finest 5-star hotels. Rooftop pools, Acropolis views, world-class service.")
       (js "https://hotelsofathens.com/luxury-hotels-athens")) ;;
  rooftopHotels ← lift (hotelCards guide_rooftopHotels) ;
  let rooftopContent :=
    mjoin [
      text [""; "    <section class=^guide-hero^>"; "      <div class=^container^>";
            "        <h1>Best Rooftop Bar Hotels in Athens</h1>";
            "        <p>Sunset cocktails with Acropolis views</p>"; "      </div>";
            "    </section>"; "    <section class=^section^>";
            "      <div class=^container^>"; "        <div class=^guide-intro^>";
            "          <p>Nothing beats watching the sunset over the Acropolis with a cocktail in hand. These hotels offer the best rooftop experiences in Athens.</p>";
            "        </div>"; "        <div class=^hotels-grid^>"];
      rooftopHotels;
      text ["</div>"; "      </div>"; "    </section>"; "  "] ] in
  writeFileSync (path_join [js "best-rooftop-bars-athens.html"])
    (wrapInLayout rooftopContent
       (js "Best Rooftop Bar Hotels in Athens")
       (js "Hotels with the best rooftop bars in Athens. Acropolis views, sunset cocktails, unforgettable evenings.")
       (js "https://hotelsofathens.com/best-rooftop-bars-athens")).

(** An element of the [urls] array of [generateSitemap]. *)
Record url := Url {
  loc : jsstring;
  priority : jsstring
}.

Definition urls : list url :=
  [ Url (js "https://hotelsofathens.com/") (js "1.0");
    Url (js "https://hotelsofathens.com/contact") (js "0.5");
    Url (js "https://hotelsofathens.com/budget-hotels-athens") (js "0.8");
    Url (js "https://hotelsofathens.com/luxury-hotels-athens") (js "0.8");
    Url (js "https://hotelsofathens.com/best-rooftop-bars-athens") (js "0.8") ]
  ++ map (λ n, Url (mjoin [js "https://hotelsofathens.com/athens-hotels/"; Hood.id n])
                 (js "0.9"))
       (neighborhoodsData inp)
  ++ map (λ h, Url (mjoin [js "https://hotelsofathens.com/hotel/"; Hotel.slug h])
                 (js "0.7"))
       (hotels (allHotelsData inp)).

(** One [<url>] element, given what [new Date().toISOString()] returned
    while it was built. *)
Definition url_element (u : url) (iso : jsstring) : jsstring :=
  mjoin [
    text ["  <url>"; "    <loc>"];
    loc u;
    text ["</loc>"; "    <lastmod>"];
    split_head 84 iso;
    text ["</lastmod>"; "    <priority>"];
    priority u;
    text ["</priority>"; "  </url>"] ].

(** The sitemap around its [<url>] elements. *)
Definition sitemap_document (elements : list jsstring) : jsstring :=
  mjoin [
    text ["<?xml version=^1.0^ encoding=^UTF-8^?>";
          "<urlset xmlns=^http://www.sitemaps.org/schemas/sitemap/0.9^>"; ""];
    Array_join [10%N] elements;
    text [""; "</urlset>"] ].

(** [generateSitemap()] *)
Definition generateSitemap : M unit :=
  elements ← map_M (λ u, iso ← now; ret (url_element u iso)) urls;
  writeFileSync (path_join [js "sitemap.xml"]) (sitemap_document elements).

(** [generateRobots()] *)
Definition generateRobots : M unit :=
  let robots :=
    text ["User-agent: *"; "Allow: /"; "";
          "Sitemap: https://hotelsofathens.com/sitemap.xml"] in
  writeFileSync (path_join [js "robots.txt"]) robots.

(** [generateHeaders()] *)
Definition generateHeaders : M unit :=
  let headers :=
    text ["/*"; "  X-Frame-Options: DENY"; "  X-Content-Type-Options: nosniff";
          "  Referrer-Policy: strict-origin-when-cross-origin"; ""; "/images/*";
          "  Cache-Control: public, max-age=31536000"; ""; "/css/*";
          "  Cache-Control: public, max-age=31536000"] in
  writeFileSync (path_join [js "_headers"]) headers.

(** [generateRedirects()] *)
Definition generateRedirects : M unit :=
  let redirects :=
    text ["/index.html  /  301"; "/area/*  /athens-hotels/:splat  301"] in
  writeFileSync (path_join [js "_redirects"]) redirects.

(** [main()] *)
Definition main : M unit :=
  generateHomepage ;;
  generateNeighborhoodPages ;;
  generateHotelPages ;;
  generateContactPage ;;
  generateThankYouPage ;;
  generateGuidePages ;;
  generateSitemap ;;
  generateRobots ;;
  generateHeaders ;;
  generateRedirects.

End builders.

End Generate.

(** ** Templates, spec side

    The specification calls a template a text with named placeholders, and
    a substitution either of the first occurrence of a placeholder or of all
    of them.  This is that reading: a template is a list of segments, and
    filling a placeholder puts a text in its place. *)
Module Template.

Inductive seg :=
| Lit (s : jsstring)
| Hole (name : jsstring).

(** The token of a placeholder: its name between two pairs of braces. *)
Definition hole (name : jsstring) : jsstring :=
  123%N :: 123%N :: name ++ [125%N; 125%N].

Definition render (x : seg) : jsstring :=
  match x with
  | Lit s => s
  | Hole name => hole name
  end.

(** The text of a template. *)
Definition flat (t : list seg) : jsstring := mjoin (map render t).

(** The first placeholder of that name, filled. *)
Fixpoint fill_first (name v : jsstring) (t : list seg) : list seg :=
  match t with
  | [] => []
  | Lit s :: t' => Lit s :: fill_first name v t'
  | Hole n :: t' =>
      if decide (n = name) then Lit v :: t' else Hole n :: fill_first name v t'
  end.

(** Every placeholder of that name, filled. *)
Definition fill_all (name v : jsstring) (t : list seg) : list seg :=
  map (λ x, match x with
            | Lit s => Lit s
            | Hole n => if decide (n = name) then Lit v else Hole n
            end) t.

(** No token starts in [s]: every opening brace of [s] is followed, in
    [s], by a unit that is not an opening brace. *)
Fixpoint brace_safe (s : jsstring) : bool :=
  match s with
  | [] => true
  | c :: s' =>
      (if N.eqb c 123
       then match s' with d :: _ => negb (N.eqb d 123) | [] => false end
       else true)
      && brace_safe s'
  end.

(** No dollar sign, which [String.prototype.replace] reads in a
    replacement text. *)
Definition dollar_free (s : jsstring) : bool :=
  forallb (λ c, negb (N.eqb c 36)) s.

(** A text that can be put in for a placeholder as it is. *)
Definition inert (s : jsstring) : bool := brace_safe s && dollar_free s.

(** A name holds no brace. *)
Definition name_ok (name : jsstring) : bool :=
  forallb (λ c, negb (N.eqb c 123) && negb (N.eqb c 125)) name.

Definition well_formed (t : list seg) : bool :=
  forallb (λ x, match x with
                | Lit s => brace_safe s
                | Hole name => name_ok name
                end) t.

End Template.

(** ** Pages, spec side

    What the specification says a page holds, written with plain
    concatenation and with the filling of placeholders: the texts to compare
    the output of the builders with. *)
Module Page.
Import Template.

(** The layout with its four placeholders filled: title, description and
    address wherever they occur, then the first [CONTENT]. *)
Definition in_layout (layout : list seg) (content title description url : jsstring)
    : jsstring :=
  flat (fill_first (js "CONTENT") content
          (fill_all (js "PAGE_URL") url
             (fill_all (js "PAGE_DESCRIPTION") description
                (fill_all (js "PAGE_TITLE") title layout)))).

(** A number in decimal digits. *)
Definition decimal (n : Z) : jsstring := js (pretty n).

(** [rating] filled stars, then empty ones up to five. *)
Definition stars (rating : Z) : jsstring :=
  replicate (Z.to_nat rating) 9733%N ++ replicate (Z.to_nat (5 - rating)) 9734%N.

(** The tier of a price: bounds at 80, 150 and 250, a price on a bound in
    the higher tier. *)
Definition tier (price : Z) : jsstring :=
  if decide (price < 80) then js "budget"
  else if decide (price < 150) then js "mid"
  else if decide (price < 250) then js "upscale"
  else js "luxury".

(** The display name of the neighborhood of a hotel, or its id when the
    record carries no name. *)
Definition shown_neighborhood (h : Hotel.t) : jsstring :=
  match Hotel.neighborhoodName h with
  | Some (c :: s) => c :: s
  | _ => Hotel.neighborhood h
  end.

(** The link fragment of a hotel: its address, tier and view flag, the
    image placeholder, the name, the stars, the neighborhood, the badges and
    the price line. *)
Definition card_with (slug tier view name stars hood badges price : jsstring)
    : jsstring :=
  mjoin [
    text [""; "    <a href=^/hotel/"]; slug;
    js "^ class=^hotel-card^ data-tier=^"; tier;
    js "^ data-view=^"; view;
    text ["^>"; "      <div class=^hotel-card-image^>"]; [55356; 57320]%N;
    text ["</div>"; "      <div class=^hotel-card-content^>"; "        <h3>"]; name;
    text ["</h3>"; "        <div class=^hotel-card-meta^>"; "          <span>"]; stars;
    text ["</span>"; "          <span>"]; [8226%N];
    text ["</span>"; "          <span>"]; hood;
    text ["</span>"; "        </div>"; "        <div class=^hotel-card-badges^>"];
    badges;
    text ["</div>"; "        <div class=^hotel-card-price^>";
          "          <span class=^from^>from</span>";
          "          <span class=^price^>"]; [8364%N]; price;
    text ["</span>"; "          <span class=^per^>/night</span>";
          "        </div>"; "      </div>"; "    </a>"; "  "] ].

(** The two badges a card can carry. *)
Definition card_view_badge : jsstring :=
  js "<span class=^badge badge-view^>" ++ [55356; 57307; 65039]%N
  ++ js " Acropolis View</span>".
Definition card_rooftop_badge : jsstring :=
  js "<span class=^badge badge-rooftop^>" ++ [55356; 57208]%N
  ++ js " Rooftop Bar</span>".

Definition card_badges (h : Hotel.t) : jsstring :=
  (if Hotel.hasAcropolisView h then card_view_badge else [])
  ++ (if Hotel.hasRooftopBar h then card_rooftop_badge else []).

Definition card (h : Hotel.t) : jsstring :=
  card_with (Hotel.slug h) (tier (Hotel.pricePerNight h))
    (if Hotel.hasAcropolisView h then js "true" else js "false")
    (Hotel.name h) (stars (Hotel.starRating h)) (shown_neighborhood h)
    (card_badges h) (decimal (Hotel.pricePerNight h)).

(** A grid of cards. *)
Definition cards (l : list Hotel.t) : jsstring := mjoin (map card l).

(** The three badges a hotel page can carry. *)
Definition page_view_badge : jsstring :=
  js "<span class=^hotel-badge^>" ++ [55356; 57307; 65039]%N
  ++ js " Acropolis View</span>".
Definition page_rooftop_badge : jsstring :=
  js "<span class=^hotel-badge^>" ++ [55356; 57208]%N ++ js " Rooftop Bar</span>".
Definition page_luxury_badge : jsstring :=
  js "<span class=^hotel-badge^>" ++ [55357; 56401]%N ++ js " Luxury</span>".

(** What fills the placeholders of the home template. *)
Record home_values := {
  home_total_hotels : jsstring;
  home_avg_price : jsstring;
  home_budget_count : jsstring;
  home_mid_count : jsstring;
  home_upscale_count : jsstring;
  home_luxury_count : jsstring;
  home_neighborhoods_grid : jsstring;
  home_acropolis_view_hotels : jsstring;
  home_rooftop_hotels : jsstring
}.

(** The body of the home page: [TOTAL_HOTELS] wherever it occurs, the
    other placeholders at their first occurrence. *)
Definition home_content (t : list seg) (v : home_values) : jsstring :=
  flat
    (fill_first (js "ROOFTOP_HOTELS") (home_rooftop_hotels v)
    (fill_first (js "ACROPOLIS_VIEW_HOTELS") (home_acropolis_view_hotels v)
    (fill_first (js "NEIGHBORHOODS_GRID") (home_neighborhoods_grid v)
    (fill_first (js "LUXURY_COUNT") (home_luxury_count v)
    (fill_first (js "UPSCALE_COUNT") (home_upscale_count v)
    (fill_first (js "MID_COUNT") (home_mid_count v)
    (fill_first (js "BUDGET_COUNT") (home_budget_count v)
    (fill_first (js "AVG_PRICE") (home_avg_price v)
    (fill_all (js "TOTAL_HOTELS") (home_total_hotels v) t))))))))).

(** What fills the placeholders of the hotel template. *)
Record hotel_values := {
  hotel_name : jsstring;
  hotel_neighborhood_id : jsstring;
  hotel_neighborhood_name : jsstring;
  hotel_stars : jsstring;
  hotel_star_rating : jsstring;
  hotel_badges : jsstring;
  hotel_price : jsstring;
  hotel_price_min : jsstring;
  hotel_price_max : jsstring;
  hotel_overview : jsstring;
  hotel_amenities : jsstring;
  hotel_pros : jsstring;
  hotel_cons : jsstring;
  hotel_location_desc : jsstring;
  hotel_distance_acropolis : jsstring;
  hotel_distance_metro : jsstring;
  hotel_has_view : jsstring;
  hotel_has_rooftop : jsstring;
  hotel_best_for_tags : jsstring;
  hotel_similar_hotels : jsstring;
  hotel_booking_url : jsstring
}.

(** The body of a hotel page: the name, the neighborhood id, the
    neighborhood name and the price wherever they occur, the other
    placeholders at their first occurrence. *)
Definition hotel_filled (t : list seg) (v : hotel_values) : list seg :=
    (fill_first (js "BOOKING_URL") (hotel_booking_url v)
    (fill_first (js "SIMILAR_HOTELS") (hotel_similar_hotels v)
    (fill_first (js "BEST_FOR_TAGS") (hotel_best_for_tags v)
    (fill_first (js "HAS_ROOFTOP") (hotel_has_rooftop v)
    (fill_first (js "HAS_VIEW") (hotel_has_view v)
    (fill_first (js "DISTANCE_METRO") (hotel_distance_metro v)
    (fill_first (js "DISTANCE_ACROPOLIS") (hotel_distance_acropolis v)
    (fill_first (js "LOCATION_DESC") (hotel_location_desc v)
    (fill_first (js "CONS") (hotel_cons v)
    (fill_first (js "PROS") (hotel_pros v)
    (fill_first (js "AMENITIES") (hotel_amenities v)
    (fill_first (js "OVERVIEW") (hotel_overview v)
    (fill_first (js "PRICE_MAX") (hotel_price_max v)
    (fill_first (js "PRICE_MIN") (hotel_price_min v)
    (fill_all (js "PRICE") (hotel_price v)
    (fill_first (js "BADGES") (hotel_badges v)
    (fill_first (js "STAR_RATING") (hotel_star_rating v)
    (fill_first (js "STARS") (hotel_stars v)
    (fill_all (js "NEIGHBORHOOD_NAME") (hotel_neighborhood_name v)
    (fill_all (js "NEIGHBORHOOD_ID") (hotel_neighborhood_id v)
    (fill_all (js "NAME") (hotel_name v) t))))))))))))))))))))).

Definition hotel_content (t : list seg) (v : hotel_values) : jsstring :=
  flat (hotel_filled t v).

(** The body of a guide page: a heading, a line under it and an
    introduction, fixed for each guide, around the grid of its hotels. *)
Definition guide_content (heading tagline intro grid : jsstring) : jsstring :=
  mjoin [
    text [""; "    <section class=^guide-hero^>"; "      <div class=^container^>";
          "        <h1>"]; heading;
    text ["</h1>"; "        <p>"]; tagline;
    text ["</p>"; "      </div>"; "    </section>"; "    <section class=^section^>";
          "      <div class=^container^>"; "        <div class=^guide-intro^>";
          "          <p>"]; intro;
    text ["</p>"; "        </div>"; "        <div class=^hotels-grid^>"]; grid;
    text ["</div>"; "      </div>"; "    </section>"; "  "] ].

(** Texts, one to a line. *)
Fixpoint lines (l : list jsstring) : jsstring :=
  match l with
  | [] => []
  | [x] => x
  | x :: l' => x ++ 10%N :: lines l'
  end.

(** An entry of the sitemap, and the sitemap of a list of entries. *)
Definition sitemap_entry (loc lastmod priority : jsstring) : jsstring :=
  lines [js "  <url>"; js "    <loc>" ++ loc ++ js "</loc>";
         js "    <lastmod>" ++ lastmod ++ js "</lastmod>";
         js "    <priority>" ++ priority ++ js "</priority>"; js "  </url>"].

Definition sitemap (entries : list jsstring) : jsstring :=
  lines [js "<?xml version=^1.0^ encoding=^UTF-8^?>";
         js "<urlset xmlns=^http://www.sitemaps.org/schemas/sitemap/0.9^>";
         lines entries; js "</urlset>"].

(** The texts of a hotel record can be put into a page as they are, its
    rating is one that the stars can show, and its name is one that a link
    can carry (16-bit code units, none of them a surrogate). *)
Definition inert_opt (a : option jsstring) : bool :=
  match a with Some s => inert s | None => true end.

Definition inert_list (a : option (list jsstring)) : bool :=
  match a with Some l => forallb inert l | None => true end.

Definition presentable (h : Hotel.t) : bool :=
  (0 <=? Hotel.starRating h) && (Hotel.starRating h <=? 5)
  && inert (Hotel.slug h) && inert (Hotel.name h) && inert (Hotel.neighborhood h)
  && inert_opt (Hotel.neighborhoodName h) && inert (Hotel.distanceToAcropolis h)
  && inert_list (Hotel.amenities h) && inert_list (Hotel.bestFor h)
  && inert_opt (Hotel.overview h) && inert_list (Hotel.pros h)
  && inert_list (Hotel.cons h)
  && forallb (λ c, N.ltb c 65536 && negb (is_high_surrogate c)
                    && negb (is_low_surrogate c))
       (Hotel.name h).

(** The texts of a neighborhood that its card shows. *)
Definition presentable_hood (hood : Hood.t) : bool :=
  inert (Hood.id hood) && inert (Hood.emoji hood) && inert (Hood.name hood)
  && inert (Hood.walkToAcropolis hood).

(** Whether a text occurs in another. *)
Fixpoint occurs (needle hay : jsstring) : bool :=
  starts_with needle hay
  || match hay with
     | [] => false
     | _ :: hay' => occurs needle hay'
     end.

(** A text that is one segment of a path: it holds no separator. *)
Definition one_segment (s : jsstring) : bool := forallb (λ c, negb (N.eqb c 47)) s.

End Page.

(** The values that [generateHotelPages] puts into the hotel template. *)
Definition hotel_values_of (inp : Generate.Input) (hotel : Hotel.t) (q : jsstring)
    : Page.hotel_values := {|
  Page.hotel_name := Hotel.name hotel;
  Page.hotel_neighborhood_id := Hotel.neighborhood hotel;
  Page.hotel_neighborhood_name := Page.shown_neighborhood hotel;
  Page.hotel_stars := Page.stars (Hotel.starRating hotel);
  Page.hotel_star_rating := Page.decimal (Hotel.starRating hotel);
  Page.hotel_badges :=
    (if Hotel.hasAcropolisView hotel then Page.page_view_badge else [])
    ++ (if Hotel.hasRooftopBar hotel then Page.page_rooftop_badge else [])
    ++ (if decide (5 ≤ Hotel.starRating hotel) then Page.page_luxury_badge else []);
  Page.hotel_price := Page.decimal (Hotel.pricePerNight hotel);
  Page.hotel_price_min := Page.decimal (Generate.price_min hotel);
  Page.hotel_price_max := Page.decimal (Generate.price_max hotel);
  Page.hotel_overview :=
    Generate.or_string (Hotel.overview hotel)
      (mjoin [Hotel.name hotel; js " is a "; String_of_Z (Hotel.starRating hotel);
              js "-star hotel in "; Generate.interpolate (Hotel.neighborhoodName hotel);
              js ", Athens."]);
  Page.hotel_amenities :=
    Array_join []
      (map (λ a, mjoin [js "<span class=^amenity^>"; a; js "</span>"])
         (default [] (Hotel.amenities hotel)));
  Page.hotel_pros :=
    Array_join []
      (map (λ p, mjoin [js "<li>"; p; js "</li>"])
         (default [js "Great location"; js "Good value"] (Hotel.pros hotel)));
  Page.hotel_cons :=
    Array_join []
      (map (λ c, mjoin [js "<li>"; c; js "</li>"])
         (default [js "Book early"] (Hotel.cons hotel)));
  Page.hotel_location_desc :=
    mjoin [Hotel.distanceToAcropolis hotel; js " walk to the Acropolis."];
  Page.hotel_distance_acropolis := Hotel.distanceToAcropolis hotel;
  Page.hotel_distance_metro := js "5-10 min";
  Page.hotel_has_view :=
    if Hotel.hasAcropolisView hotel then js "Yes " ++ Generate.u_check else js "No";
  Page.hotel_has_rooftop :=
    if Hotel.hasRooftopBar hotel then js "Yes " ++ Generate.u_check else js "No";
  Page.hotel_best_for_tags :=
    Array_join []
      (map (λ b, mjoin [js "<span class=^best-for-tag^>"; b; js "</span>"])
         (default [js "Travelers"] (Hotel.bestFor hotel)));
  Page.hotel_similar_hotels := Page.cards (Generate.similar inp hotel);
  Page.hotel_booking_url := js "https://www.booking.com/searchresults.html?ss=" ++ q
|}.

(** ** A small site

    Concrete values to run the two scripts on: a catalog of two of the
    neighborhoods that [getSeedHotels] knows, the data that the data build
    derives from it, templates that hold a few of the placeholders, and two
    clocks.  (The catalog and the templates of the repository are data files
    outside the scripts; these stand in for them.) *)
Module Example.

Definition plaka : Hood.t := {|
  Hood.id := js "plaka";
  Hood.name := js "Plaka";
  Hood.emoji := Generate.u_temple;
  Hood.tagline := js "The old town";
  Hood.description := js "The oldest quarter of Athens. Below the Acropolis";
  Hood.avgPrice := 161;
  Hood.walkToAcropolis := js "5 min";
  Hood.vibe := [js "Historic"; js "Romantic"];
  Hood.bestFor := [js "Couples"; js "First-time visitors"]
|}.

Definition koukaki : Hood.t := {|
  Hood.id := js "koukaki";
  Hood.name := js "Koukaki";
  Hood.emoji := Generate.u_cocktail;
  Hood.tagline := js "Local and quiet";
  Hood.description := js "A residential quarter south of the Acropolis. Calm";
  Hood.avgPrice := 98;
  Hood.walkToAcropolis := js "10 min";
  Hood.vibe := [js "Local"];
  Hood.bestFor := [js "Families"]
|}.

Definition catalog : list Hood.t := [plaka; koukaki].

Definition input : Generate.Input := {|
  Generate.layoutTemplate :=
    js "<title>{{PAGE_TITLE}}</title><link rel=^canonical^ href=^{{PAGE_URL}}^>{{CONTENT}}";
  Generate.homeTemplate :=
    js "<p>{{TOTAL_HOTELS}} hotels, {{AVG_PRICE}} on average</p>{{NEIGHBORHOODS_GRID}}{{ACROPOLIS_VIEW_HOTELS}}{{ROOFTOP_HOTELS}}";
  Generate.neighborhoodTemplate := js "<h1>{{NAME}}</h1>{{HOTELS_GRID}}";
  Generate.hotelTemplate :=
    js "<h1>{{NAME}}</h1><p>{{NEIGHBORHOOD_NAME}}, {{PRICE}} ({{PRICE_MIN}} to {{PRICE_MAX}})</p>{{BADGES}}";
  Generate.contactTemplate := js "<form action=^https://formspree.io/f/{{FORMSPREE_ID}}^>";
  Generate.thankYouTemplate := js "<p>Thank you</p>";
  Generate.allHotelsData := (Fetch.main catalog).2;
  Generate.neighborhoodsData := catalog;
  Generate.hoodFile := (Fetch.main catalog).1;
  Generate.FORMSPREE_ID := None
|}.

(** The same input when the files under [data/hotels] are missing. *)
Definition input_without_files : Generate.Input := {|
  Generate.layoutTemplate := Generate.layoutTemplate input;
  Generate.homeTemplate := Generate.homeTemplate input;
  Generate.neighborhoodTemplate := Generate.neighborhoodTemplate input;
  Generate.hotelTemplate := Generate.hotelTemplate input;
  Generate.contactTemplate := Generate.contactTemplate input;
  Generate.thankYouTemplate := Generate.thankYouTemplate input;
  Generate.allHotelsData := Generate.allHotelsData input;
  Generate.neighborhoodsData := Generate.neighborhoodsData input;
  Generate.hoodFile := ∅;
  Generate.FORMSPREE_ID := Generate.FORMSPREE_ID input
|}.

(** An empty output directory and a clock not yet read. *)
Definition fresh : Generate.world := Generate.World ∅ 0.

(** A clock that stays on the 2nd of November, and one on the 3rd. *)
Definition monday : nat → jsstring := λ _, js "2026-11-02T06:00:00.000Z".
Definition tuesday : nat → jsstring := λ _, js "2026-11-03T06:00:00.000Z".

(** The templates of [input] as lists of segments. *)
Definition layout_segments : list Template.seg :=
  [ Template.Lit (js "<title>"); Template.Hole (js "PAGE_TITLE");
    Template.Lit (js "</title><link rel=^canonical^ href=^");
    Template.Hole (js "PAGE_URL"); Template.Lit (js "^>");
    Template.Hole (js "CONTENT") ].

Definition home_segments : list Template.seg :=
  [ Template.Lit (js "<p>"); Template.Hole (js "TOTAL_HOTELS");
    Template.Lit (js " hotels, "); Template.Hole (js "AVG_PRICE");
    Template.Lit (js " on average</p>"); Template.Hole (js "NEIGHBORHOODS_GRID");
    Template.Hole (js "ACROPOLIS_VIEW_HOTELS"); Template.Hole (js "ROOFTOP_HOTELS") ].

Definition hotel_segments : list Template.seg :=
  [ Template.Lit (js "<h1>"); Template.Hole (js "NAME");
    Template.Lit (js "</h1><p>"); Template.Hole (js "NEIGHBORHOOD_NAME");
    Template.Lit (js ", "); Template.Hole (js "PRICE"); Template.Lit (js " (");
    Template.Hole (js "PRICE_MIN"); Template.Lit (js " to ");
    Template.Hole (js "PRICE_MAX"); Template.Lit (js ")</p>");
    Template.Hole (js "BADGES") ].

(** A hotel template that also shows the similar hotels and the booking
    link, and the input with this template in place of the one of [input]. *)
Definition hotel_segments_full : list Template.seg :=
  hotel_segments
  ++ [ Template.Lit (js "<div class=^similar^>"); Template.Hole (js "SIMILAR_HOTELS");
       Template.Lit (js "</div><a href=^"); Template.Hole (js "BOOKING_URL");
       Template.Lit (js "^>Check prices</a>") ].

Definition input_full : Generate.Input := {|
  Generate.layoutTemplate := Generate.layoutTemplate input;
  Generate.homeTemplate := Generate.homeTemplate input;
  Generate.neighborhoodTemplate := Generate.neighborhoodTemplate input;
  Generate.hotelTemplate := Template.flat hotel_segments_full;
  Generate.contactTemplate := Generate.contactTemplate input;
  Generate.thankYouTemplate := Generate.thankYouTemplate input;
  Generate.allHotelsData := Generate.allHotelsData input;
  Generate.neighborhoodsData := Generate.neighborhoodsData input;
  Generate.hoodFile := Generate.hoodFile input;
  Generate.FORMSPREE_ID := Generate.FORMSPREE_ID input
|}.

(** The last hotel of the master file of [input], and the hotels before
    it. *)
Definition earlier_hotels : list Hotel.t :=
  removelast (hotels (Generate.allHotelsData input)).

Definition last_hotel : Hotel.t :=
  List.last (hotels (Generate.allHotelsData input))
    (Fetch.processHotel plaka
       (Fetch.Seed (js "Hotel Hundred") 3 100 false false 0 [] [] [] [] [])).

(** A hotel priced at 100. *)
Definition hotel_100 : Hotel.t :=
  Fetch.processHotel plaka
    (Fetch.Seed (js "Hotel Hundred") 3 100 false false 0 [] [] [] [] []).

(** The input of a site whose master file holds that hotel alone. *)
Definition input_100 : Generate.Input := {|
  Generate.layoutTemplate := Generate.layoutTemplate input;
  Generate.homeTemplate := Generate.homeTemplate input;
  Generate.neighborhoodTemplate := Generate.neighborhoodTemplate input;
  Generate.hotelTemplate := Generate.hotelTemplate input;
  Generate.contactTemplate := Generate.contactTemplate input;
  Generate.thankYouTemplate := Generate.thankYouTemplate input;
  Generate.allHotelsData := {|
    totalHotels := 1;
    avgPrice := Some 100;
    priceStats := {| budget_count := 0; midRange_count := 1;
                     upscale_count := 0; luxury_count := 0 |};
    hotels := [hotel_100]
  |};
  Generate.neighborhoodsData := Generate.neighborhoodsData input;
  Generate.hoodFile := Generate.hoodFile input;
  Generate.FORMSPREE_ID := Generate.FORMSPREE_ID input
|}.

End Example.

(** ** Properties *)

(** *** Price tiers *)

(** C1. For every integer price, [getPriceTier] returns one of the four
    labels, decided by the half-open buckets with bounds 80, 150 and 250: a
    price on a bound belongs to the higher tier.  In particular 79 is budget,
    80 and 149 are mid, 150 and 249 are upscale, 250 is luxury. *)
Theorem getPriceTier_buckets (price : Z) :
  (Generate.getPriceTier price = js "budget" ↔ price < 80) ∧
  (Generate.getPriceTier price = js "mid" ↔ 80 ≤ price < 150) ∧
  (Generate.getPriceTier price = js "upscale" ↔ 150 ≤ price < 250) ∧
  (Generate.getPriceTier price = js "luxury" ↔ 250 ≤ price) ∧
  (Generate.getPriceTier price ∈ [js "budget"; js "mid"; js "upscale"; js "luxury"]) ∧
  map Generate.getPriceTier [79; 80; 149; 150; 249; 250]
    = [js "budget"; js "mid"; js "mid"; js "upscale"; js "upscale"; js "luxury"].
Proof.
  unfold Generate.getPriceTier.
  destruct (Z.ltb_spec price 80); [|destruct (Z.ltb_spec price 150);
    [|destruct (Z.ltb_spec price 250)]];
    (repeat split; [intros; try lia; try discriminate; try reflexivity ..|]);
    rewrite !elem_of_cons; auto.
Qed.

(** *** Stars *)

Lemma mjoin_replicate_singleton {A} (n : nat) (c : A) :
  mjoin (replicate n [c]) = replicate n c.
Proof. induction n as [|n IH]; simpl; [done | by rewrite IH]. Qed.

Lemma String_repeat_unit (c : N) (count : Z) :
  0 ≤ count → String_repeat [c] count = Ok (replicate (Z.to_nat count) c).
Proof.
  intros Hc. unfold String_repeat.
  destruct (Z.ltb_spec count 0) as [Hneg|_]; [lia|].
  by rewrite mjoin_replicate_singleton.
Qed.

Lemma String_repeat_negative (s : jsstring) (count : Z) :
  count < 0 → String_repeat s count = Throw RangeError.
Proof.
  intros Hc. unfold String_repeat. by destruct (Z.ltb_spec count 0); [|lia].
Qed.

(** C7. For an integer rating from 0 to 5, [generateStars] returns a string
    of 5 code units: the first [rating] are the filled star, the other
    [5 - rating] the empty star. *)
Theorem generateStars_glyphs (rating : Z) :
  0 ≤ rating ≤ 5 →
  ∃ s : jsstring,
    Generate.generateStars rating = Ok s ∧
    length s = 5%nat ∧
    s = replicate (Z.to_nat rating) Generate.star_filled
        ++ replicate (Z.to_nat (5 - rating)) Generate.star_empty ∧
    (∀ i : nat, (i < Z.to_nat rating)%nat → s !! i = Some Generate.star_filled) ∧
    (∀ i : nat, (Z.to_nat rating ≤ i < 5)%nat → s !! i = Some Generate.star_empty).
Proof.
  intros Hr.
  exists (replicate (Z.to_nat rating) Generate.star_filled
          ++ replicate (Z.to_nat (5 - rating)) Generate.star_empty).
  split; [|split; [|split; [done|split]]].
  - unfold Generate.generateStars.
    rewrite !String_repeat_unit by lia. done.
  - rewrite length_app, !length_replicate. lia.
  - intros i Hi. rewrite lookup_app_l by (rewrite length_replicate; lia).
    by apply lookup_replicate_2.
  - intros i Hi. rewrite lookup_app_r by (rewrite length_replicate; lia).
    apply lookup_replicate_2. rewrite length_replicate. lia.
Qed.

(** At a rating of 3. *)
Lemma generateStars_glyphs_witness :
  0 ≤ 3 ≤ 5 ∧
  ∃ s : jsstring,
    Generate.generateStars 3 = Ok s ∧
    length s = 5%nat ∧
    s = replicate (Z.to_nat 3) Generate.star_filled
        ++ replicate (Z.to_nat (5 - 3)) Generate.star_empty ∧
    (∀ i : nat, (i < Z.to_nat 3)%nat → s !! i = Some Generate.star_filled) ∧
    (∀ i : nat, (Z.to_nat 3 ≤ i < 5)%nat → s !! i = Some Generate.star_empty).
Proof.
  assert (H : 0 ≤ 3 ≤ 5) by lia.
  exact (conj H (generateStars_glyphs 3 H)).
Defined.

(** Outside the range a repeat count is negative and the call throws. *)
Lemma generateStars_out_of_range (rating : Z) :
  rating < 0 ∨ 5 < rating → Generate.generateStars rating = Throw RangeError.
Proof.
  intros Hr. unfold Generate.generateStars.
  destruct (Z.ltb_spec rating 0) as [Hneg|Hpos].
  - by rewrite String_repeat_negative.
  - rewrite String_repeat_unit by done. simpl.
    rewrite String_repeat_negative by lia. done.
Qed.

(** *** The sections of the home page *)

(** What [.filter(P).slice(0, n)] selects: at most [n] elements, all with
    [P], and they are the first in the order of the array: the selection is
    a prefix of the filtered array, and it is short of [n] only when nothing
    was left out. *)
Lemma filter_slice_first {A} (P : A → Prop) `{∀ x, Decision (P x)}
    (n : nat) (l : list A) :
  let sel := Array_slice0 n (filter P l) in
  (length sel ≤ n)%nat ∧
  Forall P sel ∧
  sel `sublist_of` l ∧
  (∃ rest, filter P l = sel ++ rest ∧ (rest ≠ [] → length sel = n)).
Proof.
  unfold Array_slice0. repeat split.
  - rewrite length_take. lia.
  - apply Forall_take, Forall_forall. intros x Hx.
    by apply list_elem_of_filter in Hx as [? _].
  - etrans; [apply sublist_take | apply sublist_filter].
  - exists (drop n (filter P l)). split; [by rewrite take_drop|].
    intros Hrest. rewrite length_take.
    destruct (decide (n ≤ length (filter P l))%nat) as [|Hlt]; [lia|].
    rewrite drop_ge in Hrest by lia. done.
Qed.

(** The condition of the rooftop section, [h.hasRooftopBar &&
    h.rooftopRating >= 4]: a rooftop bar, and a rating that is there and is
    at least 4. *)
Lemma rooftop_condition (h : Hotel.t) :
  Hotel.hasRooftopBar h && Generate.number_ge (Hotel.rooftopRating h) 4
  ↔ Hotel.hasRooftopBar h = true ∧ ∃ r, Hotel.rooftopRating h = Some r ∧ 4 ≤ r.
Proof.
  rewrite andb_True, !Is_true_true. unfold Generate.number_ge.
  destruct (Hotel.rooftopRating h) as [r|].
  - rewrite Z.leb_le. split.
    + intros [Hbar Hr]. eauto.
    + intros [Hbar (r' & [= <-] & Hr)]. done.
  - split; [intros [_ ?]; discriminate | intros [_ (r & ? & _)]; discriminate].
Qed.

(** The hotels of the two sections of the home page: at most 6 each, all
    with the flag of the section, the first such hotels in the order of the
    data file.  (In the filter a missing rating is written as 0, which is
    below 4.) *)
Lemma home_lists (inp : Generate.Input) :
  let all := hotels (Generate.allHotelsData inp) in
  let view := Generate.home_acropolisViewHotels inp in
  let roof := Generate.home_rooftopHotels inp in
  ((length view ≤ 6)%nat ∧
   Forall (λ h, Hotel.hasAcropolisView h = true) view ∧
   view `sublist_of` all ∧
   ∃ rest, filter (λ h, Hotel.hasAcropolisView h = true) all = view ++ rest
           ∧ (rest ≠ [] → length view = 6%nat)) ∧
  ((length roof ≤ 6)%nat ∧
   Forall (λ h, Hotel.hasRooftopBar h = true
                ∧ ∃ r, Hotel.rooftopRating h = Some r ∧ 4 ≤ r) roof ∧
   roof `sublist_of` all ∧
   ∃ rest, filter (λ h, Hotel.hasRooftopBar h = true
                        ∧ 4 ≤ default 0 (Hotel.rooftopRating h)) all
             = roof ++ rest
           ∧ (rest ≠ [] → length roof = 6%nat)).
Proof.
  intros all view roof. split.
  - subst view. unfold Generate.home_acropolisViewHotels. fold all.
    erewrite (list_filter_iff _ (λ h, Hotel.hasAcropolisView h = true)).
    + apply (filter_slice_first (λ h, Hotel.hasAcropolisView h = true) 6 all).
    + intros h. by rewrite Is_true_true.
  - subst roof. unfold Generate.home_rooftopHotels. fold all.
    pose proof (filter_slice_first
                  (λ h, Hotel.hasRooftopBar h && Generate.number_ge (Hotel.rooftopRating h) 4)
                  6 all) as Hsel.
    cbv zeta in Hsel. destruct Hsel as (Hlen & Hall & Hsub & (rest & Hrest & Hcut)).
    split; [exact Hlen|]. split; [|split; [exact Hsub|]].
    + eapply Forall_impl; [exact Hall|]. intros h. apply rooftop_condition.
    + exists rest. split; [|exact Hcut]. rewrite <- Hrest.
      apply list_filter_iff. intros h. rewrite rooftop_condition.
      destruct (Hotel.rooftopRating h) as [r|]; simpl.
      * split; [intros [? ?]; eauto | intros [? (r' & [= <-] & ?)]; done].
      * split; [intros [_ ?]; lia | intros [_ (r & ? & _)]; discriminate].
Qed.

(** *** The guide pages *)

Lemma StronglySorted_weaken {A} (R R' : A → A → Prop) (l : list A) :
  (∀ a b, R a b → R' a b) → StronglySorted R l → StronglySorted R' l.
Proof.
  intros HR. induction 1 as [|x l Hl IH Hx]; constructor; [done|].
  eapply Forall_impl; [exact Hx | auto].
Qed.

(** [Array_sort] with a comparator that subtracts keys. *)
Section sort_by_key.
Context {A : Type} (key : A → Z) (cmp : A → A → Z).
Hypothesis cmp_key : ∀ a b, cmp a b = key a - key b.

Lemma sort_insert_Permutation (x : A) (l : list A) :
  sort_insert cmp x l ≡ₚ x :: l.
Proof.
  induction l as [|y l IH]; simpl; [done|].
  destruct (cmp y x <? 0); [|done].
  rewrite IH. apply Permutation_swap.
Qed.

Lemma Array_sort_Permutation (l : list A) : Array_sort cmp l ≡ₚ l.
Proof.
  induction l as [|x l IH]; simpl; [done|].
  by rewrite sort_insert_Permutation, IH.
Qed.

Lemma sort_insert_sorted (x : A) (l : list A) :
  StronglySorted (λ a b, key a ≤ key b) l →
  StronglySorted (λ a b, key a ≤ key b) (sort_insert cmp x l).
Proof.
  induction 1 as [|y l Hl IH Hy]; simpl.
  - repeat constructor.
  - rewrite cmp_key. destruct (Z.ltb_spec (key y - key x) 0) as [Hlt|Hge].
    + constructor; [done|].
      rewrite sort_insert_Permutation. constructor; [lia | done].
    + constructor; [by constructor|].
      constructor; [lia|].
      eapply Forall_impl; [exact Hy|]. simpl. intros z Hz. lia.
Qed.

Lemma Array_sort_sorted (l : list A) :
  StronglySorted (λ a b, key a ≤ key b) (Array_sort cmp l).
Proof.
  induction l as [|x l IH]; simpl; [constructor | by apply sort_insert_sorted].
Qed.

(** The sort is stable: elements with the same key keep their order. *)
Lemma sort_insert_stable (v : Z) (x : A) (l : list A) :
  filter (λ a, key a = v) (sort_insert cmp x l) = filter (λ a, key a = v) (x :: l).
Proof.
  induction l as [|y l IH]; simpl; [done|].
  rewrite cmp_key. destruct (Z.ltb_spec (key y - key x) 0) as [Hlt|Hge]; [|done].
  rewrite !filter_cons, IH, !filter_cons.
  repeat case_decide; try done; lia.
Qed.

Lemma Array_sort_stable (v : Z) (l : list A) :
  filter (λ a, key a = v) (Array_sort cmp l) = filter (λ a, key a = v) l.
Proof.
  induction l as [|x l IH]; simpl; [done|].
  rewrite sort_insert_stable, !filter_cons, IH. done.
Qed.
End sort_by_key.

(** The hotels of the three guides: the filtered hotels, each once, in the
    order of the key that the comparator subtracts. *)
Lemma guide_lists (inp : Generate.Input) :
  let all := hotels (Generate.allHotelsData inp) in
  let rating h := default 0 (Hotel.rooftopRating h) in
  (Generate.guide_budgetHotels inp ≡ₚ filter (λ h, Hotel.pricePerNight h < 80) all ∧
   StronglySorted (λ a b, Hotel.pricePerNight a ≤ Hotel.pricePerNight b)
     (Generate.guide_budgetHotels inp)) ∧
  (Generate.guide_luxuryHotels inp ≡ₚ filter (λ h, 200 ≤ Hotel.pricePerNight h) all ∧
   StronglySorted (λ a b, Hotel.pricePerNight b ≤ Hotel.pricePerNight a)
     (Generate.guide_luxuryHotels inp)) ∧
  (Generate.guide_rooftopHotels inp ≡ₚ filter (λ h, Hotel.hasRooftopBar h = true) all ∧
   StronglySorted (λ a b, rating b ≤ rating a) (Generate.guide_rooftopHotels inp)).
Proof.
  intros all rating.
  unfold Generate.guide_budgetHotels, Generate.guide_luxuryHotels,
    Generate.guide_rooftopHotels. fold all.
  repeat split.
  - apply Array_sort_Permutation.
  - apply (Array_sort_sorted Hotel.pricePerNight). done.
  - apply Array_sort_Permutation.
  - eapply StronglySorted_weaken;
      [|apply (Array_sort_sorted (λ h, - Hotel.pricePerNight h))].
    + simpl. intros; lia.
    + intros; lia.
  - rewrite Array_sort_Permutation.
    erewrite list_filter_iff; [done|]. intros h. by rewrite Is_true_true.
  - eapply StronglySorted_weaken; [|apply (Array_sort_sorted (λ h, - rating h))].
    + simpl. intros; lia.
    + intros; subst rating; simpl; lia.
Qed.

(** *** Builders as writers of files *)

Section writers.
Import Generate.

Lemma writes_ret {A} (a : A) : writes (ret a) ∅ (Ok a).
Proof. intros [fs t]. unfold ret. simpl. by rewrite (left_id_L ∅ (∪)). Qed.

Lemma writes_lift {A} (r : result A) : writes (lift r) ∅ r.
Proof. intros [fs t]. unfold lift. simpl. by rewrite (left_id_L ∅ (∪)). Qed.

Lemma writes_writeFileSync (path data : jsstring) :
  writes (writeFileSync path data) {[path := data]} (Ok ()).
Proof.
  intros [fs t]. unfold writeFileSync. simpl.
  by rewrite insert_union_singleton_l.
Qed.

Lemma writes_bind {A B} (m : M A) (k : A → M B) E1 r1 :
  writes m E1 r1 →
  (∀ a, ∃ E2 r2, writes (k a) E2 r2) →
  ∃ E r, writes (bind m k) E r.
Proof.
  intros Hm Hk. destruct r1 as [a|e].
  - destruct (Hk a) as (E2 & r2 & Hka). exists (E2 ∪ E1), r2.
    intros w. unfold bind. rewrite Hm, Hka. simpl.
    by rewrite (assoc_L (∪)).
  - exists E1, (Throw e). intros w. unfold bind. by rewrite Hm.
Qed.

Lemma writer_bind {A B} (m : M A) (k : A → M B) :
  (∃ E r, writes m E r) →
  (∀ a, ∃ E r, writes (k a) E r) →
  ∃ E r, writes (m ≫= k) E r.
Proof. intros (E & r & Hm) Hk. by eapply writes_bind. Qed.

Lemma writer_for_of {A} (body : A → M unit) (l : list A) :
  (∀ x, ∃ E r, writes (body x) E r) →
  ∃ E r, writes (for_of l body) E r.
Proof.
  intros Hbody. induction l as [|x l IH]; simpl.
  - eauto using @writes_ret.
  - apply writer_bind; [apply Hbody | intros _; exact IH].
Qed.

Ltac writer :=
  repeat first
    [ apply writer_bind; [|intros ?]
    | apply writer_for_of; intros ?
    | eexists _, _; apply writes_lift
    | eexists _, _; apply writes_ret
    | eexists _, _; apply writes_writeFileSync ].

Context (inp : Input).

Lemma writer_generateHomepage : ∃ E r, writes (generateHomepage inp) E r.
Proof. unfold generateHomepage. writer. Qed.

Lemma writer_generateNeighborhoodPages :
  ∃ E r, writes (generateNeighborhoodPages inp) E r.
Proof. unfold generateNeighborhoodPages, generateNeighborhoodPage. writer. Qed.

Lemma writer_generateHotelPages : ∃ E r, writes (generateHotelPages inp) E r.
Proof. unfold generateHotelPages. writer. Qed.

Lemma writer_generateContactPage : ∃ E r, writes (generateContactPage inp) E r.
Proof. unfold generateContactPage. writer. Qed.

Lemma writer_generateThankYouPage : ∃ E r, writes (generateThankYouPage inp) E r.
Proof. unfold generateThankYouPage. writer. Qed.

Lemma writer_generateGuidePages : ∃ E r, writes (generateGuidePages inp) E r.
Proof. unfold generateGuidePages. writer. Qed.

Lemma writer_generateRobots : ∃ E r, writes generateRobots E r.
Proof. unfold generateRobots. writer. Qed.

Lemma writer_generateHeaders : ∃ E r, writes generateHeaders E r.
Proof. unfold generateHeaders. writer. Qed.

Lemma writer_generateRedirects : ∃ E r, writes generateRedirects E r.
Proof. unfold generateRedirects. writer. Qed.
End writers.

(** *** The sitemap *)

Section sitemap.
Import Generate.
Context (inp : Input) (clock : nat → jsstring).

(** [urls.map] with a callback that asks the time once per element: the
    [i]-th element gets the [i]-th reading from where the clock stands. *)
Lemma map_M_now {A} (f : A → jsstring → jsstring) (l : list A) fs (t : nat) :
  map_M (λ u, iso ← now clock; ret (f u iso)) l (World fs t)
  = (World fs (t + length l), Ok (imap (λ i u, f u (clock (t + i)%nat)) l)).
Proof.
  revert t. induction l as [|x l IH]; intros t; simpl.
  - unfold ret. by rewrite Nat.add_0_r.
  - unfold mbind, M_bind, bind, now, ret in *. simpl. rewrite IH. simpl.
    rewrite Nat.add_0_r. do 3 f_equal; [f_equal; lia|].
    apply imap_ext. intros i u _. simpl. do 2 f_equal. lia.
Qed.

Lemma generateSitemap_run (w : world) :
  generateSitemap inp clock w
  = (World
       (<[js "sitemap.xml" :=
            sitemap_document
              (imap (λ i u, url_element u (clock (ticks w + i)%nat)) (urls inp))]>
          (files w))
       (ticks w + length (urls inp)),
     Ok ()).
Proof.
  destruct w as [fs t]. unfold generateSitemap.
  unfold mbind at 1, M_bind at 1, bind at 1.
  rewrite map_M_now. reflexivity.
Qed.

Lemma url_element_date (u : url) (iso iso' : jsstring) :
  split_head 84 iso = split_head 84 iso' → url_element u iso = url_element u iso'.
Proof. intros H. unfold url_element. by rewrite H. Qed.
End sitemap.

(** *** Two runs of the pipeline *)

Section runs.
Import Generate.

Lemma bind_assoc {A B C} (m : M A) (k : A → M B) (k' : B → M C) (w : world) :
  bind (bind m k) k' w = bind m (λ a, bind (k a) k') w.
Proof. unfold bind. destruct (m w) as [w' [a|e]]; reflexivity. Qed.

Lemma bind_ext {A B} (m : M A) (k k' : A → M B) (w : world) :
  (∀ a w', k a w' = k' a w') → bind m k w = bind m k' w.
Proof. intros Hk. unfold bind. destruct (m w) as [w' [a|e]]; [apply Hk | done]. Qed.

Lemma bind_writes {A B} (m : M A) (k : A → M B) E r (w : world) :
  writes m E r →
  bind m k w
  = match r with
    | Ok a => k a (World (E ∪ files w) (ticks w))
    | Throw e => (World (E ∪ files w) (ticks w), Throw e)
    end.
Proof. intros Hm. unfold bind. rewrite Hm. by destruct r. Qed.

(** A run of [main]: the builders before the sitemap add the files [E1]
    (all of them, or those written until one throws), the sitemap is
    written from the readings of the clock, and the three fixed files [E2]
    follow.  [E1], [E2] and the outcome depend on the input only. *)
Lemma main_run (inp : Input) :
  ∃ (E1 E2 : gmap jsstring jsstring) (r1 r2 : result unit),
    ∀ (clock : nat → jsstring) (w : world),
      main inp clock w
      = match r1 with
        | Throw e => (World (E1 ∪ files w) (ticks w), Throw e)
        | Ok _ =>
            (World
               (E2 ∪ <[js "sitemap.xml" :=
                        sitemap_document
                          (imap (λ i u, url_element u (clock (ticks w + i)%nat))
                             (urls inp))]>
                      (E1 ∪ files w))
               (ticks w + length (urls inp)),
             r2)
        end.
Proof.
  assert (∃ E r, writes (generateHomepage inp ;; generateNeighborhoodPages inp ;;
                         generateHotelPages inp ;; generateContactPage inp ;;
                         generateThankYouPage inp ;; generateGuidePages inp) E r)
    as (E1 & r1 & H1).
  { repeat (apply writer_bind; [|intros _]);
      auto using writer_generateHomepage, writer_generateNeighborhoodPages,
        writer_generateHotelPages, writer_generateContactPage,
        writer_generateThankYouPage, writer_generateGuidePages. }
  assert (∃ E r, writes (generateRobots ;; generateHeaders ;; generateRedirects) E r)
    as (E2 & r2 & H2).
  { repeat (apply writer_bind; [|intros _]);
      auto using writer_generateRobots, writer_generateHeaders,
        writer_generateRedirects. }
  exists E1, E2, r1, r2. intros clock w.
  transitivity
    (bind (generateHomepage inp ;; generateNeighborhoodPages inp ;;
           generateHotelPages inp ;; generateContactPage inp ;;
           generateThankYouPage inp ;; generateGuidePages inp)
       (λ _, bind (generateSitemap inp clock)
               (λ _, generateRobots ;; generateHeaders ;; generateRedirects)) w).
  { unfold main, mbind, M_bind. symmetry.
    repeat (rewrite bind_assoc; apply bind_ext; intros _ ?). reflexivity. }
  rewrite (bind_writes _ _ _ _ _ H1). destruct r1 as [[]|e]; [|done].
  unfold bind at 1. rewrite generateSitemap_run. simpl. by rewrite H2.
Qed.
End runs.

(** Lookups in the files of two runs that took the one path or the other. *)
Lemma lookup_union_twice (E fs : gmap jsstring jsstring) (path : jsstring) :
  (E ∪ (E ∪ fs)) !! path = (E ∪ fs) !! path.
Proof. by rewrite (assoc_L (∪)), (idemp_L (∪)). Qed.

(** C8, as the code has it.  Take any input and run the pipeline twice, the
    second run on the output directory the first one left, while the clock
    goes on.  Both runs end the same way, and every file other than
    [sitemap.xml] has the same content after the second run as after the
    first; a run with another clock would have ended the same way and given
    these files the same content.  [sitemap.xml] is the same as well if the
    clock stayed on one date. *)
Theorem two_runs (inp : Generate.Input) (clock : nat → jsstring) (w : Generate.world) :
  let run1 := Generate.main inp clock w in
  let run2 := Generate.main inp clock run1.1 in
  run2.2 = run1.2 ∧
  (∀ path, path ≠ js "sitemap.xml" →
     Generate.files run2.1 !! path = Generate.files run1.1 !! path) ∧
  (∀ clock',
     (Generate.main inp clock' w).2 = run1.2 ∧
     ∀ path, path ≠ js "sitemap.xml" →
       Generate.files (Generate.main inp clock' w).1 !! path
       = Generate.files run1.1 !! path) ∧
  ((∀ i j, split_head 84 (clock i) = split_head 84 (clock j)) →
   Generate.files run2.1 = Generate.files run1.1).
Proof.
  destruct (main_run inp) as (E1 & E2 & r1 & r2 & Hmain).
  intros run1 run2. subst run2 run1. rewrite !Hmain.
  destruct r1 as [[]|e]; cbn [fst snd Generate.files Generate.ticks].
  - split; [done|]. split; [|split].
    + intros path Hpath.
      rewrite !lookup_union, !lookup_insert_ne, !lookup_union, !lookup_insert_ne,
        !lookup_union by done.
      by destruct (E2 !! path), (E1 !! path), (Generate.files w !! path).
    + intros clock'. rewrite Hmain. cbn [fst snd Generate.files].
      split; [done|]. intros path Hpath.
      by rewrite !lookup_union, !lookup_insert_ne by done.
    + intros Hdate. apply map_eq. intros path.
      rewrite !lookup_union.
      destruct (decide (path = js "sitemap.xml")) as [->|Hpath].
      * rewrite !lookup_insert_eq.
        match goal with
        | |- _ ∪ Some (Generate.sitemap_document ?X)
             = _ ∪ Some (Generate.sitemap_document ?Y) =>
            replace X with Y; [done|]
        end.
        apply imap_ext. intros i u _. simpl. apply url_element_date, Hdate.
      * rewrite !lookup_insert_ne, !lookup_union, !lookup_insert_ne, !lookup_union by done.
        by destruct (E2 !! path), (E1 !! path), (Generate.files w !! path).
  - split; [done|]. split; [|split].
    + intros path _. apply lookup_union_twice.
    + intros clock'. by rewrite Hmain.
    + intros _. by rewrite (assoc_L (∪)), (idemp_L (∪)).
Qed.

(** C8, as stated, fails: with the same input and the same output directory
    to start from, a run on one day and a run on the next write different
    sitemaps. *)
Lemma sitemap_differs_between_days :
  let run1 := Generate.main Example.input Example.monday Example.fresh in
  let run2 := Generate.main Example.input Example.tuesday Example.fresh in
  run1.2 = Ok () ∧ run2.2 = Ok () ∧
  is_Some (Generate.files run1.1 !! js "sitemap.xml") ∧
  Generate.files run1.1 !! js "sitemap.xml" ≠ Generate.files run2.1 !! js "sitemap.xml".
Proof.
  vm_compute. repeat split; [eexists; reflexivity | discriminate].
Qed.

(** *** Rounding in binary64 *)

Lemma rne_ge (num den k : Z) : 0 < den → k * den ≤ num → k ≤ rne num den.
Proof.
  intros Hden Hk. unfold rne.
  assert (k ≤ num / den) by (apply Z.div_le_lower_bound; lia).
  repeat case_match; lia.
Qed.

Lemma rne_lt (num den k : Z) :
  0 < den → 2 * num + den < 2 * k * den → rne num den < k.
Proof.
  intros Hden Hk. unfold rne.
  pose proof (Z.div_mod num den ltac:(lia)) as Hdm.
  pose proof (Z.mod_pos_bound num den Hden) as Hr.
  set (q := num / den) in *. set (r := num mod den) in *.
  destruct (Z.ltb_spec (2 * r) den).
  - nia.
  - assert (q + 1 < k) by nia. repeat case_match; lia.
Qed.

(** The exponent that [ratio_expo] picks puts the significand between
    [2 ^ 52] and [2 ^ 53]. *)
Lemma ratio_expo_spec (num den : Z) :
  0 < num → 0 < den →
  let e := ratio_expo num den in
  (0 ≤ e → 2 ^ 52 * (den * 2 ^ e) ≤ num < 2 ^ 53 * (den * 2 ^ e)) ∧
  (e < 0 → 2 ^ 52 * den ≤ num * 2 ^ (- e) < 2 ^ 53 * den).
Proof.
  intros Hnum Hden e. subst e. unfold ratio_expo.
  pose proof (Z.log2_spec num Hnum) as Ha.
  pose proof (Z.log2_spec den Hden) as Hb.
  pose proof (Z.log2_nonneg num) as Ha0.
  pose proof (Z.log2_nonneg den) as Hb0.
  set (a := Z.log2 num) in *. set (b := Z.log2 den) in *.
  rewrite !Z.pow_succ_r in Ha, Hb by done.
  assert (Hpa : 0 < 2 ^ a) by (apply Z.pow_pos_nonneg; lia).
  assert (Hpb : 0 < 2 ^ b) by (apply Z.pow_pos_nonneg; lia).
  destruct (Z.leb_spec 0 (a - b)) as [Hd|Hd].
  - (* num / den is at least 1/2 *)
    assert (Hab : 2 ^ a = 2 ^ (a - b) * 2 ^ b)
      by (rewrite <- Z.pow_add_r by lia; f_equal; lia).
    assert (Hpd : 0 < 2 ^ (a - b)) by (apply Z.pow_pos_nonneg; lia).
    set (D := 2 ^ (a - b)) in *.
    destruct (Z.leb_spec (den * D) num) as [Hge|Hlt].
    + split; intros He.
      * assert (HD : D = 2 ^ 52 * 2 ^ (a - b - 52))
          by (subst D; rewrite <- Z.pow_add_r by lia; f_equal; lia).
        assert (0 < 2 ^ (a - b - 52)) by (apply Z.pow_pos_nonneg; lia).
        set (E := 2 ^ (a - b - 52)) in *. nia.
      * assert (HD : 2 ^ 52 = D * 2 ^ (- (a - b - 52)))
          by (subst D; rewrite <- Z.pow_add_r by lia; f_equal; lia).
        assert (0 < 2 ^ (- (a - b - 52))) by (apply Z.pow_pos_nonneg; lia).
        set (E := 2 ^ (- (a - b - 52))) in *. nia.
    + split; intros He.
      * assert (HD : D = 2 ^ 53 * 2 ^ (a - b - 1 - 52))
          by (subst D; rewrite <- Z.pow_add_r by lia; f_equal; lia).
        assert (0 < 2 ^ (a - b - 1 - 52)) by (apply Z.pow_pos_nonneg; lia).
        set (E := 2 ^ (a - b - 1 - 52)) in *. nia.
      * assert (HD : 2 ^ 53 = D * 2 ^ (- (a - b - 1 - 52)))
          by (subst D; rewrite <- Z.pow_add_r by lia; f_equal; lia).
        assert (0 < 2 ^ (- (a - b - 1 - 52))) by (apply Z.pow_pos_nonneg; lia).
        set (E := 2 ^ (- (a - b - 1 - 52))) in *. nia.
  - (* num / den is below 1 *)
    assert (Hab : 2 ^ b = 2 ^ (- (a - b)) * 2 ^ a)
      by (rewrite <- Z.pow_add_r by lia; f_equal; lia).
    assert (Hpd : 0 < 2 ^ (- (a - b))) by (apply Z.pow_pos_nonneg; lia).
    set (D := 2 ^ (- (a - b))) in *.
    destruct (Z.leb_spec den (num * D)) as [Hge|Hlt].
    + split; intros He; [lia|].
      assert (HD : 2 ^ (- (a - b - 52)) = D * 2 ^ 52)
        by (subst D; rewrite <- Z.pow_add_r by lia; f_equal; lia).
      rewrite HD. nia.
    + split; intros He; [lia|].
      assert (HD : 2 ^ (- (a - b - 1 - 52)) = D * 2 ^ 53)
        by (subst D; rewrite <- Z.pow_add_r by lia; f_equal; lia).
      rewrite HD. nia.
Qed.

(** Rounding a quotient twice, to a double and then to an integer, gives the
    integer nearest to the quotient (a tie going up) whenever the quotient is
    below [2 ^ 52] and no closer to the next tie than a double can tell. *)
Lemma Math_round_ratio (num den k : Z) :
  0 < den → 0 < num < 2 ^ 52 * den →
  (2 * k - 1) * den ≤ 2 * num →
  num * (2 ^ 53 + 1) < (2 * k + 1) * den * 2 ^ 52 →
  Math_round (f64_of_ratio num den) = k.
Proof.
  intros Hden Hnum Hlo Hhi. unfold f64_of_ratio.
  destruct (Z.eqb_spec num 0) as [|_]; [lia|].
  rewrite Z.abs_eq, Z.sgn_pos, Z.mul_1_l by lia.
  destruct (ratio_expo_spec num den) as [Hpos Hneg]; [lia..|].
  set (e := ratio_expo num den) in *.
  assert (He : e < 0).
  { destruct (Z.ltb_spec e 0) as [|He]; [done|].
    specialize (Hpos He).
    assert (1 ≤ 2 ^ e) by (apply Z.lt_pred_le, Z.pow_pos_nonneg; lia). nia. }
  specialize (Hneg He). clear Hpos.
  destruct (Z.leb_spec 0 e) as [|_]; [lia|].
  unfold Math_round. cbn [mant expo].
  destruct (Z.leb_spec 0 e) as [|_]; [lia|].
  assert (HX : 2 ^ (- e) = 2 * 2 ^ (- e - 1))
    by (rewrite <- Z.pow_succ_r by lia; f_equal; lia).
  assert (HX' : 2 ^ (1 - e) = 2 * 2 ^ (- e))
    by (rewrite <- Z.pow_succ_r by lia; f_equal; lia).
  assert (HY : 0 < 2 ^ (- e - 1)) by (apply Z.pow_pos_nonneg; lia).
  rewrite HX' in *. rewrite HX in *. set (Y := 2 ^ (- e - 1)) in *.
  set (m := rne (num * (2 * Y)) den).
  assert (Hm1 : (2 * k - 1) * Y ≤ m) by (apply rne_ge; [done | nia]).
  assert (Hm2 : m < (2 * k + 1) * Y) by (apply rne_lt; [done | nia]).
  symmetry. apply Z.div_unique with (r := 2 * m + 2 * Y - 2 * (2 * Y) * k); lia.
Qed.

Lemma Math_round_zero (den : Z) : Math_round (f64_of_ratio 0 den) = 0.
Proof. reflexivity. Qed.

(** *** The price range of a hotel page *)

(** For a price [p] (an integer from 0 up to [2 ^ 48]),
    [Math.round(p * 0.8)] and [Math.round(p * 1.5)], computed in binary64,
    are the integers nearest to [0.8 p] and to [1.5 p] (no product [0.8 p]
    is a tie; a tie of [1.5 p] goes up). *)
Lemma price_min_max (hotel : Hotel.t) :
  let p := Hotel.pricePerNight hotel in
  0 ≤ p ≤ 2 ^ 48 →
  (Generate.price_min hotel = (8 * p + 5) / 10 ∧
   -5 < 10 * Generate.price_min hotel - 8 * p < 5) ∧
  (Generate.price_max hotel = (3 * p + 1) / 2 ∧
   -1 < 2 * Generate.price_max hotel - 3 * p ≤ 1) ∧
  (p = 100 → Generate.price_min hotel = 80 ∧ Generate.price_max hotel = 150).
Proof.
  intros p Hp.
  assert (Hmin : Generate.price_min hotel = (8 * p + 5) / 10).
  { unfold Generate.price_min. fold p. unfold f64_mul, f64_of_Z, f64_0_8.
    cbn [mant expo]. change (0 <=? 0 + -53) with false. cbv iota.
    destruct (decide (p = 0)) as [->|Hp0]; [reflexivity|].
    pose proof (Z.div_mod (8 * p + 5) 10 ltac:(lia)) as Hdm.
    pose proof (Z.mod_pos_bound (8 * p + 5) 10 ltac:(lia)) as Hr.
    apply Math_round_ratio; change (- -53) with 53; lia. }
  assert (Hmax : Generate.price_max hotel = (3 * p + 1) / 2).
  { unfold Generate.price_max. fold p. unfold f64_mul, f64_of_Z, f64_1_5.
    cbn [mant expo]. change (0 <=? 0 + -52) with false. cbv iota.
    destruct (decide (p = 0)) as [->|Hp0]; [reflexivity|].
    pose proof (Z.div_mod (3 * p + 1) 2 ltac:(lia)) as Hdm.
    pose proof (Z.mod_pos_bound (3 * p + 1) 2 ltac:(lia)) as Hr.
    apply Math_round_ratio; change (- -52) with 52; lia. }
  rewrite Hmin, Hmax.
  pose proof (Z.div_mod (8 * p + 5) 10 ltac:(lia)) as Hdm.
  pose proof (Z.mod_pos_bound (8 * p + 5) 10 ltac:(lia)) as Hr.
  pose proof (Z.div_mod (3 * p + 1) 2 ltac:(lia)) as Hdm'.
  pose proof (Z.mod_pos_bound (3 * p + 1) 2 ltac:(lia)) as Hr'.
  repeat split; lia.
Qed.

(** *** The aggregate index *)

Lemma List_filter_filter {A} (f : A → bool) (P : A → Prop) `{∀ x, Decision (P x)}
    (l : list A) :
  (∀ x, f x = true ↔ P x) → List.filter f l = filter P l.
Proof.
  intros Hf. induction l as [|x l IH]; [done|].
  simpl. rewrite filter_cons, IH.
  destruct (f x) eqn:Hx; case_decide as HP; try done.
  - by apply Hf in Hx.
  - apply Hf in HP. congruence.
Qed.

Lemma sum_prices_foldr (prices : list Z) :
  Fetch.sum_prices prices = foldr Z.add 0 prices.
Proof.
  unfold Fetch.sum_prices.
  assert (∀ acc, fold_left Z.add prices acc = acc + foldr Z.add 0 prices) as ->; [|lia].
  induction prices as [|p prices IH]; intros acc; simpl; [lia|].
  rewrite IH. lia.
Qed.

Lemma sum_prices_nonneg (prices : list Z) :
  Forall (λ p, 0 ≤ p) prices → 0 ≤ foldr Z.add 0 prices.
Proof. induction 1; simpl; lia. Qed.

(** The loop of [main] keeps its counter equal to the number of hotels
    collected. *)
Lemma loop_total seeds (neighborhoods : list Hood.t) (st : Fetch.loop_state) :
  Fetch.total st = Z.of_nat (length (Fetch.allHotels st)) →
  let st' := fold_left (Fetch.loop_body seeds) neighborhoods st in
  Fetch.total st' = Z.of_nat (length (Fetch.allHotels st')).
Proof.
  revert st. induction neighborhoods as [|hood l IH]; intros st Hst; [done|].
  simpl. apply IH. unfold Fetch.loop_body. simpl.
  rewrite length_app, Hst. lia.
Qed.

(** Every price falls in exactly one of the four buckets. *)
Lemma buckets_partition (hs : list Hotel.t) :
  let price := Hotel.pricePerNight in
  Z.of_nat (length (filter (λ h, price h < 80) hs))
  + Z.of_nat (length (filter (λ h, 80 ≤ price h < 150) hs))
  + Z.of_nat (length (filter (λ h, 150 ≤ price h < 250) hs))
  + Z.of_nat (length (filter (λ h, 250 ≤ price h) hs))
  = Z.of_nat (length hs).
Proof.
  intros price. induction hs as [|h hs IH]; [done|].
  rewrite !filter_cons. simpl.
  repeat case_decide; simpl; lia.
Qed.

(** C5. For every non-empty collection of hotels that the data build has
    assembled (prices integers from 0 up, their sum below [2 ^ 52]), the
    master file has: [avgPrice] the mean of the prices rounded to the nearest
    integer (a tie going up), the four counts of [priceStats] the sizes of the
    classes cut at 80, 150 and 250, and these four counts adding up to
    [totalHotels], the number of hotels. *)
Theorem aggregate_index (seedHotels : gmap jsstring (list Fetch.SeedHotel))
    (neighborhoods : list Hood.t) :
  let master := (Fetch.build seedHotels neighborhoods).2 in
  let hs := hotels master in
  let price := Hotel.pricePerNight in
  let n := Z.of_nat (length hs) in
  let sum := foldr Z.add 0 (map price hs) in
  let stats := priceStats master in
  hs ≠ [] →
  Forall (λ h, 0 ≤ price h) hs →
  sum < 2 ^ 52 →
  (∃ avg, avgPrice master = Some avg ∧
          avg = (2 * sum + n) / (2 * n) ∧
          - n < 2 * (n * avg - sum) ≤ n) ∧
  (budget_count stats = Z.of_nat (length (filter (λ h, price h < 80) hs)) ∧
   midRange_count stats = Z.of_nat (length (filter (λ h, 80 ≤ price h < 150) hs)) ∧
   upscale_count stats = Z.of_nat (length (filter (λ h, 150 ≤ price h < 250) hs)) ∧
   luxury_count stats = Z.of_nat (length (filter (λ h, 250 ≤ price h) hs))) ∧
  budget_count stats + midRange_count stats + upscale_count stats + luxury_count stats
    = totalHotels master ∧
  totalHotels master = n.
Proof.
  intros master hs price n sum stats Hne Hpos Hsum.
  assert (Hn : 0 < n).
  { subst n. destruct hs; [done | simpl; lia]. }
  assert (Hs : 0 ≤ sum).
  { apply sum_prices_nonneg, Forall_map. exact Hpos. }
  assert (Hcounts :
    budget_count stats = Z.of_nat (length (filter (λ h, price h < 80) hs)) ∧
    midRange_count stats = Z.of_nat (length (filter (λ h, 80 ≤ price h < 150) hs)) ∧
    upscale_count stats = Z.of_nat (length (filter (λ h, 150 ≤ price h < 250) hs)) ∧
    luxury_count stats = Z.of_nat (length (filter (λ h, 250 ≤ price h) hs))).
  { subst stats master. unfold Fetch.build. cbn [snd priceStats budget_count
      midRange_count upscale_count luxury_count]. unfold Fetch.count.
    repeat split; f_equal; f_equal; apply List_filter_filter; intros h;
      rewrite ?andb_true_iff, ?Z.ltb_lt, ?Z.leb_le; done. }
  assert (Htotal : totalHotels master = n).
  { subst n hs master. unfold Fetch.build. cbn [snd totalHotels hotels].
    by apply loop_total. }
  split; [|split; [exact Hcounts|split; [|exact Htotal]]].
  - exists ((2 * sum + n) / (2 * n)).
    pose proof (Z.div_mod (2 * sum + n) (2 * n) ltac:(lia)) as Hdm.
    pose proof (Z.mod_pos_bound (2 * sum + n) (2 * n) ltac:(lia)) as Hr.
    split; [|split; [done | lia]].
    assert (avgPrice master
            = Math_round <$>
                f64_div (f64_of_Z (Fetch.sum_prices (map price hs)))
                  (f64_of_Z (Z.of_nat (length (map price hs))))) as -> by reflexivity.
    rewrite sum_prices_foldr, length_map. fold sum. fold n.
    unfold f64_div, f64_of_Z. cbn [mant expo].
    destruct (Z.eqb_spec n 0) as [|_]; [lia|].
    rewrite Z.sub_diag. change (0 <=? 0) with true. cbv iota.
    rewrite Z.sgn_pos, Z.abs_eq, Z.mul_1_l, Z.pow_0_r, Z.mul_1_r by lia.
    cbn [fmap option_fmap option_map]. f_equal.
    destruct (decide (sum = 0)) as [Hz|Hnz].
    + rewrite Hz. rewrite Math_round_zero. symmetry.
      apply Z.div_small. lia.
    + apply Math_round_ratio; nia.
  - destruct Hcounts as (-> & -> & -> & ->). rewrite Htotal.
    apply buckets_partition.
Qed.

(** At the seed of the repository and the catalog of the small site. *)
Lemma aggregate_index_witness :
  let master := (Fetch.build Fetch.getSeedHotels Example.catalog).2 in
  let hs := hotels master in
  let price := Hotel.pricePerNight in
  let n := Z.of_nat (length hs) in
  let sum := foldr Z.add 0 (map price hs) in
  let stats := priceStats master in
  hs ≠ [] ∧
  Forall (λ h, 0 ≤ price h) hs ∧
  sum < 2 ^ 52 ∧
  (∃ avg, avgPrice master = Some avg ∧
          avg = (2 * sum + n) / (2 * n) ∧
          - n < 2 * (n * avg - sum) ≤ n) ∧
  (budget_count stats = Z.of_nat (length (filter (λ h, price h < 80) hs)) ∧
   midRange_count stats = Z.of_nat (length (filter (λ h, 80 ≤ price h < 150) hs)) ∧
   upscale_count stats = Z.of_nat (length (filter (λ h, 150 ≤ price h < 250) hs)) ∧
   luxury_count stats = Z.of_nat (length (filter (λ h, 250 ≤ price h) hs))) ∧
  budget_count stats + midRange_count stats + upscale_count stats + luxury_count stats
    = totalHotels master ∧
  totalHotels master = n.
Proof.
  intros master hs price n sum stats.
  assert (H1 : hs ≠ []) by (vm_compute; discriminate).
  assert (H2 : Forall (λ h, 0 ≤ price h) hs).
  { apply Forall_forall. intros h Hh. vm_compute in Hh.
    repeat (apply elem_of_cons in Hh as [->|Hh]; [vm_compute; discriminate|]).
    by apply elem_of_nil in Hh. }
  assert (H3 : sum < 2 ^ 52) by (vm_compute; reflexivity).
  exact (conj H1 (conj H2 (conj H3
           (aggregate_index Fetch.getSeedHotels Example.catalog H1 H2 H3)))).
Defined.

(** There the 9 hotels cost 133 on average and fall 1, 4, 3, 1 into the
    four classes. *)
Example aggregate_index_values :
  let master := (Fetch.main Example.catalog).2 in
  totalHotels master = 9 ∧ avgPrice master = Some 133 ∧
  priceStats master
  = {| budget_count := 1; midRange_count := 4; upscale_count := 3; luxury_count := 1 |}.
Proof. vm_compute. repeat split. Qed.

(** *** Two hotels with one slug *)

(** The path of a hotel's page is a function of its slug, and the slug that
    the data build gives a hotel is a function of its name. *)
Lemma hotel_path_slug (h1 h2 : Hotel.t) :
  Hotel.slug h1 = Hotel.slug h2 → Generate.hotel_path h1 = Generate.hotel_path h2.
Proof. intros H. unfold Generate.hotel_path. by rewrite H. Qed.

Lemma processHotel_slug (hood1 hood2 : Hood.t) (s1 s2 : Fetch.SeedHotel) :
  Fetch.seed_name s1 = Fetch.seed_name s2 →
  Hotel.slug (Fetch.processHotel hood1 s1) = Hotel.slug (Fetch.processHotel hood2 s2).
Proof. intros H. simpl. by rewrite H. Qed.

Section hotel_pages.
Import Generate.

(** What [generateHotelPages] leaves at the path of a hotel when every page
    renders: the page of the last hotel of the collection with that path,
    whichever hotel that is. *)
Lemma for_of_hotel_pages (inp : Generate.Input) (l : list Hotel.t) (w : Generate.world) :
  (∀ h, h ∈ l → ∃ html, Generate.hotel_html inp h = Ok html) →
  ∃ fs,
    Generate.for_of l
      (λ hotel, html ← Generate.lift (Generate.hotel_html inp hotel);
                Generate.writeFileSync (Generate.hotel_path hotel) html) w
    = (Generate.World fs (Generate.ticks w), Ok ()) ∧
    ∀ path,
      Ok <$> fs !! path
      = match last (filter (λ h, Generate.hotel_path h = path) l) with
        | Some h => Some (Generate.hotel_html inp h)
        | None => Ok <$> Generate.files w !! path
        end.
Proof.
  revert w. induction l as [|x l IH]; intros w Hok.
  - exists (Generate.files w). split; [by destruct w|done].
  - destruct (Hok x) as [html Hx]; [left|].
    set (w1 := Generate.World (<[Generate.hotel_path x := html]> (Generate.files w))
                 (Generate.ticks w)).
    destruct (IH w1) as (fs & Hrun & Hfs).
    { intros h Hh. apply Hok. by right. }
    exists fs. split.
    + simpl. unfold mbind, Generate.M_bind, Generate.bind, Generate.lift,
        Generate.writeFileSync in *. rewrite Hx. exact Hrun.
    + intros path. rewrite Hfs, filter_cons.
      destruct (last (filter (λ h, Generate.hotel_path h = path) l)) as [h|] eqn:Hlast.
      * case_decide; [by rewrite last_cons, Hlast | by rewrite Hlast].
      * case_decide as Hpath.
        -- rewrite last_cons, Hlast. subst path. subst w1. simpl.
           by rewrite lookup_insert_eq, Hx.
        -- rewrite Hlast. subst w1. simpl. by rewrite lookup_insert_ne.
Qed.

Lemma hotel_pages_last_wins (inp : Generate.Input) (w : Generate.world)
    (h1 h2 : Hotel.t) (before between after : list Hotel.t) :
  hotels (Generate.allHotelsData inp) = before ++ h1 :: between ++ h2 :: after →
  Hotel.slug h1 = Hotel.slug h2 →
  (∀ h, h ∈ after → Hotel.slug h ≠ Hotel.slug h2) →
  (∀ h, h ∈ hotels (Generate.allHotelsData inp) →
        ∃ html, Generate.hotel_html inp h = Ok html) →
  let run := Generate.generateHotelPages inp w in
  run.2 = Ok () ∧
  Ok <$> Generate.files run.1 !! Generate.hotel_path h1 = Some (Generate.hotel_html inp h2).
Proof.
  intros Hall Hslug Hafter Hok run. subst run. unfold Generate.generateHotelPages.
  destruct (for_of_hotel_pages inp _ w Hok) as (fs & -> & Hfs).
  split; [done|]. simpl. rewrite Hfs, Hall.
  replace (before ++ h1 :: between ++ h2 :: after)
    with ((before ++ h1 :: between) ++ [h2] ++ after) by (by rewrite <- !app_assoc).
  rewrite !filter_app.
  assert (Hnone : ∀ l, (∀ h, h ∈ l → Hotel.slug h ≠ Hotel.slug h2) →
                   filter (λ h, hotel_path h = hotel_path h1) l = []).
  { induction l as [|h l IHl]; intros Hl; [done|].
    rewrite filter_cons, decide_False.
    - apply IHl. intros h' Hh'. apply Hl. by right.
    - intros Hpath. apply (Hl h); [left|].
      unfold hotel_path, path_join in Hpath. simpl in Hpath.
      rewrite <- Hslug. by simplify_list_eq. }
  rewrite (Hnone after Hafter).
  assert (filter (λ h, hotel_path h = hotel_path h1) [h2] = [h2]) as Hlast.
  { rewrite filter_cons, decide_True; [done|]. symmetry. by apply hotel_path_slug. }
  simpl in Hlast. rewrite app_nil_r. simpl. rewrite Hlast. by rewrite last_snoc.
Qed.
End hotel_pages.

(** C2, on the repository's own seed.  The curated hotels of Plaka and of
    Koukaki both hold a "Herodion Hotel".  The data build gives the two
    different ids and the same slug; the generator then runs to its end
    without an error, writes the page of the Plaka hotel and replaces it with
    the page of the Koukaki hotel: of the 9 hotels that [totalHotels] counts,
    8 have a page. *)
Theorem duplicate_slug_overwrites :
  let all := hotels (Generate.allHotelsData Example.input) in
  let run := Generate.main Example.input Example.monday Example.fresh in
  let pages :=
    filter (λ path, starts_with (js "hotel/") path = true)
      (map fst (map_to_list (Generate.files run.1))) in
  ∃ h1 h2,
    all !! 3%nat = Some h1 ∧ all !! 5%nat = Some h2 ∧
    Hotel.name h1 = js "Herodion Hotel" ∧ Hotel.name h2 = js "Herodion Hotel" ∧
    Hotel.id h1 = js "herodion-hotel-plaka" ∧ Hotel.id h2 = js "herodion-hotel-koukaki" ∧
    Hotel.slug h1 = js "herodion-hotel-athens" ∧ Hotel.slug h2 = js "herodion-hotel-athens" ∧
    run.2 = Ok () ∧
    Generate.hotel_html Example.input h1 ≠ Generate.hotel_html Example.input h2 ∧
    Ok <$> Generate.files run.1 !! Generate.hotel_path h1
      = Some (Generate.hotel_html Example.input h2) ∧
    totalHotels (Generate.allHotelsData Example.input) = 9 ∧
    length pages = 8%nat.
Proof.
  eexists _, _.
  split; [vm_compute; reflexivity|]. split; [vm_compute; reflexivity|].
  vm_compute. repeat split. discriminate.
Qed.

(** *** When a run succeeds and what it writes *)

#[local] Set Warnings "-clear-no-such-hyp".

Section outcome.
Import Generate.

Lemma rmap_Ok_iff {A B} (f : A → result B) (l : list A) :
  (∃ ys, rmap f l = Ok ys) ↔ Forall (λ x, ∃ y, f x = Ok y) l.
Proof.
  induction l as [|x l IH]; simpl.
  - split; [constructor | eauto].
  - rewrite Forall_cons, <- IH. destruct (f x) as [y|e]; simpl.
    + destruct (rmap f l) as [ys|e]; simpl.
      * split; eauto.
      * split; [intros [? ?]; discriminate | intros [_ [? ?]]; discriminate].
    + split; [intros [? ?]; discriminate | intros [[? ?] _]; discriminate].
Qed.

Lemma generateStars_Ok_iff (rating : Z) :
  (∃ s, generateStars rating = Ok s) ↔ 0 ≤ rating ≤ 5.
Proof.
  split.
  - intros [s Hs]. destruct (decide (0 ≤ rating ≤ 5)) as [|Hout]; [done|].
    rewrite generateStars_out_of_range in Hs by lia. discriminate.
  - intros Hr. unfold generateStars. rewrite !String_repeat_unit by lia. simpl. eauto.
Qed.

Lemma generateHotelCard_Ok_iff (hotel : Hotel.t) :
  (∃ s, generateHotelCard hotel = Ok s) ↔ 0 ≤ Hotel.starRating hotel ≤ 5.
Proof.
  rewrite <- generateStars_Ok_iff. unfold generateHotelCard.
  destruct (generateStars (Hotel.starRating hotel)) as [s|e]; simpl.
  - split; eauto.
  - split; intros [? ?]; discriminate.
Qed.

Lemma hotelCards_Ok_iff (l : list Hotel.t) :
  (∃ s, hotelCards l = Ok s) ↔ Forall (λ h, 0 ≤ Hotel.starRating h ≤ 5) l.
Proof.
  unfold hotelCards.
  rewrite <- (Forall_iff _ l _ generateHotelCard_Ok_iff), <- rmap_Ok_iff.
  destruct (rmap generateHotelCard l) as [ys|e]; simpl.
  - split; eauto.
  - split; intros [? ?]; discriminate.
Qed.

(** The combinators of [M] and [runs]. *)
Lemma runs_ret {A} (a : A) : runs (ret a) True ∅.
Proof.
  intros w. exists ∅, (ticks w), (Ok a). unfold ret.
  rewrite (left_id_L ∅ (∪)), dom_empty_L. destruct w. naive_solver.
Qed.

Lemma runs_lift {A} (r : result A) : runs (lift r) (∃ a, r = Ok a) ∅.
Proof.
  intros w. exists ∅, (ticks w), r. unfold lift.
  rewrite (left_id_L ∅ (∪)), dom_empty_L. destruct w. naive_solver.
Qed.

Lemma runs_writeFileSync (path data : jsstring) :
  runs (writeFileSync path data) True {[path]}.
Proof.
  intros w. exists {[path := data]}, (ticks w), (Ok ()). unfold writeFileSync.
  rewrite insert_union_singleton_l, dom_singleton_L. naive_solver.
Qed.

Lemma runs_bind {A B} (m : M A) (k : A → M B) ok1 ok2 S1 S2 :
  runs m ok1 S1 → (∀ a, runs (k a) ok2 S2) →
  runs (m ≫= k) (ok1 ∧ ok2) (S1 ∪ S2).
Proof.
  intros Hm Hk w. destruct (Hm w) as (E1 & t1 & r1 & Hrun & Hok & Hsub & Hdom).
  unfold mbind, M_bind, bind. rewrite Hrun. destruct r1 as [a|e].
  - destruct (Hk a (World (E1 ∪ files w) t1))
      as (E2 & t2 & r2 & Hrun2 & Hok2 & Hsub2 & Hdom2).
    exists (E2 ∪ E1), t2, r2. rewrite Hrun2. cbn [files].
    rewrite (assoc_L (∪)), dom_union_L. split; [done|].
    assert (ok1) by (apply Hok; eauto).
    split; [tauto|]. split; [set_solver|].
    intros Hr2. rewrite Hdom2, Hdom by eauto. set_solver.
  - exists E1, t1, (Throw e). split; [done|].
    assert (¬ ok1) by (intros ?; destruct Hok as [_ [? ?]]; [done | discriminate]).
    split; [split; [intros [? ?]; discriminate | tauto]|].
    split; [set_solver | intros [? ?]; discriminate].
Qed.

Lemma runs_iff {A} (m : M A) ok ok' S S' :
  (ok ↔ ok') → S = S' → runs m ok S → runs m ok' S'.
Proof.
  intros Hok -> Hm w. destruct (Hm w) as (E & t & r & ? & ? & ? & ?).
  exists E, t, r. tauto.
Qed.

Lemma runs_for_of {A} (body : A → M unit) (ok : A → Prop) (path : A → jsstring)
    (l : list A) :
  (∀ x, runs (body x) (ok x) {[path x]}) →
  runs (for_of l body) (Forall ok l) (list_to_set (path <$> l)).
Proof.
  intros Hbody. induction l as [|x l IH]; simpl.
  - eapply runs_iff; [| |apply runs_ret]; [|done].
    split; [constructor | done].
  - eapply runs_iff; [| |apply runs_bind; [apply Hbody | intros _; exact IH]]; [|done].
    by rewrite Forall_cons.
Qed.

Lemma runs_lift_bind {A B} (r : result A) (k : A → M B) ok S :
  (∀ a, r = Ok a → runs (k a) ok S) →
  ((∀ a, r ≠ Ok a) → ¬ ok) →
  runs (lift r ≫= k) ok S.
Proof.
  intros Hk Hno. destruct r as [a|e].
  - intros w. destruct (Hk a eq_refl w) as (E & t & r & Hrun & ?).
    exists E, t, r. split; [|done]. rewrite <- Hrun. by destruct w.
  - intros w. exists ∅, (ticks w), (Throw e).
    unfold mbind, M_bind, bind, lift. rewrite (left_id_L ∅ (∪)), dom_empty_L.
    assert (¬ ok) by (apply Hno; intros ??; discriminate).
    destruct w. repeat split; try done; try tauto; try set_solver;
      intros [? ?]; discriminate.
Qed.

Ltac runs_steps :=
  repeat first
    [ eapply runs_bind; [|intros ?]
    | apply runs_lift
    | apply runs_ret
    | apply runs_writeFileSync ].

Context (inp : Input).

Lemma runs_generateHomepage :
  runs (generateHomepage inp)
    (Forall (λ h, 0 ≤ Hotel.starRating h ≤ 5) (home_acropolisViewHotels inp)
     ∧ Forall (λ h, 0 ≤ Hotel.starRating h ≤ 5) (home_rooftopHotels inp))
    {[js "index.html"]}.
Proof.
  eapply runs_iff; [| |unfold generateHomepage; runs_steps].
  - rewrite !hotelCards_Ok_iff. tauto.
  - set_solver.
Qed.

Lemma runs_generateNeighborhoodPage (hood : Hood.t) :
  runs (generateNeighborhoodPage inp hood)
    (∃ d, hoodFile inp !! Hood.id hood = Some d ∧ Forall (λ h, 0 ≤ Hotel.starRating h ≤ 5) (hood_hotels d))
    {[path_join [js "athens-hotels"; Hood.id hood ++ js ".html"]]}.
Proof.
  unfold generateNeighborhoodPage. apply runs_lift_bind.
  - intros d Hd. destruct (hoodFile inp !! Hood.id hood) as [d'|]; [|discriminate].
    injection Hd as ->.
    eapply runs_iff; [| |runs_steps].
    + rewrite hotelCards_Ok_iff. split; [intros [? _]; eauto | intros (d' & [= <-] & ?); tauto].
    + set_solver.
  - intros Hno (d & Hd & _). rewrite Hd in Hno. by apply (Hno d).
Qed.

Lemma runs_generateNeighborhoodPages :
  runs (generateNeighborhoodPages inp)
    (Forall (λ hood, ∃ d, hoodFile inp !! Hood.id hood = Some d
                          ∧ Forall (λ h, 0 ≤ Hotel.starRating h ≤ 5) (hood_hotels d))
       (neighborhoodsData inp))
    (list_to_set
       ((λ hood, path_join [js "athens-hotels"; Hood.id hood ++ js ".html"])
          <$> neighborhoodsData inp)).
Proof.
  unfold generateNeighborhoodPages.
  apply (runs_for_of _ _ (λ hood, path_join [js "athens-hotels"; Hood.id hood ++ js ".html"])).
  apply runs_generateNeighborhoodPage.
Qed.

Lemma runs_generateHotelPages :
  runs (generateHotelPages inp)
    (Forall (λ h, ∃ html, hotel_html inp h = Ok html) (hotels (allHotelsData inp)))
    (list_to_set (hotel_path <$> hotels (allHotelsData inp))).
Proof.
  unfold generateHotelPages. apply (runs_for_of _ _ hotel_path). intros h.
  eapply runs_iff; [| |runs_steps]; [tauto | set_solver].
Qed.

Lemma runs_generateContactPage :
  runs (generateContactPage inp) True {[js "contact.html"]}.
Proof. unfold generateContactPage. apply runs_writeFileSync. Qed.

Lemma runs_generateThankYouPage :
  runs (generateThankYouPage inp) True {[js "thank-you.html"]}.
Proof. unfold generateThankYouPage. apply runs_writeFileSync. Qed.

Lemma runs_generateGuidePages :
  runs (generateGuidePages inp)
    (Forall (λ h, 0 ≤ Hotel.starRating h ≤ 5) (guide_budgetHotels inp)
     ∧ Forall (λ h, 0 ≤ Hotel.starRating h ≤ 5) (guide_luxuryHotels inp)
     ∧ Forall (λ h, 0 ≤ Hotel.starRating h ≤ 5) (guide_rooftopHotels inp))
    {[js "budget-hotels-athens.html"; js "luxury-hotels-athens.html";
      js "best-rooftop-bars-athens.html"]}.
Proof.
  eapply runs_iff; [| |unfold generateGuidePages; runs_steps].
  - rewrite !hotelCards_Ok_iff. tauto.
  - set_solver.
Qed.

Lemma runs_generateSitemap (clock : nat → jsstring) :
  runs (generateSitemap inp clock) True {[js "sitemap.xml"]}.
Proof.
  intros w. eexists {[js "sitemap.xml" := _]}, _, (Ok ()).
  rewrite generateSitemap_run, insert_union_singleton_l, dom_singleton_L.
  split; [reflexivity|]. naive_solver.
Qed.

Lemma runs_generateRobots : runs generateRobots True {[js "robots.txt"]}.
Proof. apply runs_writeFileSync. Qed.

Lemma runs_generateHeaders : runs generateHeaders True {[js "_headers"]}.
Proof. apply runs_writeFileSync. Qed.

Lemma runs_generateRedirects : runs generateRedirects True {[js "_redirects"]}.
Proof. apply runs_writeFileSync. Qed.

Lemma hotel_html_Ok_iff (hotel : Hotel.t) :
  (∃ html, hotel_html inp hotel = Ok html) ↔
  Forall (λ h, 0 ≤ Hotel.starRating h ≤ 5) (similar inp hotel) ∧
  0 ≤ Hotel.starRating hotel ≤ 5 ∧
  ∃ query, encodeURIComponent (Hotel.name hotel ++ js " Athens") = Ok query.
Proof.
  rewrite <- hotelCards_Ok_iff, <- generateStars_Ok_iff. unfold hotel_html.
  set (cards := hotelCards (similar inp hotel)).
  set (stars := generateStars (Hotel.starRating hotel)).
  set (query := encodeURIComponent (Hotel.name hotel ++ js " Athens")).
  destruct cards as [cards|e]; cbn [rbind].
  2: { split; [intros [? ?]; discriminate | intros [[? ?] _]; discriminate]. }
  destruct stars as [stars|e]; cbn [rbind].
  2: { split; [intros [? ?]; discriminate | intros (_ & [? ?] & _); discriminate]. }
  destruct query as [query|e]; cbn [rbind].
  - split; [intros _; repeat split; eexists; reflexivity | intros _; eexists; reflexivity].
  - split; [intros [? ?]; discriminate | intros (_ & _ & [? ?]); discriminate].
Qed.

(** The whole run. *)
Lemma runs_main (clock : nat → jsstring) :
  runs (main inp clock)
    ((Forall (λ h, 0 ≤ Hotel.starRating h ≤ 5) (home_acropolisViewHotels inp)
      ∧ Forall (λ h, 0 ≤ Hotel.starRating h ≤ 5) (home_rooftopHotels inp))
     ∧ Forall (λ hood, ∃ d, hoodFile inp !! Hood.id hood = Some d
                            ∧ Forall (λ h, 0 ≤ Hotel.starRating h ≤ 5) (hood_hotels d))
         (neighborhoodsData inp)
     ∧ Forall (λ h, ∃ html, hotel_html inp h = Ok html) (hotels (allHotelsData inp))
     ∧ (Forall (λ h, 0 ≤ Hotel.starRating h ≤ 5) (guide_budgetHotels inp)
        ∧ Forall (λ h, 0 ≤ Hotel.starRating h ≤ 5) (guide_luxuryHotels inp)
        ∧ Forall (λ h, 0 ≤ Hotel.starRating h ≤ 5) (guide_rooftopHotels inp)))
    ({[js "index.html"]}
     ∪ list_to_set
         ((λ hood, path_join [js "athens-hotels"; Hood.id hood ++ js ".html"])
            <$> neighborhoodsData inp)
     ∪ list_to_set (hotel_path <$> hotels (allHotelsData inp))
     ∪ {[js "contact.html"; js "thank-you.html"; js "budget-hotels-athens.html";
         js "luxury-hotels-athens.html"; js "best-rooftop-bars-athens.html";
         js "sitemap.xml"; js "robots.txt"; js "_headers"; js "_redirects"]}).
Proof.
  eapply runs_iff; [| |unfold main].
  3: { eapply runs_bind; [apply runs_generateHomepage|intros _].
       eapply runs_bind; [apply runs_generateNeighborhoodPages|intros _].
       eapply runs_bind; [apply runs_generateHotelPages|intros _].
       eapply runs_bind; [apply runs_generateContactPage|intros _].
       eapply runs_bind; [apply runs_generateThankYouPage|intros _].
       eapply runs_bind; [apply runs_generateGuidePages|intros _].
       eapply runs_bind; [apply runs_generateSitemap|intros _].
       eapply runs_bind; [apply runs_generateRobots|intros _].
       eapply runs_bind; [apply runs_generateHeaders|intros _].
       apply runs_generateRedirects. }
  - tauto.
  - set_solver.
Qed.
End outcome.

Lemma Forall_filter_slice {A} (P Q : A → Prop) `{∀ x, Decision (Q x)} (n : nat)
    (l : list A) :
  Forall P l → Forall P (Array_slice0 n (filter Q l)).
Proof.
  intros Hl. apply Forall_take, Forall_forall. intros x Hx.
  apply list_elem_of_filter in Hx as [_ Hx]. by eapply Forall_forall in Hl.
Qed.

Lemma Forall_filter_sort {A} (P Q : A → Prop) `{∀ x, Decision (Q x)}
    (cmp : A → A → Z) (l : list A) :
  Forall P l → Forall P (Array_sort cmp (filter Q l)).
Proof.
  intros Hl. rewrite Array_sort_Permutation. apply Forall_forall. intros x Hx.
  apply list_elem_of_filter in Hx as [_ Hx]. by eapply Forall_forall in Hl.
Qed.

Lemma main_Ok_intro (inp : Generate.Input) (clock : nat → jsstring)
    (w : Generate.world) :
  (∀ h, h ∈ hotels (Generate.allHotelsData inp) →
        0 ≤ Hotel.starRating h ≤ 5 ∧
        ∃ query, encodeURIComponent (Hotel.name h ++ js " Athens") = Ok query) →
  (∀ hood, hood ∈ Generate.neighborhoodsData inp →
        ∃ d, Generate.hoodFile inp !! Hood.id hood = Some d ∧
             ∀ h, h ∈ hood_hotels d → 0 ≤ Hotel.starRating h ≤ 5) →
  (Generate.main inp clock w).2 = Ok ().
Proof.
  intros Hhotels Hhoods.
  destruct (runs_main inp clock w) as (E & t & r & -> & Hok & _). cbn [snd].
  assert (∃ a, r = Ok a) as [[] ->]; [|done]. apply Hok.
  assert (Hr : Forall (λ h, 0 ≤ Hotel.starRating h ≤ 5)
                 (hotels (Generate.allHotelsData inp))).
  { apply Forall_forall. intros h Hh. by apply Hhotels. }
  repeat split.
  - by apply Forall_filter_slice.
  - by apply Forall_filter_slice.
  - apply Forall_forall. intros hood Hhood.
    destruct (Hhoods hood Hhood) as (d & Hd & Hrd). exists d. split; [done|].
    by apply Forall_forall.
  - apply Forall_forall. intros h Hh. apply hotel_html_Ok_iff.
    split; [by apply Forall_filter_slice|]. by apply Hhotels.
  - by apply Forall_filter_sort.
  - by apply Forall_filter_sort.
  - by apply Forall_filter_sort.
Qed.

(** X1. The generator ends without an exception exactly when every hotel of
    the master file has a rating from 0 to 5 and a name that
    [encodeURIComponent] accepts, and every neighborhood of the catalog has a
    data file whose hotels have a rating from 0 to 5.  The prices, the
    templates, the optional fields that are missing, the files already in the
    output directory and the clock play no part (a write is taken to
    succeed). *)
Theorem main_succeeds_iff (inp : Generate.Input) (clock : nat → jsstring)
    (w : Generate.world) :
  (Generate.main inp clock w).2 = Ok () ↔
  (∀ h, h ∈ hotels (Generate.allHotelsData inp) →
        0 ≤ Hotel.starRating h ≤ 5 ∧
        ∃ query, encodeURIComponent (Hotel.name h ++ js " Athens") = Ok query) ∧
  (∀ hood, hood ∈ Generate.neighborhoodsData inp →
        ∃ d, Generate.hoodFile inp !! Hood.id hood = Some d ∧
             ∀ h, h ∈ hood_hotels d → 0 ≤ Hotel.starRating h ≤ 5).
Proof.
  split; [|intros [? ?]; by apply main_Ok_intro].
  destruct (runs_main inp clock w) as (E & t & r & -> & Hok & _). cbn [snd].
  intros ->. destruct Hok as [Hok _].
  destruct Hok as (_ & Hhoods & Hhotels & _); [by eexists|]. split.
  - intros h Hh. eapply Forall_forall in Hhotels; [|exact Hh].
    apply hotel_html_Ok_iff in Hhotels. tauto.
  - intros hood Hhood. eapply Forall_forall in Hhoods; [|exact Hhood].
    destruct Hhoods as (d & Hd & Hr). exists d. split; [done|].
    by apply Forall_forall.
Qed.

(** X2. When no id of the catalog and no slug of the collection holds a
    path separator (so that [path.join] has nothing to normalise; a write is
    taken to succeed), a run, whether it succeeds or not, creates or replaces
    files only at these paths: the ten fixed ones, the page of each
    neighborhood of the catalog and the page of each hotel of the collection.
    Any other file of the output directory, such as the page of a hotel that
    has left the data, stays as it was; and after a run without an exception
    all of these paths hold a file. *)
Theorem main_output_paths (inp : Generate.Input) (clock : nat → jsstring)
    (w : Generate.world) :
  Forall (λ hood, Page.one_segment (Hood.id hood) = true)
    (Generate.neighborhoodsData inp) →
  Forall (λ h, Page.one_segment (Hotel.slug h) = true)
    (hotels (Generate.allHotelsData inp)) →
  let paths : gset jsstring :=
    list_to_set
      ([js "index.html"; js "contact.html"; js "thank-you.html";
        js "budget-hotels-athens.html"; js "luxury-hotels-athens.html";
        js "best-rooftop-bars-athens.html"; js "sitemap.xml"; js "robots.txt";
        js "_headers"; js "_redirects"]
       ++ map (λ hood, js "athens-hotels/" ++ Hood.id hood ++ js ".html")
            (Generate.neighborhoodsData inp)
       ++ map (λ h, js "hotel/" ++ Hotel.slug h ++ js ".html")
            (hotels (Generate.allHotelsData inp))) in
  let run := Generate.main inp clock w in
  (∀ path, path ∉ paths →
     Generate.files run.1 !! path = Generate.files w !! path) ∧
  (run.2 = Ok () → dom (Generate.files run.1) = paths ∪ dom (Generate.files w)).
Proof.
  intros _ _ paths run. subst run.
  destruct (runs_main inp clock w) as (E & t & r & -> & _ & Hsub & Hdom).
  cbn [fst snd Generate.files].
  match type of Hsub with _ ⊆ ?S => assert (HS : S = paths) end.
  { subst paths. rewrite !list_to_set_app_L. cbn [list_to_set].
    set (A := list_to_set (_ <$> Generate.neighborhoodsData inp)).
    set (B := list_to_set (_ <$> hotels (Generate.allHotelsData inp))).
    match goal with |- _ = _ ∪ (?A' ∪ ?B') => change A' with A; change B' with B end.
    clearbody A B. clear.
    generalize (js "index.html"), (js "contact.html"), (js "thank-you.html"),
      (js "budget-hotels-athens.html"), (js "luxury-hotels-athens.html"),
      (js "best-rooftop-bars-athens.html"), (js "sitemap.xml"), (js "robots.txt"),
      (js "_headers"), (js "_redirects").
    intros. set_solver. }
  rewrite HS in *. split.
  - intros path Hpath. rewrite lookup_union_r; [done|].
    apply not_elem_of_dom. set_solver.
  - intros ->. rewrite dom_union_L, Hdom by eauto. done.
Qed.

(** At the small site. *)
Lemma main_output_paths_witness :
  (Forall (λ hood, Page.one_segment (Hood.id hood) = true)
     (Generate.neighborhoodsData Example.input) ∧
   Forall (λ h, Page.one_segment (Hotel.slug h) = true)
     (hotels (Generate.allHotelsData Example.input))) ∧
  let paths : gset jsstring :=
    list_to_set
      ([js "index.html"; js "contact.html"; js "thank-you.html";
        js "budget-hotels-athens.html"; js "luxury-hotels-athens.html";
        js "best-rooftop-bars-athens.html"; js "sitemap.xml"; js "robots.txt";
        js "_headers"; js "_redirects"]
       ++ map (λ hood, js "athens-hotels/" ++ Hood.id hood ++ js ".html")
            (Generate.neighborhoodsData Example.input)
       ++ map (λ h, js "hotel/" ++ Hotel.slug h ++ js ".html")
            (hotels (Generate.allHotelsData Example.input))) in
  let run := Generate.main Example.input Example.monday Example.fresh in
  (∀ path, path ∉ paths →
     Generate.files run.1 !! path = Generate.files Example.fresh !! path) ∧
  (run.2 = Ok () →
   dom (Generate.files run.1) = paths ∪ dom (Generate.files Example.fresh)).
Proof.
  assert (H1 : Forall (λ hood, Page.one_segment (Hood.id hood) = true)
                 (Generate.neighborhoodsData Example.input)).
  { refine (bool_decide_unpack _ _). vm_compute. exact I. }
  assert (H2 : Forall (λ h, Page.one_segment (Hotel.slug h) = true)
                 (hotels (Generate.allHotelsData Example.input))).
  { refine (bool_decide_unpack _ _). vm_compute. exact I. }
  exact (conj (conj H1 H2)
           (main_output_paths Example.input Example.monday Example.fresh H1 H2)).
Defined.

(** *** When a run fails *)

Section failure.
Import Generate.

Lemma rmap_Throw {A B} (f : A → result B) (l : list A) (e : exn) :
  rmap f l = Throw e → ∃ x, x ∈ l ∧ f x = Throw e.
Proof.
  induction l as [|x l IH]; simpl; [done|].
  destruct (f x) as [y|e'] eqn:Hx; simpl.
  - destruct (rmap f l) as [ys|e'']; simpl; [done|].
    intros [= ->]. destruct IH as (x' & ? & ?); [done|].
    exists x'. split; [by right|done].
  - intros [= ->]. exists x. split; [by left|done].
Qed.

Lemma generateStars_Throw (rating : Z) (e : exn) :
  generateStars rating = Throw e → e = RangeError.
Proof.
  unfold generateStars, String_repeat.
  destruct (rating <? 0); simpl; [congruence|].
  destruct (5 - rating <? 0); simpl; congruence.
Qed.

Lemma hotelCards_Throw (l : list Hotel.t) (e : exn) :
  hotelCards l = Throw e → e = RangeError.
Proof.
  unfold hotelCards. destruct (rmap generateHotelCard l) as [cards|e'] eqn:Hl; [done|].
  simpl. intros [= ->]. apply rmap_Throw in Hl as (h & _ & Hh).
  unfold generateHotelCard in Hh.
  destruct (generateStars (Hotel.starRating h)) as [stars|e'] eqn:Hs; [done|].
  simpl in Hh. injection Hh as ->. by eapply generateStars_Throw.
Qed.

Lemma encodeURIComponent_Throw (s : jsstring) (e : exn) :
  encodeURIComponent s = Throw e → e = URIError.
Proof.
  assert (H : ∀ n s e, (length s ≤ n)%nat →
                encodeURIComponent s = Throw e → e = URIError);
    [|by apply (H (length s))].
  clear. induction n as [|n IH]; intros [|c s] e Hn; simpl in *; try done; [lia|].
  assert (Hs : ∀ e, encodeURIComponent s = Throw e → e = URIError).
  { intros e'. apply IH. lia. }
  destruct (uri_unreserved c).
  { destruct (encodeURIComponent s) eqn:Hr; simpl; [done|].
    intros [= <-]. by apply Hs. }
  destruct (is_low_surrogate c); [congruence|].
  destruct (is_high_surrogate c).
  - destruct s as [|d s']; [congruence|].
    destruct (is_low_surrogate d); [|congruence].
    destruct (encodeURIComponent s') eqn:Hr; simpl; [done|].
    intros [= <-]. eapply (IH s'); [simpl in Hn; lia|done].
  - destruct (encodeURIComponent s) eqn:Hr; simpl; [done|].
    intros [= <-]. by apply Hs.
Qed.

Lemma within_ret {A} (a : A) (X : list exn) (S : gset jsstring) : within (ret a) X S.
Proof.
  intros w. exists ∅, (Ok a). unfold ret. destruct w as [fs t]. simpl.
  rewrite (left_id_L ∅ (∪)). split; [done|]. split; [set_solver|done].
Qed.

Lemma within_lift {A} (r : result A) (X : list exn) (S : gset jsstring) :
  (∀ e, r = Throw e → e ∈ X) → within (lift r) X S.
Proof.
  intros Hr w. exists ∅, r. unfold lift. destruct w as [fs t]. simpl.
  rewrite (left_id_L ∅ (∪)). split; [done|]. split; [set_solver|done].
Qed.

Lemma within_writeFileSync (path data : jsstring) (X : list exn)
    (S : gset jsstring) :
  path ∈ S → within (writeFileSync path data) X S.
Proof.
  intros Hpath w. exists {[path := data]}, (Ok ()). unfold writeFileSync.
  rewrite insert_union_singleton_l. split; [done|].
  split; [|done]. rewrite dom_singleton_L. set_solver.
Qed.

Lemma within_bind {A B} (m : M A) (k : A → M B) (X : list exn)
    (S : gset jsstring) :
  within m X S → (∀ a, within (k a) X S) → within (m ≫= k) X S.
Proof.
  intros Hm Hk w. destruct (Hm w) as (E1 & r1 & Hw & Hd1 & Hx1).
  unfold mbind, M_bind, bind. rewrite Hw. destruct r1 as [a|e].
  - destruct (Hk a (World (E1 ∪ files w) (ticks w))) as (E2 & r2 & Hw2 & Hd2 & Hx2).
    exists (E2 ∪ E1), r2. rewrite Hw2. simpl. rewrite (assoc_L (∪)).
    split; [done|]. split; [|exact Hx2]. rewrite dom_union_L. set_solver.
  - exists E1, (Throw e). split; [done|]. split; [done|].
    intros e' [= <-]. by apply Hx1.
Qed.

Lemma within_for_of {A} (body : A → M unit) (l : list A) (X : list exn)
    (S : gset jsstring) :
  (∀ x, x ∈ l → within (body x) X S) → within (for_of l body) X S.
Proof.
  induction l as [|x l IH]; intros Hbody; simpl.
  - apply within_ret.
  - apply within_bind; [apply Hbody; by left|intros _].
    apply IH. intros y Hy. apply Hbody. by right.
Qed.

Context (inp : Input).

Lemma within_cards (l : list Hotel.t) (S : gset jsstring) :
  within (lift (hotelCards l)) [RangeError; ENOENT; URIError] S.
Proof.
  apply within_lift. intros e ->%hotelCards_Throw. set_solver.
Qed.

Lemma within_pages :
  within (generateHomepage inp ;; generateNeighborhoodPages inp ;;
          generateHotelPages inp ;; generateContactPage inp ;;
          generateThankYouPage inp ;; generateGuidePages inp)
    [RangeError; ENOENT; URIError]
    (list_to_set
       ([js "index.html"; js "contact.html"; js "thank-you.html";
         js "budget-hotels-athens.html"; js "luxury-hotels-athens.html";
         js "best-rooftop-bars-athens.html"]
        ++ map (λ hood, js "athens-hotels/" ++ Hood.id hood ++ js ".html")
             (neighborhoodsData inp)
        ++ map (λ h, js "hotel/" ++ Hotel.slug h ++ js ".html")
             (hotels (allHotelsData inp)))).
Proof.
  set (pages := list_to_set _).
  assert (Hfixed : ∀ path,
            path ∈ [js "index.html"; js "contact.html"; js "thank-you.html";
                    js "budget-hotels-athens.html"; js "luxury-hotels-athens.html";
                    js "best-rooftop-bars-athens.html"] → path ∈ pages).
  { intros path Hpath. subst pages. apply elem_of_list_to_set, elem_of_app. by left. }
  repeat (apply within_bind; [|intros _]).
  - unfold generateHomepage.
    repeat (apply within_bind; [apply within_cards|intros ?]).
    apply within_writeFileSync, Hfixed. set_solver.
  - unfold generateNeighborhoodPages. apply within_for_of. intros hood Hhood.
    unfold generateNeighborhoodPage. apply within_bind.
    { apply within_lift. intros e. destruct (hoodFile inp !! Hood.id hood); [done|].
      intros [= <-]. set_solver. }
    intros d. apply within_bind; [apply within_cards|intros ?].
    apply within_writeFileSync. subst pages.
    apply elem_of_list_to_set, elem_of_app. right. apply elem_of_app. left.
    apply list_elem_of_fmap. exists hood. done.
  - unfold generateHotelPages. apply within_for_of. intros h Hh.
    apply within_bind.
    { apply within_lift. intros e. unfold hotel_html.
      destruct (hotelCards (similar inp h)) as [cards|e'] eqn:Hc; cbn [rbind].
      2:{ intros [= <-]. apply hotelCards_Throw in Hc as ->. set_solver. }
      destruct (generateStars (Hotel.starRating h)) as [stars|e'] eqn:Hs; cbn [rbind].
      2:{ intros [= <-]. apply generateStars_Throw in Hs as ->. set_solver. }
      destruct (encodeURIComponent (Hotel.name h ++ js " Athens")) as [q|e'] eqn:Hq;
        cbn [rbind]; [intros [=]|].
      intros [= <-]. apply encodeURIComponent_Throw in Hq as ->. set_solver. }
    intros html. apply within_writeFileSync. subst pages.
    apply elem_of_list_to_set, elem_of_app. right. apply elem_of_app. right.
    apply list_elem_of_fmap. exists h. done.
  - unfold generateContactPage. apply within_writeFileSync, Hfixed. set_solver.
  - unfold generateThankYouPage. apply within_writeFileSync, Hfixed. set_solver.
  - unfold generateGuidePages.
    apply within_bind; [apply within_cards|intros ?].
    apply within_bind; [apply within_writeFileSync, Hfixed; set_solver|intros _].
    apply within_bind; [apply within_cards|intros ?].
    apply within_bind; [apply within_writeFileSync, Hfixed; set_solver|intros _].
    apply within_bind; [apply within_cards|intros ?].
    apply within_writeFileSync, Hfixed. set_solver.
Qed.

Lemma main_aborted (clock : nat → jsstring) (w : world) (e : exn) :
  (main inp clock w).2 = Throw e →
  e ∈ [RangeError; ENOENT; URIError] ∧
  ∃ E, (main inp clock w).1 = World (E ∪ files w) (ticks w) ∧
       dom E ⊆ (list_to_set
           ([js "index.html"; js "contact.html"; js "thank-you.html";
             js "budget-hotels-athens.html"; js "luxury-hotels-athens.html";
             js "best-rooftop-bars-athens.html"]
            ++ map (λ hood, js "athens-hotels/" ++ Hood.id hood ++ js ".html")
                 (neighborhoodsData inp)
            ++ map (λ h, js "hotel/" ++ Hotel.slug h ++ js ".html")
                 (hotels (allHotelsData inp)))).
Proof.
  assert (main inp clock w
          = bind (generateHomepage inp ;; generateNeighborhoodPages inp ;;
                  generateHotelPages inp ;; generateContactPage inp ;;
                  generateThankYouPage inp ;; generateGuidePages inp)
              (λ _, generateSitemap inp clock ;; generateRobots ;;
                    generateHeaders ;; generateRedirects) w) as ->.
  { unfold main, mbind, M_bind. symmetry.
    repeat (rewrite bind_assoc; apply bind_ext; intros _ ?). reflexivity. }
  destruct (within_pages w) as (E & r & Hw & Hdom & Hexn).
  unfold bind. rewrite Hw. destruct r as [[]|e'].
  - assert (runs (generateSitemap inp clock ;; generateRobots ;;
                  generateHeaders ;; generateRedirects)
              (True ∧ True ∧ True ∧ True)
              ({[js "sitemap.xml"]} ∪ ({[js "robots.txt"]}
               ∪ ({[js "_headers"]} ∪ {[js "_redirects"]})))) as Htail.
    { eapply runs_bind; [apply runs_generateSitemap|intros _].
      eapply runs_bind; [apply runs_generateRobots|intros _].
      eapply runs_bind; [apply runs_generateHeaders|intros _].
      apply runs_generateRedirects. }
    destruct (Htail (World (E ∪ files w) (ticks w))) as (E' & t & r & -> & Hok & _).
    simpl. intros ->. destruct Hok as [_ [a Ha]]; [done|done].
  - simpl. intros [= <-]. split; [by apply Hexn|]. exists E. split; [done|exact Hdom].
Qed.
End failure.

(** X3. When the generator fails, whatever the exception (a write being
    taken to succeed), the run stopped before the sitemap: [sitemap.xml],
    [robots.txt], [_headers] and [_redirects] are as they were, and the clock
    was not read.  The run is not undone: the files it found are all still
    there, with the pages written before the failure among them or in their
    place. *)
Theorem main_failure (inp : Generate.Input) (clock : nat → jsstring)
    (w : Generate.world) (e : exn) :
  let run := Generate.main inp clock w in
  run.2 = Throw e →
  Generate.ticks run.1 = Generate.ticks w ∧
  (∀ path, path ∈ [js "sitemap.xml"; js "robots.txt"; js "_headers"; js "_redirects"] →
     Generate.files run.1 !! path = Generate.files w !! path) ∧
  dom (Generate.files w) ⊆ dom (Generate.files run.1).
Proof.
  intros run Hrun. subst run.
  destruct (main_aborted inp clock w e Hrun) as (_ & E & -> & Hdom).
  split; [done|]. cbn [fst Generate.files]. split.
  - intros path Hpath. apply lookup_union_r, not_elem_of_dom.
    intros HE. apply Hdom in HE.
    apply elem_of_list_to_set, elem_of_app in HE as [HE|HE];
      [|apply elem_of_app in HE as [HE|HE]].
    + revert Hpath HE. rewrite !elem_of_cons, !elem_of_nil.
      intuition (subst; discriminate).
    + apply list_elem_of_fmap in HE as (hood & -> & _).
      revert Hpath. rewrite !elem_of_cons, elem_of_nil.
      intuition discriminate.
    + apply list_elem_of_fmap in HE as (h & -> & _).
      revert Hpath. rewrite !elem_of_cons, elem_of_nil.
      intuition discriminate.
  - rewrite dom_union_L. set_solver.
Qed.

Lemma main_failure_witness :
  let run := Generate.main Example.input_without_files Example.monday Example.fresh in
  run.2 = Throw ENOENT ∧
  (Generate.ticks run.1 = Generate.ticks Example.fresh ∧
   (∀ path, path ∈ [js "sitemap.xml"; js "robots.txt"; js "_headers"; js "_redirects"] →
      Generate.files run.1 !! path = Generate.files Example.fresh !! path) ∧
   dom (Generate.files Example.fresh) ⊆ dom (Generate.files run.1)).
Proof.
  intros run.
  assert (H : run.2 = Throw ENOENT) by (vm_compute; reflexivity).
  exact (conj H (main_failure Example.input_without_files Example.monday
                   Example.fresh ENOENT H)).
Defined.

(** *** The sitemap and the pages *)

(** X4. After a run that ends without an exception, every address of the
    sitemap is the address of a page that the run has written: the site root
    for [index.html], and otherwise the address of the file without its
    [.html].  The page [thank-you.html] is written and is not in the
    sitemap. *)
Theorem sitemap_links_resolve (inp : Generate.Input) (clock : nat → jsstring)
    (w : Generate.world) :
  let run := Generate.main inp clock w in
  run.2 = Ok () →
  (∀ u, u ∈ Generate.urls inp →
     ∃ path, is_Some (Generate.files run.1 !! path) ∧
             (Generate.loc u ++ js ".html" = js "https://hotelsofathens.com/" ++ path
              ∨ Generate.loc u = js "https://hotelsofathens.com/"
                ∧ path = js "index.html")) ∧
  is_Some (Generate.files run.1 !! js "thank-you.html") ∧
  (∀ u, u ∈ Generate.urls inp →
     Generate.loc u ≠ js "https://hotelsofathens.com/thank-you").
Proof.
  intros run Hrun. subst run.
  destruct (runs_main inp clock w) as (E & t & r & Hw & _ & _ & Hdom).
  rewrite Hw in *. cbn [fst snd Generate.files] in *.
  specialize (Hdom ltac:(eauto)).
  assert (Hwritten : ∀ path, path ∈ dom E → is_Some ((E ∪ Generate.files w) !! path)).
  { intros path Hpath. apply elem_of_dom. rewrite dom_union_L. set_solver. }
  rewrite Hdom in Hwritten. clear Hdom Hw Hrun.
  split; [|split].
  - intros u Hu. unfold Generate.urls in Hu.
    apply elem_of_app in Hu as [Hu|Hu]; [|apply elem_of_app in Hu as [Hu|Hu]].
    + rewrite !elem_of_cons, elem_of_nil in Hu.
      destruct Hu as [->|[->|[->|[->|[->|[]]]]]].
      * exists (js "index.html"). split; [apply Hwritten; set_solver|by right].
      * exists (js "contact.html"). split; [apply Hwritten; set_solver|by left].
      * exists (js "budget-hotels-athens.html").
        split; [apply Hwritten; set_solver|by left].
      * exists (js "luxury-hotels-athens.html").
        split; [apply Hwritten; set_solver|by left].
      * exists (js "best-rooftop-bars-athens.html").
        split; [apply Hwritten; set_solver|by left].
    + apply list_elem_of_fmap in Hu as (hood & -> & Hhood).
      exists (Generate.path_join [js "athens-hotels"; Hood.id hood ++ js ".html"]).
      split.
      * apply Hwritten. do 2 apply elem_of_union_l. apply elem_of_union_r.
        apply elem_of_list_to_set, list_elem_of_fmap. by exists hood.
      * left. simpl. rewrite app_nil_r. reflexivity.
    + apply list_elem_of_fmap in Hu as (h & -> & Hh).
      exists (Generate.hotel_path h). split.
      * apply Hwritten. apply elem_of_union_l, elem_of_union_r.
        apply elem_of_list_to_set, list_elem_of_fmap. by exists h.
      * left. simpl. rewrite app_nil_r. reflexivity.
  - apply Hwritten. set_solver.
  - intros u Hu. unfold Generate.urls in Hu.
    apply elem_of_app in Hu as [Hu|Hu]; [|apply elem_of_app in Hu as [Hu|Hu]].
    + rewrite !elem_of_cons, elem_of_nil in Hu.
      destruct Hu as [->|[->|[->|[->|[->|[]]]]]]; discriminate.
    + apply list_elem_of_fmap in Hu as (hood & -> & _). discriminate.
    + apply list_elem_of_fmap in Hu as (h & -> & _). discriminate.
Qed.

Lemma sitemap_links_resolve_witness :
  let run := Generate.main Example.input Example.monday Example.fresh in
  run.2 = Ok () ∧
  ((∀ u, u ∈ Generate.urls Example.input →
      ∃ path, is_Some (Generate.files run.1 !! path) ∧
              (Generate.loc u ++ js ".html" = js "https://hotelsofathens.com/" ++ path
               ∨ Generate.loc u = js "https://hotelsofathens.com/"
                 ∧ path = js "index.html")) ∧
   is_Some (Generate.files run.1 !! js "thank-you.html") ∧
   (∀ u, u ∈ Generate.urls Example.input →
      Generate.loc u ≠ js "https://hotelsofathens.com/thank-you")).
Proof.
  intros run.
  assert (H : run.2 = Ok ()) by (vm_compute; reflexivity).
  exact (conj H (sitemap_links_resolve Example.input Example.monday Example.fresh H)).
Defined.

(** *** The booking link *)

Lemma percent_safe (b : N) :
  (b < 256)%N → Forall (λ c, uri_unreserved c = true ∨ c = 37%N) (percent b).
Proof.
  intros Hb.
  assert (Hhex : ∀ n, (n < 16)%N → uri_unreserved (hex_digit n) = true).
  { intros n Hn.
    assert (n = 0 ∨ n = 1 ∨ n = 2 ∨ n = 3 ∨ n = 4 ∨ n = 5 ∨ n = 6 ∨ n = 7 ∨ n = 8
            ∨ n = 9 ∨ n = 10 ∨ n = 11 ∨ n = 12 ∨ n = 13 ∨ n = 14 ∨ n = 15)%N
      as Hcases by lia.
    repeat destruct Hcases as [->|Hcases]; try reflexivity. by subst. }
  unfold percent. apply Forall_cons. split; [by right|].
  apply Forall_cons. split.
  { left. apply Hhex. apply N.Div0.div_lt_upper_bound. lia. }
  apply Forall_cons. split; [|constructor].
  left. apply Hhex. apply N.mod_lt. lia.
Qed.

Lemma utf8_bytes (cp : N) :
  (cp < 1114112)%N → Forall (λ b, b < 256)%N (utf8 cp).
Proof.
  intros Hcp. unfold utf8.
  assert (∀ a, a `mod` 64 < 64)%N as Hmod by (intros a; apply N.mod_lt; lia).
  destruct (N.ltb_spec cp 128); [repeat constructor; lia|].
  destruct (N.ltb_spec cp 2048).
  { assert (cp `div` 64 < 32)%N by (apply N.Div0.div_lt_upper_bound; lia).
    pose proof (Hmod cp). repeat constructor; lia. }
  destruct (N.ltb_spec cp 65536).
  { assert (cp `div` 4096 < 16)%N by (apply N.Div0.div_lt_upper_bound; lia).
    pose proof (Hmod cp). pose proof (Hmod (cp `div` 64)%N).
    repeat constructor; lia. }
  assert (cp `div` 262144 < 5)%N by (apply N.Div0.div_lt_upper_bound; lia).
  pose proof (Hmod cp). pose proof (Hmod (cp `div` 64)%N).
  pose proof (Hmod (cp `div` 4096)%N).
  repeat constructor; lia.
Qed.

Lemma escape_safe (cp : N) :
  (cp < 1114112)%N → Forall (λ c, uri_unreserved c = true ∨ c = 37%N) (escape cp).
Proof.
  intros Hcp. unfold escape. apply Forall_forall. intros c Hc.
  apply list_elem_of_join in Hc as (l & Hc & Hl).
  apply list_elem_of_fmap in Hl as (b & -> & Hb).
  pose proof (utf8_bytes cp Hcp) as Hbytes.
  eapply Forall_forall in Hbytes; [|exact Hb].
  pose proof (percent_safe b Hbytes) as Hp.
  eapply Forall_forall in Hp; [exact Hp|exact Hc].
Qed.

Lemma encodeURIComponent_safe (s q : jsstring) :
  Forall (λ c, c < 65536)%N s →
  encodeURIComponent s = Ok q →
  Forall (λ c, uri_unreserved c = true ∨ c = 37%N) q.
Proof.
  assert (H : ∀ n s q, (length s ≤ n)%nat →
                Forall (λ c, c < 65536)%N s →
                encodeURIComponent s = Ok q →
                Forall (λ c, uri_unreserved c = true ∨ c = 37%N) q);
    [|by apply (H (length s))].
  clear. induction n as [|n IH]; intros [|c s] q Hn Hs; simpl in Hn;
    try lia; cbn [encodeURIComponent]; try (intros [= <-]; constructor).
  apply Forall_cons in Hs as [Hc Hs].
  destruct (uri_unreserved c) eqn:Hu.
  { destruct (encodeURIComponent s) as [t|] eqn:Ht; cbn [rbind]; [|done].
    intros [= <-]. constructor; [by left|]. apply (IH s); [lia|done|done]. }
  destruct (is_low_surrogate c); [done|].
  destruct (is_high_surrogate c) eqn:Hh.
  - destruct s as [|d s']; [done|].
    apply Forall_cons in Hs as [Hd Hs'].
    destruct (is_low_surrogate d) eqn:Hl; [|done].
    destruct (encodeURIComponent s') as [t|] eqn:Ht; cbn [rbind]; [|done].
    intros [= <-]. apply Forall_app. split.
    + apply escape_safe. unfold is_high_surrogate, is_low_surrogate in *.
      apply andb_true_iff in Hh as [?%N.leb_le ?%N.leb_le].
      apply andb_true_iff in Hl as [?%N.leb_le ?%N.leb_le]. lia.
    + apply (IH s'); [simpl in Hn; lia|done|done].
  - destruct (encodeURIComponent s) as [t|] eqn:Ht; cbn [rbind]; [|done].
    intros [= <-]. apply Forall_app. split.
    + apply escape_safe. lia.
    + apply (IH s); [lia|done|done].
Qed.

Lemma GetSubstitution_verbatim (matched before after repl : jsstring) :
  Forall (λ c, c ≠ 36%N) repl → GetSubstitution matched before after repl = repl.
Proof.
  induction 1 as [|c r Hc _ IH]; cbn [GetSubstitution]; [done|].
  apply N.eqb_neq in Hc. by rewrite Hc, IH.
Qed.

(** *** What the data build hands to the generator *)

Section build.
Context (seedHotels : gmap jsstring (list Fetch.SeedHotel)).

(** The hotels that one turn of the loop adds. *)
Lemma loop_allHotels (neighborhoods : list Hood.t) (st : Fetch.loop_state) :
  Fetch.allHotels (fold_left (Fetch.loop_body seedHotels) neighborhoods st)
  = Fetch.allHotels st
    ++ mjoin (map (λ hood, map (Fetch.processHotel hood)
                             (default [] (seedHotels !! Hood.id hood)))
                neighborhoods).
Proof.
  revert st. induction neighborhoods as [|hood l IH]; intros st; simpl.
  - by rewrite app_nil_r.
  - rewrite IH. simpl. by rewrite <- app_assoc.
Qed.

(** The file of a neighborhood id is the one written at the last turn for
    that id. *)
Lemma loop_hoodFiles (neighborhoods : list Hood.t) (st : Fetch.loop_state)
    (i : jsstring) :
  Fetch.hoodFiles (fold_left (Fetch.loop_body seedHotels) neighborhoods st) !! i
  = match last (filter (λ hood, Hood.id hood = i) neighborhoods) with
    | Some hood =>
        let hotels := map (Fetch.processHotel hood) (default [] (seedHotels !! i)) in
        Some {| hotelCount := Z.of_nat (length hotels); hood_hotels := hotels |}
    | None => Fetch.hoodFiles st !! i
    end.
Proof.
  revert st. induction neighborhoods as [|hood l IH]; intros st; simpl; [done|].
  rewrite IH, filter_cons. simpl.
  destruct (last (filter (λ hood, Hood.id hood = i) l)) as [hood'|] eqn:Hlast.
  - case_decide; [by rewrite last_cons, Hlast | by rewrite Hlast].
  - case_decide as Hid.
    + rewrite last_cons, Hlast. subst i. by rewrite lookup_insert_eq.
    + rewrite Hlast. by rewrite lookup_insert_ne.
Qed.

Lemma build_hotels (neighborhoods : list Hood.t) :
  hotels (Fetch.build seedHotels neighborhoods).2
  = mjoin (map (λ hood, map (Fetch.processHotel hood)
                          (default [] (seedHotels !! Hood.id hood)))
             neighborhoods).
Proof. unfold Fetch.build. cbn [snd hotels]. by rewrite loop_allHotels. Qed.

Lemma build_hotel_inv (neighborhoods : list Hood.t) (h : Hotel.t) :
  h ∈ hotels (Fetch.build seedHotels neighborhoods).2 ↔
  ∃ hood seeds seed,
    hood ∈ neighborhoods ∧ seedHotels !! Hood.id hood = Some seeds ∧
    seed ∈ seeds ∧ h = Fetch.processHotel hood seed.
Proof.
  rewrite build_hotels, list_elem_of_join. split.
  - intros (l & Hh & Hl). apply list_elem_of_fmap in Hl as (hood & -> & Hhood).
    apply list_elem_of_fmap in Hh as (seed & -> & Hseed).
    destruct (seedHotels !! Hood.id hood) as [seeds|] eqn:Hseeds; simpl in Hseed.
    + eauto 10.
    + by apply elem_of_nil in Hseed.
  - intros (hood & seeds & seed & Hhood & Hseeds & Hseed & ->).
    exists (map (Fetch.processHotel hood) (default [] (seedHotels !! Hood.id hood))).
    split.
    + rewrite Hseeds. simpl. apply list_elem_of_fmap. eauto.
    + apply list_elem_of_fmap. eauto.
Qed.

(** X8. Referential integrity of the data build: every hotel of the master
    file carries the id of a neighborhood of the catalog, together with that
    neighborhood's name and walking time, and the slug of its own name; and
    the neighborhood it names has a data file. *)
Theorem build_referential_integrity (neighborhoods : list Hood.t) :
  let data := Fetch.build seedHotels neighborhoods in
  Forall (λ h, (∃ hood, hood ∈ neighborhoods ∧
                        Hotel.neighborhood h = Hood.id hood ∧
                        Hotel.neighborhoodName h = Some (Hood.name hood) ∧
                        Hotel.distanceToAcropolis h = Hood.walkToAcropolis hood) ∧
               Hotel.slug h = Fetch.generateSlug (Hotel.name h) ∧
               is_Some (data.1 !! Hotel.neighborhood h))
    (hotels data.2).
Proof.
  intros data. apply Forall_forall. intros h Hh.
  apply build_hotel_inv in Hh as (hood & seeds & seed & Hhood & Hseeds & Hseed & ->).
  split; [exists hood; done|]. split; [done|].
  subst data. unfold Fetch.build. cbn [fst]. rewrite loop_hoodFiles.
  destruct (last (filter (λ hood', Hood.id hood' = Hotel.neighborhood
                                     (Fetch.processHotel hood seed)) neighborhoods))
    as [hood'|] eqn:Hlast; [by eexists|].
  apply last_None in Hlast.
  assert (hood ∈ filter (λ hood', Hood.id hood' = Hood.id hood) neighborhoods) as Hin
    by (by apply list_elem_of_filter).
  simpl in Hlast. rewrite Hlast in Hin. by apply elem_of_nil in Hin.
Qed.

Lemma filter_unique_id (neighborhoods : list Hood.t) (hood : Hood.t) :
  NoDup (map Hood.id neighborhoods) → hood ∈ neighborhoods →
  filter (λ x, Hood.id x = Hood.id hood) neighborhoods = [hood].
Proof.
  induction neighborhoods as [|x l IH]; intros Hnd Hin; [by apply elem_of_nil in Hin|].
  apply NoDup_cons in Hnd as [Hx Hnd]. rewrite filter_cons.
  apply elem_of_cons in Hin as [->|Hin].
  - rewrite decide_True by done. f_equal.
    induction l as [|y l IHl]; [done|].
    apply not_elem_of_cons in Hx as [Hy Hx]. apply NoDup_cons in Hnd as [_ Hnd].
    rewrite filter_cons, decide_False by done. apply IHl; [|done|done].
    intros _ Hin. exfalso. apply Hx, list_elem_of_fmap. eauto.
  - rewrite decide_False; [by apply IH|].
    intros Heq. apply Hx. rewrite Heq. apply list_elem_of_fmap. eauto.
Qed.

Lemma filter_block (neighborhoods : list Hood.t) (hood : Hood.t) :
  NoDup (map Hood.id neighborhoods) → hood ∈ neighborhoods →
  filter (λ h, Hotel.neighborhood h = Hood.id hood)
    (mjoin (map (λ hood, map (Fetch.processHotel hood)
                           (default [] (seedHotels !! Hood.id hood)))
              neighborhoods))
  = map (Fetch.processHotel hood) (default [] (seedHotels !! Hood.id hood)).
Proof.
  assert (Hsame : ∀ (x : Hood.t) seeds,
            Hood.id x = Hood.id hood →
            filter (λ h, Hotel.neighborhood h = Hood.id hood)
              (map (Fetch.processHotel x) seeds)
            = map (Fetch.processHotel x) seeds).
  { intros x seeds Hx. induction seeds as [|s seeds IHs]; [done|].
    simpl. rewrite filter_cons, decide_True by done. by rewrite IHs. }
  assert (Hother : ∀ (x : Hood.t) seeds,
            Hood.id x ≠ Hood.id hood →
            filter (λ h, Hotel.neighborhood h = Hood.id hood)
              (map (Fetch.processHotel x) seeds)
            = []).
  { intros x seeds Hx. induction seeds as [|s seeds IHs]; [done|].
    simpl. rewrite filter_cons, decide_False by done. by rewrite IHs. }
  induction neighborhoods as [|x l IH]; intros Hnd Hin; [by apply elem_of_nil in Hin|].
  apply NoDup_cons in Hnd as [Hx Hnd]. simpl. rewrite filter_app.
  destruct (decide (Hood.id x = Hood.id hood)) as [Heq|Hne].
  - rewrite Hsame by done.
    assert (filter (λ h, Hotel.neighborhood h = Hood.id hood)
              (mjoin (map (λ hood, map (Fetch.processHotel hood)
                                     (default [] (seedHotels !! Hood.id hood))) l))
            = []) as ->.
    { clear IH Hin Hnd. induction l as [|y l IHl]; [done|].
      apply not_elem_of_cons in Hx as [Hy Hx]. simpl.
      rewrite filter_app, Hother, IHl by congruence. done. }
    rewrite app_nil_r. apply elem_of_cons in Hin as [->|Hin]; [done|].
    exfalso. apply Hx. rewrite Heq. apply list_elem_of_fmap. eauto.
  - rewrite Hother by done. apply elem_of_cons in Hin as [->|Hin]; [done|].
    by apply IH.
Qed.


(** X10. The master file has no average price (a NaN, which JSON writes as
    [null] and the home page prints as "null") exactly when the build
    collected no hotel; [totalHotels] and the four counts are then 0. *)
Theorem build_avgPrice_None (neighborhoods : list Hood.t) :
  let master := (Fetch.build seedHotels neighborhoods).2 in
  (avgPrice master = None ↔ hotels master = []) ∧
  (hotels master = [] →
   totalHotels master = 0 ∧
   priceStats master
   = {| budget_count := 0; midRange_count := 0; upscale_count := 0; luxury_count := 0 |} ∧
   Generate.String_of_number (avgPrice master) = js "null").
Proof.
  intros master.
  assert (Havg : avgPrice master = None ↔ hotels master = []).
  { assert (avgPrice master
            = Math_round <$>
                f64_div (f64_of_Z (Fetch.sum_prices (map Hotel.pricePerNight (hotels master))))
                  (f64_of_Z (Z.of_nat (length (map Hotel.pricePerNight (hotels master))))))
      as -> by reflexivity.
    unfold f64_div, f64_of_Z. cbn [mant expo]. rewrite length_map.
    destruct (hotels master) as [|h l]; [done|].
    destruct (Z.eqb_spec (Z.of_nat (length (h :: l))) 0) as [Hz|_]; [simpl in Hz; lia|].
    done. }
  split; [exact Havg|]. intros Hnil.
  assert (Htotal : totalHotels master = Z.of_nat (length (hotels master))).
  { subst master. unfold Fetch.build. cbn [snd totalHotels hotels]. by apply loop_total. }
  split; [by rewrite Htotal, Hnil|]. split.
  - assert (priceStats master
            = {| budget_count :=
                   Fetch.count (λ h, Hotel.pricePerNight h <? 80) (hotels master);
                 midRange_count :=
                   Fetch.count (λ h, (80 <=? Hotel.pricePerNight h)
                                     && (Hotel.pricePerNight h <? 150)) (hotels master);
                 upscale_count :=
                   Fetch.count (λ h, (150 <=? Hotel.pricePerNight h)
                                     && (Hotel.pricePerNight h <? 250)) (hotels master);
                 luxury_count :=
                   Fetch.count (λ h, 250 <=? Hotel.pricePerNight h) (hotels master) |})
      as -> by reflexivity.
    by rewrite Hnil.
  - apply Havg in Hnil. by rewrite Hnil.
Qed.
End build.


Lemma getPriceTier_cases (price : Z) :
  (Generate.getPriceTier price = js "budget" ↔ price < 80) ∧
  (Generate.getPriceTier price = js "mid" ↔ 80 ≤ price < 150) ∧
  (Generate.getPriceTier price = js "upscale" ↔ 150 ≤ price < 250) ∧
  (Generate.getPriceTier price = js "luxury" ↔ 250 ≤ price).
Proof.
  unfold Generate.getPriceTier.
  destruct (Z.ltb_spec price 80); [|destruct (Z.ltb_spec price 150);
    [|destruct (Z.ltb_spec price 250)]];
    repeat split; intros; try lia; try discriminate; try reflexivity.
Qed.

(** *** Slugs *)

Lemma squeeze_Forall (P : N → Prop) (p : N → bool) (in_run : bool) (s : jsstring) :
  P 45%N → Forall P s →
  Forall (λ c, P c ∧ (p c = false ∨ c = 45%N)) (Fetch.squeeze p in_run s).
Proof.
  intros H45 Hs. revert in_run. induction Hs as [|c s Hc Hs IH]; intros in_run; simpl.
  - constructor.
  - destruct (p c) eqn:Hp.
    + destruct in_run; [apply IH|]. constructor; [auto|apply IH].
    + constructor; [auto|apply IH].
Qed.

Lemma squeeze_no_run (s : jsstring) (in_run : bool) :
  let out := Fetch.squeeze (N.eqb 45) in_run s in
  (∀ i, out !! i = Some 45%N → out !! S i ≠ Some 45%N) ∧
  (in_run = true → head out ≠ Some 45%N).
Proof.
  revert in_run. induction s as [|c s IH]; intros in_run; cbn [Fetch.squeeze].
  - split; [intros i Hi; by rewrite lookup_nil in Hi|done].
  - destruct (N.eqb_spec 45 c) as [<-|Hc].
    + destruct in_run; [apply IH|].
      destruct (IH true) as [Hrun Hhead]. split; [|done].
      intros [|i] Hi; simpl.
      * specialize (Hhead eq_refl).
        by destruct (Fetch.squeeze (N.eqb 45) true s).
      * by apply Hrun.
    + destruct (IH false) as [Hrun _]. split.
      * intros [|i] Hi; simpl in *; [congruence|by apply Hrun].
      * intros _. simpl. congruence.
Qed.

Lemma trim_start_id (s : jsstring) :
  Forall (λ c, is_space c = false) s → trim_start s = s.
Proof. destruct 1 as [|c s Hc _]; simpl; [done|by rewrite Hc]. Qed.

Lemma String_trim_id (s : jsstring) :
  Forall (λ c, is_space c = false) s → String_trim s = s.
Proof.
  intros Hs. unfold String_trim.
  rewrite (trim_start_id s), trim_start_id, rev_involutive; [done| |done].
  by apply Forall_rev.
Qed.

(** X12. A slug is made of the letters a-z, the digits and the hyphen only
    (so it holds no path separator and no dot); it ends in "-athens", and
    before this suffix no two hyphens are adjacent.  The [trim()] of
    [generateSlug] never removes anything: white space at the ends of a name
    has already become a hyphen. *)
Theorem generateSlug_shape (name : jsstring) :
  let body :=
    Fetch.squeeze (N.eqb 45) false
      (Fetch.squeeze is_space false (List.filter Fetch.slug_unit (toLowerCase name))) in
  Fetch.generateSlug name = body ++ js "-athens" ∧
  Forall (λ c, 97 ≤ c ≤ 122 ∨ 48 ≤ c ≤ 57 ∨ c = 45)%N (Fetch.generateSlug name) ∧
  (∀ i, body !! i = Some 45%N → body !! S i ≠ Some 45%N).
Proof.
  intros body.
  assert (Hbody : Forall (λ c, Fetch.slug_unit c = true ∧ is_space c = false) body).
  { subst body.
    eapply Forall_impl;
      [apply (squeeze_Forall (λ c, Fetch.slug_unit c = true ∧ is_space c = false));
       [done|] |].
    - eapply Forall_impl;
        [apply (squeeze_Forall (λ c, Fetch.slug_unit c = true)); [done|] |].
      + apply Forall_forall. intros c Hc.
        apply list_elem_of_In, filter_In in Hc. tauto.
      + intros c [Hc [Hs| ->]]; done.
    - intros c [Hc _]. done. }
  assert (Hslug : Fetch.generateSlug name = body ++ js "-athens").
  { unfold Fetch.generateSlug. fold body. rewrite String_trim_id; [done|].
    eapply Forall_impl; [exact Hbody|]. by intros c [_ ?]. }
  split; [exact Hslug|]. split; [|apply (squeeze_no_run _ false)].
  rewrite Hslug. apply Forall_app. split.
  - eapply Forall_impl; [exact Hbody|]. intros c [Hc Hs].
    unfold Fetch.slug_unit in Hc. rewrite Hs, orb_false_r in Hc.
    apply orb_true_iff in Hc as [Hc|Hc]; [apply orb_true_iff in Hc as [Hc|Hc]|].
    + apply andb_true_iff in Hc as [?%N.leb_le ?%N.leb_le]. lia.
    + apply andb_true_iff in Hc as [?%N.leb_le ?%N.leb_le]. lia.
    + apply N.eqb_eq in Hc. lia.
  - refine (bool_decide_unpack _ _). vm_compute. exact I.
Qed.

(** *** The two scripts together *)

Lemma encodeURIComponent_no_surrogate (s : jsstring) :
  Forall (λ c, is_high_surrogate c = false ∧ is_low_surrogate c = false) s →
  ∃ q, encodeURIComponent s = Ok q.
Proof.
  induction 1 as [|c s [Hh Hl] _ [q IH]]; [by eexists|].
  simpl. rewrite Hh, Hl, IH. simpl.
  destruct (uri_unreserved c); by eexists.
Qed.

(** What the generator needs of the hotels of the master file, and of the
    neighborhood files, holds of the files that the data build writes from
    curated hotels with ratings from 0 to 5 and names without surrogates. *)
Lemma build_seed_valid (seedHotels : gmap jsstring (list Fetch.SeedHotel))
    (neighborhoods : list Hood.t) (hood : Hood.t) (seeds : list Fetch.SeedHotel)
    (seed : Fetch.SeedHotel) :
  Forall (λ hood,
    Forall (λ seed,
      0 ≤ Fetch.seed_starRating seed ≤ 5 ∧
      Forall (λ c, is_high_surrogate c = false ∧ is_low_surrogate c = false)
        (Fetch.seed_name seed))
      (default [] (seedHotels !! Hood.id hood)))
    neighborhoods →
  hood ∈ neighborhoods → seedHotels !! Hood.id hood = Some seeds → seed ∈ seeds →
  0 ≤ Fetch.seed_starRating seed ≤ 5 ∧
  ∃ q, encodeURIComponent (Fetch.seed_name seed ++ js " Athens") = Ok q.
Proof.
  intros Hseeds Hhood Hlook Hin.
  eapply Forall_forall in Hseeds; [|exact Hhood]. rewrite Hlook in Hseeds.
  eapply Forall_forall in Hseeds; [|exact Hin]. destruct Hseeds as [Hr Hn].
  split; [done|]. apply encodeURIComponent_no_surrogate.
  apply Forall_app. split; [done|]. by repeat constructor.
Qed.

Lemma build_hotels_accepted (seedHotels : gmap jsstring (list Fetch.SeedHotel))
    (neighborhoods : list Hood.t) (h : Hotel.t) :
  Forall (λ hood,
    Forall (λ seed,
      0 ≤ Fetch.seed_starRating seed ≤ 5 ∧
      Forall (λ c, is_high_surrogate c = false ∧ is_low_surrogate c = false)
        (Fetch.seed_name seed))
      (default [] (seedHotels !! Hood.id hood)))
    neighborhoods →
  h ∈ hotels (Fetch.build seedHotels neighborhoods).2 →
  0 ≤ Hotel.starRating h ≤ 5 ∧
  ∃ query, encodeURIComponent (Hotel.name h ++ js " Athens") = Ok query.
Proof.
  intros Hseeds Hh.
  apply build_hotel_inv in Hh as (hood & seeds & seed & Hhood & Hlook & Hin & ->).
  by eapply build_seed_valid.
Qed.

Lemma build_files_accepted (seedHotels : gmap jsstring (list Fetch.SeedHotel))
    (neighborhoods : list Hood.t) (hood : Hood.t) :
  Forall (λ hood,
    Forall (λ seed,
      0 ≤ Fetch.seed_starRating seed ≤ 5 ∧
      Forall (λ c, is_high_surrogate c = false ∧ is_low_surrogate c = false)
        (Fetch.seed_name seed))
      (default [] (seedHotels !! Hood.id hood)))
    neighborhoods →
  hood ∈ neighborhoods →
  ∃ d, (Fetch.build seedHotels neighborhoods).1 !! Hood.id hood = Some d ∧
       ∀ h, h ∈ hood_hotels d → 0 ≤ Hotel.starRating h ≤ 5.
Proof.
  intros Hseeds Hhood. unfold Fetch.build. cbn [fst]. rewrite loop_hoodFiles.
  destruct (last (filter (λ hood', Hood.id hood' = Hood.id hood) neighborhoods))
    as [hood'|] eqn:Hlast.
  - eexists. split; [reflexivity|]. cbn [hood_hotels]. intros h Hh.
    assert (hood' ∈ filter (λ hood', Hood.id hood' = Hood.id hood) neighborhoods)
      as [Hid Hhood']%list_elem_of_filter.
    { apply last_Some in Hlast as [l' ->]. apply elem_of_app. right. by left. }
    apply list_elem_of_fmap in Hh as (seed & -> & Hin).
    rewrite <- Hid in Hin.
    destruct (seedHotels !! Hood.id hood') as [seeds|] eqn:Hlook;
      [|by apply elem_of_nil in Hin].
    by eapply (build_seed_valid seedHotels neighborhoods hood' seeds seed).
  - apply last_None in Hlast.
    assert (hood ∈ filter (λ hood', Hood.id hood' = Hood.id hood) neighborhoods) as Hin
      by (by apply list_elem_of_filter).
    rewrite Hlast in Hin. by apply elem_of_nil in Hin.
Qed.



(** The curated hotels: ratings from 0 to 5 and names without surrogates. *)
Lemma getSeedHotels_valid (i : jsstring) :
  Forall (λ seed,
    0 ≤ Fetch.seed_starRating seed ≤ 5 ∧
    Forall (λ c, is_high_surrogate c = false ∧ is_low_surrogate c = false)
      (Fetch.seed_name seed))
    (default [] (Fetch.getSeedHotels !! i)).
Proof.
  assert (H : map_Forall (λ _ seeds,
            Forall (λ seed,
              0 ≤ Fetch.seed_starRating seed ≤ 5 ∧
              Forall (λ c, is_high_surrogate c = false ∧ is_low_surrogate c = false)
                (Fetch.seed_name seed)) seeds) Fetch.getSeedHotels).
  { refine (bool_decide_unpack _ _). vm_compute. exact I. }
  destruct (Fetch.getSeedHotels !! i) as [seeds|] eqn:Hi; [|constructor].
  exact (H i seeds Hi).
Qed.



(** *** Fetching with retries *)

Section retry.
Import Retry.
Context {error : Type} (fetch : nat → outcome error) (retries : Z).

Lemma attempts_run (turns i : nat) :
  Z.of_nat (i + turns) = retries →
  let run := attempts fetch retries turns i in
  match run.2 with
  | Returned (Some res) =>
      ∃ n, (n < turns)%nat ∧ fetch (i + n)%nat = Responded res ∧ ok res = true ∧
           (∀ j, (i ≤ j < i + n)%nat → ¬ succeeds fetch j) ∧
           run.1 = rounds fetch i n ++ [Request]
  | Thrown e =>
      (0 < turns)%nat ∧ fetch (i + turns - 1)%nat = Rejected e ∧
      (∀ j, (i ≤ j < i + turns)%nat → ¬ succeeds fetch j) ∧
      run.1 = rounds fetch i (turns - 1) ++ [Request]
  | Returned None =>
      (∀ j, (i ≤ j < i + turns)%nat → ¬ succeeds fetch j) ∧
      ((0 < turns)%nat → ∃ res, fetch (i + turns - 1)%nat = Responded res) ∧
      run.1 = rounds fetch i turns
  end.
Proof.
  revert i. induction turns as [|turns IH]; intros i Hi; cbn [attempts].
  { cbn [snd fst]. split; [intros j ?; lia|]. split; [lia|done]. }
  specialize (IH (S i) ltac:(lia)). cbn zeta in IH.
  assert (Hnext : ∀ ms,
            ¬ succeeds fetch i → (turns = 0%nat → ∃ res, fetch i = Responded res) →
            wait_after fetch i = ms →
            let run := (let '(trace, c) := attempts fetch retries turns (S i) in
                        (Request :: Delay ms :: trace, c)) in
            match run.2 with
            | Returned (Some res) =>
                ∃ n, (n < S turns)%nat ∧ fetch (i + n)%nat = Responded res ∧
                     ok res = true ∧ (∀ j, (i ≤ j < i + n)%nat → ¬ succeeds fetch j) ∧
                     run.1 = rounds fetch i n ++ [Request]
            | Thrown e =>
                (0 < S turns)%nat ∧ fetch (i + S turns - 1)%nat = Rejected e ∧
                (∀ j, (i ≤ j < i + S turns)%nat → ¬ succeeds fetch j) ∧
                run.1 = rounds fetch i (S turns - 1) ++ [Request]
            | Returned None =>
                (∀ j, (i ≤ j < i + S turns)%nat → ¬ succeeds fetch j) ∧
                ((0 < S turns)%nat → ∃ res, fetch (i + S turns - 1)%nat = Responded res) ∧
                run.1 = rounds fetch i (S turns)
            end).
  { intros ms Hfail Hlast Hms.
    destruct (attempts fetch retries turns (S i)) as [trace c]. cbn [fst snd] in *.
    assert (Hnone : ∀ n, (∀ j, (S i ≤ j < S i + n)%nat → ¬ succeeds fetch j) →
                         ∀ j, (i ≤ j < i + S n)%nat → ¬ succeeds fetch j).
    { intros n Hn j Hj. destruct (decide (j = i)) as [->|]; [done|]. apply Hn. lia. }
    destruct c as [[res|]|e].
    - destruct IH as (n & Hn & Hres & Hok & Hbefore & ->).
      exists (S n). split; [lia|].
      split; [by replace (i + S n)%nat with (S i + n)%nat by lia|].
      split; [done|]. split; [by apply Hnone|].
      unfold rounds. cbn [seq map mjoin]. by rewrite Hms.
    - destruct IH as (Hbefore & Hresp & ->). split; [by apply Hnone|]. split.
      + intros _. destruct turns as [|turns'].
        * replace (i + 1 - 1)%nat with i by lia. by apply Hlast.
        * replace (i + S (S turns') - 1)%nat with (S i + S turns' - 1)%nat by lia.
          apply Hresp. lia.
      + unfold rounds. cbn [seq map mjoin]. by rewrite Hms.
    - destruct IH as (Hpos & Hrej & Hbefore & ->). split; [lia|].
      split; [by replace (i + S turns - 1)%nat with (S i + turns - 1)%nat by lia|].
      split; [by apply Hnone|].
      unfold rounds. replace (S turns - 1)%nat with (S (turns - 1)) by lia.
      cbn [seq map mjoin]. by rewrite Hms. }
  destruct (fetch i) as [res|e] eqn:Hfetch.
  - destruct (ok res) eqn:Hok.
    + cbn [fst snd]. exists 0%nat. split; [lia|]. rewrite Nat.add_0_r.
      split; [done|]. split; [done|]. split; [intros j ?; lia|done].
    + assert (Hfail : ¬ succeeds fetch i).
      { intros (res' & Hres' & Hok'). congruence. }
      destruct (status res =? 429) eqn:Hstatus; apply Hnext; eauto;
        unfold wait_after; by rewrite Hfetch, Hstatus.
  - assert (Hfail : ¬ succeeds fetch i).
    { intros (res' & Hres' & Hok'). congruence. }
    destruct (Z.eqb_spec (Z.of_nat i) (retries - 1)) as [Hlast|Hmore].
    + assert (turns = 0%nat) as -> by lia. cbn [fst snd]. split; [lia|].
      replace (i + 1 - 1)%nat with i by lia. split; [done|]. split; [|done].
      intros j Hj. by replace j with i by lia.
    + apply Hnext; [done|intros ->; lia|]. unfold wait_after. by rewrite Hfetch.
Qed.

Lemma fetchWithRetry_run :
  let run := fetchWithRetry fetch retries in
  let n := Z.to_nat retries in
  match run.2 with
  | Returned (Some res) =>
      ∃ k, (k < n)%nat ∧ fetch k = Responded res ∧ ok res = true ∧
           (∀ j, (j < k)%nat → ¬ succeeds fetch j) ∧
           run.1 = rounds fetch 0 k ++ [Request]
  | Thrown e =>
      (0 < n)%nat ∧ fetch (n - 1)%nat = Rejected e ∧
      (∀ j, (j < n)%nat → ¬ succeeds fetch j) ∧
      run.1 = rounds fetch 0 (n - 1) ++ [Request]
  | Returned None =>
      (∀ j, (j < n)%nat → ¬ succeeds fetch j) ∧
      ((0 < n)%nat → ∃ res, fetch (n - 1)%nat = Responded res) ∧
      run.1 = rounds fetch 0 n
  end.
Proof.
  intros run n. subst run. unfold fetchWithRetry. fold n.
  destruct (decide (0 ≤ retries)) as [Hpos|Hneg].
  - pose proof (attempts_run n 0 ltac:(lia)) as H. cbn zeta in H.
    destruct (attempts fetch retries n 0) as [trace [[res|]|e]]; cbn [fst snd] in *.
    + destruct H as (k & ? & ? & ? & Hb & ?). exists k.
      repeat split; try done. intros j Hj. apply Hb. lia.
    + destruct H as (Hb & Hr & ?). repeat split; try done.
      intros j Hj. apply Hb. lia.
    + destruct H as (? & ? & Hb & ?). repeat split; try done.
      intros j Hj. apply Hb. lia.
  - assert (n = 0%nat) as -> by lia. cbn [attempts fst snd].
    split; [intros j ?; lia|]. split; [lia|done].
Qed.

(** X15. How [fetchWithRetry] completes.  It returns the first response
    that is [ok] among the first [retries] calls; the rejections and the
    failed responses before it are dropped.  It throws only when no call
    succeeded and the last one allowed was rejected, and what it throws is
    that last rejection.  Otherwise it returns [null]: when [retries] is not
    positive (no call is made), or when the last call got a response that is
    not [ok]. *)
Theorem fetchWithRetry_completion :
  let done := (fetchWithRetry fetch retries).2 in
  (∀ res, done = Returned (Some res) ↔
          ∃ k, Z.of_nat k < retries ∧ fetch k = Responded res ∧ ok res = true ∧
               ∀ j, (j < k)%nat → ¬ succeeds fetch j) ∧
  (∀ e, done = Thrown e ↔
        0 < retries ∧ fetch (Z.to_nat (retries - 1)) = Rejected e ∧
        ∀ j, Z.of_nat j < retries - 1 → ¬ succeeds fetch j) ∧
  (done = Returned None ↔
   (∀ j, Z.of_nat j < retries → ¬ succeeds fetch j) ∧
   (0 < retries → ∃ res, fetch (Z.to_nat (retries - 1)) = Responded res)).
Proof.
  intros done. pose proof fetchWithRetry_run as H. cbn zeta in H. fold done in H.
  replace (Z.to_nat (retries - 1)) with (Z.to_nat retries - 1)%nat by lia.
  set (n := Z.to_nat retries) in *.
  split; [|split].
  - intros res. split.
    + intros Hd. rewrite Hd in H. destruct H as (k & ? & ? & ? & ? & _).
      exists k. repeat split; try done. lia.
    + intros (k & Hk & Hres & Hok & Hbefore).
      assert (Hs : succeeds fetch k) by (by exists res).
      destruct done as [[res'|]|e].
      * destruct H as (k' & Hk' & Hres' & Hok' & Hbefore' & _).
        destruct (lt_eq_lt_dec k k') as [[Hlt| ->]|Hlt].
        -- by destruct (Hbefore' k Hlt).
        -- congruence.
        -- destruct (Hbefore k' Hlt). by exists res'.
      * destruct H as (Hnone & _). destruct (Hnone k); [lia|done].
      * destruct H as (_ & _ & Hnone & _). destruct (Hnone k); [lia|done].
  - intros e. split.
    + intros Hd. rewrite Hd in H. destruct H as (? & ? & Hnone & _).
      split; [lia|]. split; [done|]. intros j Hj. apply Hnone. lia.
    + intros (Hpos & Hrej & Hnone).
      destruct done as [[res'|]|e'].
      * destruct H as (k & Hk & Hres & Hok & _).
        destruct (decide (k = n - 1)%nat) as [->|]; [congruence|].
        destruct (Hnone k); [lia|by exists res'].
      * destruct H as (_ & Hresp & _). destruct Hresp as [res Hres]; [lia|congruence].
      * destruct H as (_ & Hrej' & _). congruence.
  - split.
    + intros Hd. rewrite Hd in H. destruct H as (Hnone & Hresp & _). split.
      * intros j Hj. apply Hnone. lia.
      * intros Hpos. apply Hresp. lia.
    + intros (Hnone & Hresp).
      destruct done as [[res'|]|e']; [| done |].
      * destruct H as (k & Hk & Hres & Hok & _).
        destruct (Hnone k); [lia|by exists res'].
      * destruct H as (Hpos & Hrej & _).
        destruct Hresp as [res Hres]; [lia|congruence].
Qed.

(** X16. What [fetchWithRetry] does on the way.  It makes at most
    [retries] calls, one per turn.  Every call that does not end the run is
    followed by one wait: after a response with status 429 the seconds of
    its [Retry-After] header (60 without one), otherwise 2000 ms times the
    number of the attempt.  A response that is [ok] and the exception come
    right after their call; [null] comes after all [retries] calls, and after
    the wait that follows the last of them. *)
Theorem fetchWithRetry_trace :
  let run := fetchWithRetry fetch retries in
  let calls :=
    length (List.filter (λ ev, match ev with Request => true | Delay _ => false end)
              run.1) in
  (calls ≤ Z.to_nat retries)%nat ∧
  ∃ k,
    (run.2 = Returned None ∧ k = Z.to_nat retries ∧ calls = k ∧
     run.1 = rounds fetch 0 k) ∨
    (run.2 ≠ Returned None ∧ (k < Z.to_nat retries)%nat ∧ calls = S k ∧
     run.1 = rounds fetch 0 k ++ [Request]).
Proof.
  intros run calls.
  assert (Hcount : ∀ i k,
            length (List.filter
                      (λ ev, match ev with Request => true | Delay _ => false end)
                      (rounds fetch i k)) = k).
  { intros i k. revert i. induction k as [|k IHk]; intros i; [done|].
    unfold rounds. cbn [seq map mjoin]. simpl. f_equal. apply IHk. }
  pose proof fetchWithRetry_run as H. cbn zeta in H. fold run in H.
  subst calls. set (n := Z.to_nat retries) in *.
  destruct (run.2) as [[res|]|e].
  - destruct H as (k & Hk & _ & _ & _ & Htrace). rewrite Htrace.
    rewrite List.filter_app, length_app, Hcount. simpl.
    split; [lia|]. exists k. right. split; [done|]. split; [done|]. split; [lia|done].
  - destruct H as (_ & _ & Htrace). rewrite Htrace, Hcount.
    split; [lia|]. exists n. by left.
  - destruct H as (Hpos & _ & _ & Htrace). rewrite Htrace.
    rewrite List.filter_app, length_app, Hcount. simpl.
    split; [lia|]. exists (n - 1)%nat. right.
    split; [done|]. split; [lia|]. split; [lia|done].
Qed.
End retry.

(** *** Reading back a number *)

Lemma digit_value_pretty (d : N) :
  (d < 10)%N → digit_value 10 (unit_of_ascii (pretty_N_char d)) = Some (Z.of_N d).
Proof.
  intros Hd.
  assert (d = 0 ∨ d = 1 ∨ d = 2 ∨ d = 3 ∨ d = 4 ∨ d = 5 ∨ d = 6 ∨ d = 7
          ∨ d = 8 ∨ d = 9)%N as Hcases by lia.
  repeat destruct Hcases as [->|Hcases]; try reflexivity. by subst.
Qed.

Lemma digit_unit_pretty (d : N) :
  (d < 10)%N →
  (48 ≤ unit_of_ascii (pretty_N_char d) ≤ 57)%N.
Proof.
  intros Hd.
  assert (d = 0 ∨ d = 1 ∨ d = 2 ∨ d = 3 ∨ d = 4 ∨ d = 5 ∨ d = 6 ∨ d = 7
          ∨ d = 8 ∨ d = 9)%N as Hcases by lia.
  repeat destruct Hcases as [->|Hcases]; try (vm_compute; split; discriminate).
  subst. vm_compute; split; discriminate.
Qed.

Lemma parse_digits_pretty_go (x : N) (s : string) :
  (0 < x)%N →
  parse_digits 10 None (js (pretty_N_go x s))
  = parse_digits 10 (Some (Z.of_N x)) (js s).
Proof.
  revert s. induction (N.lt_wf_0 x) as [x _ IH]. intros s Hx.
  rewrite pretty_N_go_step by done.
  assert (x `mod` 10 < 10)%N as Hd by (apply N.mod_lt; lia).
  pose proof (N.div_mod x 10 ltac:(lia)) as Hdm.
  destruct (decide (x `div` 10 = 0)%N) as [Hz|Hnz].
  - rewrite Hz, pretty_N_go_0. cbn [js parse_digits].
    rewrite digit_value_pretty by done. cbn [default]. do 2 f_equal. lia.
  - rewrite IH; [|apply N.div_lt; lia|lia]. cbn [js parse_digits].
    rewrite digit_value_pretty by done. cbn [default id]. do 2 f_equal. lia.
Qed.

Lemma pretty_go_digits (x : N) (s : string) :
  Forall (λ c, 48 ≤ c ≤ 57)%N (js s) →
  Forall (λ c, 48 ≤ c ≤ 57)%N (js (pretty_N_go x s)).
Proof.
  revert s. induction (N.lt_wf_0 x) as [x _ IH]. intros s Hs.
  destruct (decide (x = 0)%N) as [->|Hx]; [by rewrite pretty_N_go_0|].
  rewrite pretty_N_go_step by lia. apply IH; [apply N.div_lt; lia|].
  cbn [js]. constructor; [|done]. apply digit_unit_pretty, N.mod_lt. lia.
Qed.

Lemma digit_not_space (c : N) : (48 ≤ c ≤ 57)%N → is_space c = false.
Proof.
  intros Hc. unfold is_space.
  repeat (apply orb_false_intro);
    try (apply N.eqb_neq; lia);
    apply andb_false_iff; rewrite !N.leb_gt; lia.
Qed.

(** On a string of decimal digits, with or without a minus sign in front,
    [parseInt] reads all of it. *)
Lemma parseInt_digits (negative : bool) (s : jsstring) :
  Forall (λ c, 48 ≤ c ≤ 57)%N s →
  parseInt ((if negative then [45%N] else []) ++ s)
  = Z.mul (if negative then -1 else 1) <$> parse_digits 10 None s.
Proof.
  intros Hs. unfold parseInt.
  assert (Hradix :
    match s with
    | c :: x :: r =>
        if (N.eqb c 48 && (N.eqb x 120 || N.eqb x 88))%bool then (16, r) else (10, s)
    | _ => (10, s)
    end = (10, s)).
  { destruct Hs as [|c s' Hc Hs']; [done|]. destruct Hs' as [|x r Hx Hr]; [done|].
    replace (N.eqb x 120) with false by (symmetry; apply N.eqb_neq; lia).
    replace (N.eqb x 88) with false by (symmetry; apply N.eqb_neq; lia).
    by rewrite andb_false_r. }
  destruct negative; cbn [app].
  - cbn [trim_start]. change (is_space 45) with false. cbv iota.
    change (N.eqb 45 45) with true. cbv iota. by rewrite Hradix.
  - destruct Hs as [|c s' Hc Hs']; [done|]. cbn [trim_start].
    rewrite digit_not_space by done.
    replace (N.eqb c 45) with false by (symmetry; apply N.eqb_neq; lia).
    replace (N.eqb c 43) with false by (symmetry; apply N.eqb_neq; lia).
    assert (Forall (λ c, 48 ≤ c ≤ 57)%N (c :: s')) as Hcs by (by constructor).
    clear Hc Hs'. revert Hradix Hcs. generalize (c :: s'). intros l Hradix _.
    by rewrite Hradix.
Qed.

(** [parseInt(String(n))] is [n]. *)
Lemma parseInt_String_of_Z (n : Z) : parseInt (String_of_Z n) = Some n.
Proof.
  unfold String_of_Z.
  assert (Hpos : ∀ p (negative : bool),
            parseInt ((if negative then [45%N] else [])
                      ++ js (pretty_N_go (N.pos p) ""))
            = Some ((if negative then -1 else 1) * Z.pos p)).
  { intros p negative. rewrite parseInt_digits by (by apply pretty_go_digits).
    rewrite parse_digits_pretty_go by lia. done. }
  destruct n as [|p|p].
  - reflexivity.
  - apply (Hpos p false).
  - apply (Hpos p true).
Qed.


(** ** The pages against their expected text *)

Section template.
Import Template.

Lemma starts_with_app (pat rest : jsstring) : starts_with pat (pat ++ rest) = true.
Proof. induction pat as [|c pat IH]; simpl; [done|]. by rewrite N.eqb_refl, IH. Qed.

Lemma starts_with_nil (pat : jsstring) : pat ≠ [] → starts_with pat [] = false.
Proof. by destruct pat. Qed.

Lemma name_ok_cons (c : N) (n : jsstring) :
  name_ok (c :: n) = true ↔ c ≠ 123%N ∧ c ≠ 125%N ∧ name_ok n = true.
Proof.
  unfold name_ok. simpl. rewrite !andb_true_iff, !negb_true_iff, !N.eqb_neq. tauto.
Qed.

(** Two tokens: one starts the text of the other only if the names are the
    same. *)
Lemma starts_with_names (n m rest : jsstring) :
  name_ok n = true → name_ok m = true →
  starts_with (n ++ [125; 125]%N) (m ++ [125; 125]%N ++ rest) = true → n = m.
Proof.
  revert m. induction n as [|c n IH]; intros [|d m] Hn Hm; cbn [app starts_with].
  - done.
  - apply name_ok_cons in Hm as (_ & Hd & _).
    destruct (N.eqb_spec 125 d) as [<-|_]; [done|discriminate].
  - apply name_ok_cons in Hn as (_ & Hc & _).
    destruct (N.eqb_spec c 125) as [->|_]; [done|discriminate].
  - apply name_ok_cons in Hn as (_ & _ & Hn). apply name_ok_cons in Hm as (_ & _ & Hm).
    destruct (N.eqb_spec c d) as [->|_]; [|discriminate].
    cbn [andb]. intros H. f_equal. by apply IH.
Qed.

Lemma starts_with_hole (n m rest : jsstring) :
  name_ok n = true → name_ok m = true → n ≠ m →
  starts_with (hole n) (hole m ++ rest) = false.
Proof.
  intros Hn Hm Hne. unfold hole. cbn [app starts_with]. rewrite !N.eqb_refl. cbn [andb].
  destruct (starts_with (n ++ [125; 125]%N) ((m ++ [125; 125]%N) ++ rest)) eqn:Hs; [|done].
  rewrite <- app_assoc in Hs. by apply starts_with_names in Hs.
Qed.

(** A token does not start inside a text that is [brace_safe]. *)
Lemma starts_with_brace_safe (n l rest : jsstring) (c : N) :
  brace_safe (c :: l) = true → starts_with (hole n) ((c :: l) ++ rest) = false.
Proof.
  unfold hole. cbn [app starts_with brace_safe]. intros Hl.
  destruct (N.eqb_spec 123 c) as [Hc|Hc]; [|done]. subst c.
  change (N.eqb 123 123) with true in Hl. cbv iota in Hl.
  destruct l as [|d l]; [done|]. apply andb_true_iff in Hl as [Hd _].
  apply negb_true_iff, N.eqb_neq in Hd. cbn [app andb].
  destruct (N.eqb_spec 123 d) as [Hd'|_]; [by subst d|done].
Qed.

Lemma brace_safe_tail (c : N) (l : jsstring) :
  brace_safe (c :: l) = true → brace_safe l = true.
Proof. cbn [brace_safe]. by intros [_ ?]%andb_true_iff. Qed.

Lemma name_ok_brace_free (n : jsstring) :
  name_ok n = true → brace_safe (n ++ [125; 125]%N) = true.
Proof.
  induction n as [|c n IH]; [done|]. intros (Hc & _ & Hn)%name_ok_cons.
  cbn [app brace_safe]. rewrite IH by done.
  by destruct (N.eqb_spec c 123).
Qed.

(** The rest of a token after its first brace. *)
Lemma hole_tail_brace_safe (n : jsstring) :
  name_ok n = true → brace_safe (123%N :: n ++ [125; 125]%N) = true.
Proof.
  intros Hn. cbn [brace_safe]. rewrite name_ok_brace_free by done.
  change (N.eqb 123 123) with true. cbv iota.
  destruct n as [|c n]; [done|]. apply name_ok_cons in Hn as (Hc & _ & _).
  cbn [app]. by destruct (N.eqb_spec c 123).
Qed.

Lemma GetSubstitution_dollar_free (matched before after repl : jsstring) :
  dollar_free repl = true → GetSubstitution matched before after repl = repl.
Proof.
  induction repl as [|c r IH]; cbn [GetSubstitution dollar_free forallb]; [done|].
  intros [Hc Hr]%andb_true_iff. apply negb_true_iff in Hc. rewrite Hc.
  f_equal. by apply IH.
Qed.

Lemma flat_cons (x : seg) (t : list seg) : flat (x :: t) = render x ++ flat t.
Proof. reflexivity. Qed.

(** *** [replace] with a string pattern *)

Lemma replace_from_unfold (pat repl br s : jsstring) :
  replace_from pat repl br s
  = if starts_with pat s then
      GetSubstitution pat (rev br) (drop (length pat) s) repl ++ drop (length pat) s
    else match s with
         | [] => []
         | c :: s' => c :: replace_from pat repl (c :: br) s'
         end.
Proof. by destruct s. Qed.

Lemma replace_from_lit (n v br l rest : jsstring) :
  brace_safe l = true →
  ∃ br', replace_from (hole n) v br (l ++ rest)
         = l ++ replace_from (hole n) v br' rest.
Proof.
  revert br. induction l as [|c l IH]; intros br Hl; [by exists br|].
  rewrite replace_from_unfold, starts_with_brace_safe by done.
  destruct (IH (c :: br) (brace_safe_tail _ _ Hl)) as [br' Hbr'].
  exists br'. cbn [app]. by rewrite Hbr'.
Qed.

Lemma replace_from_hole_other (n m v br rest : jsstring) :
  name_ok n = true → name_ok m = true → n ≠ m →
  ∃ br', replace_from (hole n) v br (hole m ++ rest)
         = hole m ++ replace_from (hole n) v br' rest.
Proof.
  intros Hn Hm Hne.
  rewrite replace_from_unfold, starts_with_hole by done.
  change (hole m ++ rest) with (123%N :: (123%N :: m ++ [125; 125]%N) ++ rest).
  destruct (replace_from_lit n v (123%N :: br) (123%N :: m ++ [125; 125]%N) rest
              (hole_tail_brace_safe m Hm)) as [br' Hbr'].
  exists br'. by rewrite Hbr'.
Qed.

Lemma replace_from_hole_same (n v br rest : jsstring) :
  dollar_free v = true →
  replace_from (hole n) v br (hole n ++ rest) = v ++ rest.
Proof.
  intros Hv. rewrite replace_from_unfold, starts_with_app.
  rewrite drop_app_length. by rewrite GetSubstitution_dollar_free.
Qed.

Lemma replace_from_fill (n v : jsstring) (t : list seg) (br : jsstring) :
  well_formed t = true → name_ok n = true → dollar_free v = true →
  replace_from (hole n) v br (flat t) = flat (fill_first n v t).
Proof.
  intros Ht Hn Hv. revert br. induction t as [|x t IH]; intros br.
  - done.
  - cbn [well_formed forallb] in Ht. apply andb_true_iff in Ht as [Hx Ht].
    destruct x as [s|m]; cbn [fill_first].
    + rewrite !flat_cons. cbn [render].
      destruct (replace_from_lit n v br s (flat t) Hx) as [br' ->].
      f_equal. by apply IH.
    + case_decide as Hm.
      * subst m. rewrite !flat_cons. cbn [render]. by rewrite replace_from_hole_same.
      * rewrite !flat_cons. cbn [render].
        destruct (replace_from_hole_other n m v br (flat t)) as [br' ->]; try done.
        f_equal. by apply IH.
Qed.

(** [s.replace('{{NAME}}', v)] fills the first placeholder of the name. *)
Lemma replace_fill_first (n v : jsstring) (t : list seg) :
  well_formed t = true → name_ok n = true → dollar_free v = true →
  Generate.replace (hole n) v (flat t) = flat (fill_first n v t).
Proof. apply replace_from_fill. Qed.

(** *** [replace] with a global regular expression *)

Lemma replace_all_skip (pat v x rest br : jsstring) :
  ∃ br', replace_all_from pat v (length x) br (x ++ rest)
         = replace_all_from pat v 0 br' rest.
Proof.
  revert br. induction x as [|c x IH]; intros br; [by exists br|].
  cbn [length app replace_all_from]. apply IH.
Qed.

Lemma replace_all_lit (n v br l rest : jsstring) :
  brace_safe l = true →
  ∃ br', replace_all_from (hole n) v 0 br (l ++ rest)
         = l ++ replace_all_from (hole n) v 0 br' rest.
Proof.
  revert br. induction l as [|c l IH]; intros br Hl; [by exists br|].
  cbn [app replace_all_from].
  change (c :: l ++ rest) with ((c :: l) ++ rest).
  rewrite starts_with_brace_safe by done.
  destruct (IH (c :: br) (brace_safe_tail _ _ Hl)) as [br' Hbr'].
  exists br'. by rewrite Hbr'.
Qed.

Lemma replace_all_hole_other (n m v br rest : jsstring) :
  name_ok n = true → name_ok m = true → n ≠ m →
  ∃ br', replace_all_from (hole n) v 0 br (hole m ++ rest)
         = hole m ++ replace_all_from (hole n) v 0 br' rest.
Proof.
  intros Hn Hm Hne.
  pose proof (starts_with_hole n m rest Hn Hm Hne) as Hs.
  change (hole m ++ rest) with (123%N :: (123%N :: m ++ [125; 125]%N) ++ rest) in *.
  cbn [replace_all_from]. rewrite Hs.
  destruct (replace_all_lit n v (123%N :: br) (123%N :: m ++ [125; 125]%N) rest
              (hole_tail_brace_safe m Hm)) as [br' Hbr'].
  exists br'. by rewrite Hbr'.
Qed.

Lemma replace_all_hole_same (n v br rest : jsstring) :
  dollar_free v = true →
  ∃ br', replace_all_from (hole n) v 0 br (hole n ++ rest)
         = v ++ replace_all_from (hole n) v 0 br' rest.
Proof.
  intros Hv.
  pose proof (starts_with_app (hole n) rest) as Hs.
  assert (Hdrop : drop (length (hole n)) (hole n ++ rest) = rest)
    by apply drop_app_length.
  destruct (replace_all_skip (hole n) v (123%N :: n ++ [125; 125]%N) rest (123%N :: br))
    as [br' Hbr'].
  exists br'. rewrite <- Hbr'.
  change (hole n ++ rest) with (123%N :: (123%N :: n ++ [125; 125]%N) ++ rest) in *.
  cbn [replace_all_from]. rewrite Hs, Hdrop, GetSubstitution_dollar_free by done.
  reflexivity.
Qed.

Lemma replace_all_from_fill (n v : jsstring) (t : list seg) (br : jsstring) :
  well_formed t = true → name_ok n = true → dollar_free v = true →
  replace_all_from (hole n) v 0 br (flat t) = flat (fill_all n v t).
Proof.
  intros Ht Hn Hv. revert br. induction t as [|x t IH]; intros br.
  - done.
  - cbn [well_formed forallb] in Ht. apply andb_true_iff in Ht as [Hx Ht].
    change (fill_all n v (x :: t))
      with ((match x with
             | Lit s => Lit s
             | Hole m => if decide (m = n) then Lit v else Hole m
             end) :: fill_all n v t).
    rewrite !flat_cons.
    destruct x as [s|m]; cbn [render].
    + destruct (replace_all_lit n v br s (flat t) Hx) as [br' ->].
      f_equal. by apply IH.
    + case_decide as Hm.
      * subst m. destruct (replace_all_hole_same n v br (flat t) Hv) as [br' ->].
        cbn [render]. f_equal. by apply IH.
      * destruct (replace_all_hole_other n m v br (flat t)) as [br' ->]; try done.
        cbn [render]. f_equal. by apply IH.
Qed.

(** [s.replace(/\{\{NAME\}\}/g, v)] fills every placeholder of the name. *)
Lemma replace_g_fill_all (n v : jsstring) (t : list seg) :
  well_formed t = true → name_ok n = true → dollar_free v = true →
  Generate.replace_g (hole n) v (flat t) = flat (fill_all n v t).
Proof. apply replace_all_from_fill. Qed.

End template.

Section inert.
Import Template.

Lemma dollar_free_app (a b : jsstring) :
  dollar_free (a ++ b) = dollar_free a && dollar_free b.
Proof. apply forallb_app. Qed.

Lemma brace_safe_app (a b : jsstring) :
  brace_safe a = true → brace_safe b = true → brace_safe (a ++ b) = true.
Proof.
  intros Ha Hb. induction a as [|c a IH]; [done|].
  pose proof (brace_safe_tail _ _ Ha) as Ha'.
  change (brace_safe (c :: a)) with
    ((if N.eqb c 123
      then match a with d :: _ => negb (N.eqb d 123) | [] => false end
      else true) && brace_safe a) in Ha.
  change (brace_safe ((c :: a) ++ b)) with
    ((if N.eqb c 123
      then match a ++ b with d :: _ => negb (N.eqb d 123) | [] => false end
      else true) && brace_safe (a ++ b)).
  rewrite (IH Ha'), andb_true_r. rewrite Ha', andb_true_r in Ha. revert Ha.
  destruct (N.eqb c 123); [|done]. by destruct a.
Qed.

Lemma inert_app (a b : jsstring) :
  inert a = true → inert b = true → inert (a ++ b) = true.
Proof.
  unfold inert. intros [Ha1 Ha2]%andb_true_iff [Hb1 Hb2]%andb_true_iff.
  by rewrite brace_safe_app, dollar_free_app, Ha2, Hb2.
Qed.

Lemma inert_nil : inert [] = true.
Proof. reflexivity. Qed.

Lemma inert_mjoin (l : list jsstring) :
  Forall (λ s, inert s = true) l → inert (mjoin l) = true.
Proof. induction 1; [done|]. by apply inert_app. Qed.

Lemma inert_brace_safe (s : jsstring) : inert s = true → brace_safe s = true.
Proof. by intros [? ?]%andb_true_iff. Qed.

Lemma inert_dollar_free (s : jsstring) : inert s = true → dollar_free s = true.
Proof. by intros [? ?]%andb_true_iff. Qed.

(** A text without braces and dollar signs. *)
Lemma inert_plain (s : jsstring) :
  Forall (λ c, c ≠ 36 ∧ c ≠ 123)%N s → inert s = true.
Proof.
  intros Hs. unfold inert. apply andb_true_iff. split.
  - induction Hs as [|c s [_ H123] _ IH]; [done|].
    cbn [brace_safe]. apply N.eqb_neq in H123. by rewrite H123, IH.
  - apply forallb_forall. intros c Hc%list_elem_of_In.
    eapply Forall_forall in Hs; [|exact Hc]. apply negb_true_iff, N.eqb_neq. tauto.
Qed.

Lemma inert_digits (s : jsstring) :
  Forall (λ c, 48 ≤ c ≤ 57)%N s → inert s = true.
Proof.
  intros Hs. apply inert_plain. eapply Forall_impl; [exact Hs|].
  intros c Hc. simpl in Hc. lia.
Qed.

Lemma inert_String_of_Z (n : Z) : inert (String_of_Z n) = true.
Proof.
  unfold String_of_Z.
  assert (Hpos : ∀ p, inert (js (pretty_N_go (N.pos p) "")) = true).
  { intros p. apply inert_digits. by apply pretty_go_digits. }
  destruct n as [|p|p]; [reflexivity|apply Hpos|].
  change (inert ([45%N] ++ js (pretty_N_go (N.pos p) "")) = true).
  apply inert_app; [reflexivity|apply Hpos].
Qed.

Lemma inert_Array_join_nil (l : list jsstring) :
  Forall (λ s, inert s = true) l → inert (Array_join [] l) = true.
Proof.
  induction 1 as [|s l Hs Hl IH]; [done|].
  destruct l as [|s' l]; [done|].
  change (inert (s ++ [] ++ Array_join [] (s' :: l)) = true).
  apply inert_app; [done|exact IH].
Qed.

Lemma Array_join_nil_mjoin (l : list jsstring) : Array_join [] l = mjoin l.
Proof.
  induction l as [|s l IH]; [done|].
  destruct l as [|s' l]; [simpl; by rewrite app_nil_r|].
  change (s ++ [] ++ Array_join [] (s' :: l) = s ++ mjoin (s' :: l)).
  by rewrite IH.
Qed.

Lemma inert_or_string (a : option jsstring) (d : jsstring) :
  (∀ s, a = Some s → inert s = true) → inert d = true →
  inert (Generate.or_string a d) = true.
Proof.
  intros Ha Hd. destruct a as [[|c s]|]; simpl; try done. by apply Ha.
Qed.

Lemma well_formed_cons (x : seg) (t : list seg) :
  well_formed (x :: t)
  = (match x with Lit s => brace_safe s | Hole name => name_ok name end)
    && well_formed t.
Proof. reflexivity. Qed.

Lemma well_formed_fill_first (n v : jsstring) (t : list seg) :
  well_formed t = true → brace_safe v = true → well_formed (fill_first n v t) = true.
Proof.
  intros Ht Hv. induction t as [|x t IH]; [done|].
  rewrite well_formed_cons in Ht. apply andb_true_iff in Ht as [Hx Ht].
  destruct x as [s|m]; cbn [fill_first].
  - by rewrite well_formed_cons, Hx, IH.
  - case_decide; rewrite well_formed_cons.
    + by rewrite Hv, Ht.
    + by rewrite Hx, IH.
Qed.

Lemma well_formed_fill_all (n v : jsstring) (t : list seg) :
  well_formed t = true → brace_safe v = true → well_formed (fill_all n v t) = true.
Proof.
  intros Ht Hv. induction t as [|x t IH]; [done|].
  rewrite well_formed_cons in Ht. apply andb_true_iff in Ht as [Hx Ht].
  change (fill_all n v (x :: t))
    with ((match x with
           | Lit s => Lit s
           | Hole m => if decide (m = n) then Lit v else Hole m
           end) :: fill_all n v t).
  rewrite well_formed_cons, IH by done. rewrite andb_true_r.
  destruct x as [s|m]; [done|]. by case_decide.
Qed.

Lemma dollar_free_fill_first (n v : jsstring) (t : list seg) :
  dollar_free (flat t) = true → dollar_free v = true →
  dollar_free (flat (fill_first n v t)) = true.
Proof.
  intros Ht Hv. induction t as [|x t IH]; [done|].
  rewrite flat_cons, dollar_free_app in Ht. apply andb_true_iff in Ht as [Hx Ht].
  destruct x as [s|m]; cbn [fill_first].
  - by rewrite flat_cons, dollar_free_app, Hx, IH.
  - case_decide; rewrite flat_cons, dollar_free_app.
    + cbn [render]. by rewrite Hv, Ht.
    + by rewrite Hx, IH.
Qed.

Lemma dollar_free_fill_all (n v : jsstring) (t : list seg) :
  dollar_free (flat t) = true → dollar_free v = true →
  dollar_free (flat (fill_all n v t)) = true.
Proof.
  intros Ht Hv. induction t as [|x t IH]; [done|].
  rewrite flat_cons, dollar_free_app in Ht. apply andb_true_iff in Ht as [Hx Ht].
  change (fill_all n v (x :: t))
    with ((match x with
           | Lit s => Lit s
           | Hole m => if decide (m = n) then Lit v else Hole m
           end) :: fill_all n v t).
  rewrite flat_cons, dollar_free_app, IH by done. rewrite andb_true_r.
  destruct x as [s|m]; [done|]. by case_decide.
Qed.

(** A text [s] is the template [t], all of whose placeholders can still be
    told from the text around them. *)
Lemma fills_first (s n v : jsstring) (t : list seg) :
  s = flat t ∧ well_formed t = true →
  name_ok n = true → inert v = true →
  Generate.replace (hole n) v s = flat (fill_first n v t)
  ∧ well_formed (fill_first n v t) = true.
Proof.
  intros [-> Ht] Hn Hv. split.
  - apply replace_fill_first; [done|done|by apply inert_dollar_free].
  - apply well_formed_fill_first; [done|by apply inert_brace_safe].
Qed.

Lemma fills_all (s n v : jsstring) (t : list seg) :
  s = flat t ∧ well_formed t = true →
  name_ok n = true → inert v = true →
  Generate.replace_g (hole n) v s = flat (fill_all n v t)
  ∧ well_formed (fill_all n v t) = true.
Proof.
  intros [-> Ht] Hn Hv. split.
  - apply replace_g_fill_all; [done|done|by apply inert_dollar_free].
  - apply well_formed_fill_all; [done|by apply inert_brace_safe].
Qed.

(** [wrapInLayout] fills the layout. *)
Lemma wrapInLayout_in_layout (inp : Generate.Input) (layout : list seg)
    (content title description url : jsstring) :
  Generate.layoutTemplate inp = flat layout → well_formed layout = true →
  inert title = true → inert description = true → inert url = true →
  dollar_free content = true →
  Generate.wrapInLayout inp content title description url
  = Page.in_layout layout content title description url.
Proof.
  intros Hlayout Hwf Htitle Hdesc Hurl Hcontent.
  unfold Generate.wrapInLayout, Page.in_layout.
  change (js "{{PAGE_TITLE}}") with (hole (js "PAGE_TITLE")).
  change (js "{{PAGE_DESCRIPTION}}") with (hole (js "PAGE_DESCRIPTION")).
  change (js "{{PAGE_URL}}") with (hole (js "PAGE_URL")).
  change (js "{{CONTENT}}") with (hole (js "CONTENT")).
  destruct (fills_all _ (js "PAGE_TITLE") title layout (conj Hlayout Hwf) eq_refl Htitle)
    as [-> H1].
  destruct (fills_all _ (js "PAGE_DESCRIPTION") description _ (conj eq_refl H1)
              eq_refl Hdesc) as [-> H2].
  destruct (fills_all _ (js "PAGE_URL") url _ (conj eq_refl H2) eq_refl Hurl)
    as [-> H3].
  by apply replace_fill_first.
Qed.
End inert.

(** *** Cards *)

Section cards.
Import Template.

Lemma generateStars_stars (rating : Z) :
  0 ≤ rating ≤ 5 → Generate.generateStars rating = Ok (Page.stars rating).
Proof.
  intros Hr. unfold Generate.generateStars. by rewrite !String_repeat_unit by lia.
Qed.

Lemma getPriceTier_tier (price : Z) : Generate.getPriceTier price = Page.tier price.
Proof.
  unfold Generate.getPriceTier, Page.tier.
  destruct (Z.ltb_spec price 80); [by rewrite decide_True|rewrite decide_False by lia].
  destruct (Z.ltb_spec price 150); [by rewrite decide_True|rewrite decide_False by lia].
  destruct (Z.ltb_spec price 250); [by rewrite decide_True|by rewrite decide_False by lia].
Qed.

Lemma card_badges_badges (h : Hotel.t) :
  Array_join [] (Generate.card_badges h) = Page.card_badges h.
Proof.
  unfold Generate.card_badges, Page.card_badges.
  destruct (Hotel.hasAcropolisView h), (Hotel.hasRooftopBar h); reflexivity.
Qed.

(** The card that [generateHotelCard] returns is the card of the hotel. *)
Lemma generateHotelCard_card (h : Hotel.t) :
  0 ≤ Hotel.starRating h ≤ 5 → Generate.generateHotelCard h = Ok (Page.card h).
Proof.
  intros Hr. unfold Generate.generateHotelCard.
  rewrite generateStars_stars by done. cbn [rbind]. f_equal.
  rewrite getPriceTier_tier, card_badges_badges.
  unfold Page.card, Page.card_with. reflexivity.
Qed.

Lemma rmap_Ok {A B} (f : A → result B) (g : A → B) (l : list A) :
  Forall (λ x, f x = Ok (g x)) l → rmap f l = Ok (map g l).
Proof. induction 1 as [|x l Hx _ IH]; [done|]. simpl. by rewrite Hx, IH. Qed.

Lemma hotelCards_cards (l : list Hotel.t) :
  Forall (λ h, 0 ≤ Hotel.starRating h ≤ 5) l →
  Generate.hotelCards l = Ok (Page.cards l).
Proof.
  intros Hl. unfold Generate.hotelCards.
  rewrite (rmap_Ok _ Page.card).
  - cbn [rbind]. by rewrite Array_join_nil_mjoin.
  - eapply Forall_impl; [exact Hl|]. intros h Hh. by apply generateHotelCard_card.
Qed.

Lemma presentable_rating (h : Hotel.t) :
  Page.presentable h = true → 0 ≤ Hotel.starRating h ≤ 5.
Proof.
  unfold Page.presentable. rewrite !andb_true_iff, Z.leb_le, Z.leb_le. tauto.
Qed.

Lemma inert_stars (rating : Z) : inert (Page.stars rating) = true.
Proof.
  unfold Page.stars. apply inert_app; apply inert_plain, Forall_replicate; done.
Qed.

Lemma inert_tier (price : Z) : inert (Page.tier price) = true.
Proof. unfold Page.tier. repeat case_decide; reflexivity. Qed.

Lemma inert_shown_neighborhood (h : Hotel.t) :
  Page.presentable h = true → inert (Page.shown_neighborhood h) = true.
Proof.
  unfold Page.presentable, Page.shown_neighborhood. rewrite !andb_true_iff.
  intros Hh. destruct (Hotel.neighborhoodName h) as [[|c s]|]; simpl in *; tauto.
Qed.

Lemma inert_card (h : Hotel.t) :
  Page.presentable h = true → inert (Page.card h) = true.
Proof.
  intros Hh. pose proof (inert_shown_neighborhood h Hh) as Hhood.
  unfold Page.presentable in Hh. rewrite !andb_true_iff in Hh.
  unfold Page.card, Page.card_with. apply inert_mjoin.
  repeat apply List.Forall_cons; try apply List.Forall_nil; try reflexivity;
    try apply inert_stars; try apply inert_tier; try apply inert_String_of_Z;
    try tauto.
  - by destruct (Hotel.hasAcropolisView h).
  - unfold Page.card_badges.
    by destruct (Hotel.hasAcropolisView h), (Hotel.hasRooftopBar h).
Qed.

Lemma inert_cards (l : list Hotel.t) :
  Forall (λ h, Page.presentable h = true) l → inert (Page.cards l) = true.
Proof.
  intros Hl. unfold Page.cards. apply inert_mjoin, Forall_fmap.
  eapply Forall_impl; [exact Hl|]. intros h. apply inert_card.
Qed.

End cards.

(** *** The home page *)

Section home_page.
Import Template.

Lemma inert_neighborhood_card (hood : Hood.t) :
  Page.presentable_hood hood = true →
  inert (Generate.generateNeighborhoodCard hood) = true.
Proof.
  unfold Page.presentable_hood. rewrite !andb_true_iff. intros Hh.
  unfold Generate.generateNeighborhoodCard. apply inert_mjoin.
  repeat apply List.Forall_cons; try apply List.Forall_nil; try reflexivity;
    try apply inert_String_of_Z; tauto.
Qed.

Lemma forallb_Forall {A} (p : A → bool) (l : list A) :
  forallb p l = true → Forall (λ x, p x = true) l.
Proof. intros H. apply Forall_forall.
    intros x Hx%list_elem_of_In. by eapply forallb_forall in H. Qed.

Lemma Forall_take_filter {A} (P Q : A → Prop) `{∀ x, Decision (Q x)} (n : nat)
    (l : list A) :
  Forall P l → Forall P (take n (filter Q l)).
Proof.
  intros Hl. apply Forall_take, Forall_forall. intros x Hx.
  apply list_elem_of_filter in Hx as [_ Hx]. by eapply Forall_forall in Hl.
Qed.

Lemma home_view_list (inp : Generate.Input) :
  Generate.home_acropolisViewHotels inp
  = take 6 (filter (λ h, Hotel.hasAcropolisView h = true)
              (hotels (Generate.allHotelsData inp))).
Proof.
  unfold Generate.home_acropolisViewHotels, Array_slice0. f_equal.
  apply list_filter_iff. intros h. apply Is_true_true.
Qed.

Lemma home_rooftop_list (inp : Generate.Input) :
  Generate.home_rooftopHotels inp
  = take 6 (filter (λ h, Hotel.hasRooftopBar h = true
                         ∧ 4 ≤ default 0 (Hotel.rooftopRating h))
              (hotels (Generate.allHotelsData inp))).
Proof.
  unfold Generate.home_rooftopHotels, Array_slice0. f_equal.
  apply list_filter_iff. intros h. rewrite rooftop_condition.
  destruct (Hotel.rooftopRating h) as [r|]; simpl.
  - split; [intros [? (r' & [= <-] & ?)]; done | intros [? ?]; eauto].
  - split; [intros [? (r' & [=] & ?)] | intros [? ?]; lia].
Qed.

(** The run of [generateHomepage]: it writes [index.html], the layout
    around the home template with its placeholders filled. *)
Lemma generateHomepage_run (inp : Generate.Input) (w : Generate.world)
    (layout home : list seg) :
  Generate.layoutTemplate inp = flat layout → well_formed layout = true →
  Generate.homeTemplate inp = flat home → well_formed home = true →
  dollar_free (flat home) = true →
  forallb Page.presentable (hotels (Generate.allHotelsData inp)) = true →
  forallb Page.presentable_hood (Generate.neighborhoodsData inp) = true →
  let stats := priceStats (Generate.allHotelsData inp) in
  let v := {|
    Page.home_total_hotels := Page.decimal (totalHotels (Generate.allHotelsData inp));
    Page.home_avg_price :=
      Generate.String_of_number (avgPrice (Generate.allHotelsData inp));
    Page.home_budget_count := Page.decimal (budget_count stats);
    Page.home_mid_count := Page.decimal (midRange_count stats);
    Page.home_upscale_count := Page.decimal (upscale_count stats);
    Page.home_luxury_count := Page.decimal (luxury_count stats);
    Page.home_neighborhoods_grid :=
      mjoin (map Generate.generateNeighborhoodCard (Generate.neighborhoodsData inp));
    Page.home_acropolis_view_hotels :=
      Page.cards (Generate.home_acropolisViewHotels inp);
    Page.home_rooftop_hotels := Page.cards (Generate.home_rooftopHotels inp) |} in
  Generate.generateHomepage inp w
  = (Generate.World
       (<[js "index.html" :=
            Page.in_layout layout (Page.home_content home v)
              (js "Compare Hotels by Neighborhood")
              (mjoin [js "Discover ";
                      Page.decimal (totalHotels (Generate.allHotelsData inp));
                      js "+ Athens hotels. Compare prices, Acropolis views, rooftop bars by neighborhood."])
              (js "https://hotelsofathens.com/")]>
          (Generate.files w))
       (Generate.ticks w),
     Ok ()).
Proof.
  intros Hlayout Hwfl Hhome Hwfh Hdollar Hhotels Hhoods stats v.
  apply forallb_Forall in Hhotels. apply forallb_Forall in Hhoods.
  assert (Hview : Forall (λ h, Page.presentable h = true)
                    (Generate.home_acropolisViewHotels inp)).
  { rewrite home_view_list. by apply Forall_take_filter. }
  assert (Hroof : Forall (λ h, Page.presentable h = true)
                    (Generate.home_rooftopHotels inp)).
  { rewrite home_rooftop_list. by apply Forall_take_filter. }
  assert (Hgrid : inert (Page.home_neighborhoods_grid v) = true).
  { apply inert_mjoin, Forall_fmap. eapply Forall_impl; [exact Hhoods|].
    intros hood. apply inert_neighborhood_card. }
  assert (Havg : inert (Page.home_avg_price v) = true).
  { cbn [v Page.home_avg_price]. unfold Generate.String_of_number.
    destruct (avgPrice _); [apply inert_String_of_Z|reflexivity]. }
  unfold Generate.generateHomepage.
  rewrite (hotelCards_cards (Generate.home_acropolisViewHotels inp))
    by (eapply Forall_impl; [exact Hview|]; apply presentable_rating).
  rewrite (hotelCards_cards (Generate.home_rooftopHotels inp))
    by (eapply Forall_impl; [exact Hroof|]; apply presentable_rating).
  unfold mbind, Generate.M_bind, Generate.bind, Generate.lift, Generate.writeFileSync.
  cbn [fst snd]. do 2 f_equal. f_equal.
  rewrite Array_join_nil_mjoin.
  change (js "{{TOTAL_HOTELS}}") with (hole (js "TOTAL_HOTELS")).
  change (js "{{AVG_PRICE}}") with (hole (js "AVG_PRICE")).
  change (js "{{BUDGET_COUNT}}") with (hole (js "BUDGET_COUNT")).
  change (js "{{MID_COUNT}}") with (hole (js "MID_COUNT")).
  change (js "{{UPSCALE_COUNT}}") with (hole (js "UPSCALE_COUNT")).
  change (js "{{LUXURY_COUNT}}") with (hole (js "LUXURY_COUNT")).
  change (js "{{NEIGHBORHOODS_GRID}}") with (hole (js "NEIGHBORHOODS_GRID")).
  change (js "{{ACROPOLIS_VIEW_HOTELS}}") with (hole (js "ACROPOLIS_VIEW_HOTELS")).
  change (js "{{ROOFTOP_HOTELS}}") with (hole (js "ROOFTOP_HOTELS")).
  match goal with
  | |- Generate.wrapInLayout _ ?c _ _ _ = _ =>
      assert (Hcontent : c = Page.home_content home v
                         ∧ well_formed
                             (fill_first (js "ROOFTOP_HOTELS") (Page.home_rooftop_hotels v)
                             (fill_first (js "ACROPOLIS_VIEW_HOTELS")
                                (Page.home_acropolis_view_hotels v)
                             (fill_first (js "NEIGHBORHOODS_GRID")
                                (Page.home_neighborhoods_grid v)
                             (fill_first (js "LUXURY_COUNT") (Page.home_luxury_count v)
                             (fill_first (js "UPSCALE_COUNT") (Page.home_upscale_count v)
                             (fill_first (js "MID_COUNT") (Page.home_mid_count v)
                             (fill_first (js "BUDGET_COUNT") (Page.home_budget_count v)
                             (fill_first (js "AVG_PRICE") (Page.home_avg_price v)
                             (fill_all (js "TOTAL_HOTELS") (Page.home_total_hotels v)
                                home))))))))) = true)
  end.
  { unfold Page.home_content.
    repeat (first [apply fills_first | apply fills_all];
            [|reflexivity|
             first [apply inert_String_of_Z | exact Hgrid | exact Havg
                   | by apply inert_cards]]).
    by split. }
  destruct Hcontent as [-> _].
  apply wrapInLayout_in_layout; try done.
  - apply inert_mjoin.
    repeat apply List.Forall_cons; try apply List.Forall_nil; try reflexivity.
    apply inert_String_of_Z.
  - unfold Page.home_content.
    repeat (first [apply dollar_free_fill_first | apply dollar_free_fill_all];
            [|apply inert_dollar_free;
              first [apply inert_String_of_Z | exact Hgrid | exact Havg
                    | by apply inert_cards]]).
    exact Hdollar.
Qed.
End home_page.

(** *** The hotel pages *)

Section hotel_page.
Import Template.

Lemma presentable_name (h : Hotel.t) :
  Page.presentable h = true →
  Forall (λ c, c < 65536)%N (Hotel.name h) ∧
  Forall (λ c, is_high_surrogate c = false ∧ is_low_surrogate c = false) (Hotel.name h).
Proof.
  unfold Page.presentable. rewrite !andb_true_iff. intros [_ Hn].
  apply forallb_Forall in Hn. split.
  - eapply Forall_impl; [exact Hn|]. intros c. cbn beta.
    rewrite !andb_true_iff, N.ltb_lt. tauto.
  - eapply Forall_impl; [exact Hn|]. intros c. cbn beta.
    rewrite !andb_true_iff, !negb_true_iff. tauto.
Qed.

(** The query of the booking link. *)
Lemma booking_query (h : Hotel.t) :
  Page.presentable h = true →
  ∃ q, encodeURIComponent (Hotel.name h ++ js " Athens") = Ok q ∧
       Forall (λ c, uri_unreserved c = true ∨ c = 37%N) q.
Proof.
  intros [Hunits Hsur]%presentable_name.
  destruct (encodeURIComponent_no_surrogate (Hotel.name h ++ js " Athens")) as [q Hq].
  { apply Forall_app. split; [done|]. by repeat constructor. }
  exists q. split; [done|]. eapply encodeURIComponent_safe; [|exact Hq].
  apply Forall_app. split; [done|]. refine (bool_decide_unpack _ _). vm_compute. exact I.
Qed.

Lemma inert_safe (q : jsstring) :
  Forall (λ c, uri_unreserved c = true ∨ c = 37%N) q → inert q = true.
Proof.
  intros Hq. apply inert_plain. eapply Forall_impl; [exact Hq|].
  intros c [Hc| ->]; [|done]. split; intros ->; discriminate.
Qed.

Lemma inert_tags (open close : jsstring) (l : list jsstring) :
  inert open = true → inert close = true → forallb inert l = true →
  inert (Array_join [] (map (λ a, mjoin [open; a; close]) l)) = true.
Proof.
  intros Ho Hc Hl. apply inert_Array_join_nil, Forall_fmap.
  apply forallb_Forall in Hl. eapply Forall_impl; [exact Hl|]. intros a Ha. cbn beta.
  apply inert_mjoin. by repeat apply List.Forall_cons.
Qed.

Lemma inert_interpolate (a : option jsstring) :
  Page.inert_opt a = true → inert (Generate.interpolate a) = true.
Proof. by destruct a. Qed.

Lemma presentable_fields (h : Hotel.t) :
  Page.presentable h = true →
  inert (Hotel.slug h) = true ∧ inert (Hotel.name h) = true ∧
  inert (Hotel.neighborhood h) = true ∧ Page.inert_opt (Hotel.neighborhoodName h) = true ∧
  inert (Hotel.distanceToAcropolis h) = true ∧ Page.inert_list (Hotel.amenities h) = true ∧
  Page.inert_list (Hotel.bestFor h) = true ∧ Page.inert_opt (Hotel.overview h) = true ∧
  Page.inert_list (Hotel.pros h) = true ∧ Page.inert_list (Hotel.cons h) = true.
Proof. unfold Page.presentable. rewrite !andb_true_iff. tauto. Qed.

Lemma inert_default (a : option (list jsstring)) (d : list jsstring) :
  Page.inert_list a = true → forallb inert d = true → forallb inert (default d a) = true.
Proof. by destruct a. Qed.

Lemma page_badges_badges (hotel : Hotel.t) :
  Array_join [] (Generate.page_badges hotel)
  = (if Hotel.hasAcropolisView hotel then Page.page_view_badge else [])
    ++ (if Hotel.hasRooftopBar hotel then Page.page_rooftop_badge else [])
    ++ (if decide (5 ≤ Hotel.starRating hotel) then Page.page_luxury_badge else []).
Proof.
  rewrite Array_join_nil_mjoin. unfold Generate.page_badges.
  destruct (Z.leb_spec 5 (Hotel.starRating hotel));
    destruct (decide (5 ≤ Hotel.starRating hotel)); try lia;
    destruct (Hotel.hasAcropolisView hotel), (Hotel.hasRooftopBar hotel); reflexivity.
Qed.

Lemma inert_page_badges (hotel : Hotel.t) :
  inert ((if Hotel.hasAcropolisView hotel then Page.page_view_badge else [])
         ++ (if Hotel.hasRooftopBar hotel then Page.page_rooftop_badge else [])
         ++ (if decide (5 ≤ Hotel.starRating hotel) then Page.page_luxury_badge else []))
  = true.
Proof.
  destruct (decide (5 ≤ Hotel.starRating hotel));
    destruct (Hotel.hasAcropolisView hotel), (Hotel.hasRooftopBar hotel); reflexivity.
Qed.

Lemma or_string_shown (h : Hotel.t) :
  Generate.or_string (Hotel.neighborhoodName h) (Hotel.neighborhood h)
  = Page.shown_neighborhood h.
Proof. reflexivity. Qed.

(** The page of a hotel: the layout around the hotel template with its
    placeholders filled. *)
Lemma hotel_html_page (inp : Generate.Input) (layout tmpl : list seg) (hotel : Hotel.t) :
  Generate.layoutTemplate inp = flat layout → well_formed layout = true →
  Generate.hotelTemplate inp = flat tmpl → well_formed tmpl = true →
  dollar_free (flat tmpl) = true →
  forallb Page.presentable (hotels (Generate.allHotelsData inp)) = true →
  Page.presentable hotel = true →
  ∃ q, encodeURIComponent (Hotel.name hotel ++ js " Athens") = Ok q ∧
       Forall (λ c, uri_unreserved c = true ∨ c = 37%N) q ∧
       Generate.hotel_html inp hotel
       = Ok (Page.in_layout layout (Page.hotel_content tmpl (hotel_values_of inp hotel q))
               (Hotel.name hotel)
               (mjoin [Hotel.name hotel; js " - "; Page.decimal (Hotel.starRating hotel);
                       js "-star hotel in ";
                       Generate.interpolate (Hotel.neighborhoodName hotel);
                       js ", Athens. From "; [8364%N];
                       Page.decimal (Hotel.pricePerNight hotel); js "/night. ";
                       if Hotel.hasAcropolisView hotel
                       then js "Acropolis views available." else []])
               (js "https://hotelsofathens.com/hotel/" ++ Hotel.slug hotel)).
Proof.
  intros Hlayout Hwfl Htmpl Hwft Hdollar Hall Hhotel.
  destruct (booking_query hotel Hhotel) as (q & Hq & Hsafe).
  exists q. split; [done|]. split; [done|].
  pose proof (inert_safe q Hsafe) as Hqi.
  pose proof (presentable_fields hotel Hhotel)
    as (Hslug & Hname & Hhood & Hhn & Hdist & Ham & Hbf & Hov & Hpros & Hcons).
  apply forallb_Forall in Hall.
  assert (Hsim : Forall (λ h, Page.presentable h = true) (Generate.similar inp hotel)).
  { unfold Generate.similar, Array_slice0. by apply Forall_take_filter. }
  set (v := hotel_values_of inp hotel q).
  assert (Hshown : inert (Page.shown_neighborhood hotel) = true)
    by by apply inert_shown_neighborhood.
  assert (Hover : inert (Page.hotel_overview v) = true).
  { cbn [v hotel_values_of Page.hotel_overview].
      apply inert_or_string; [intros s Hs; by rewrite Hs in Hov|].
    apply inert_mjoin. repeat apply List.Forall_cons; try done.
    - apply inert_String_of_Z.
    - by apply inert_interpolate. }
  assert (Hamen : inert (Page.hotel_amenities v) = true).
  { apply inert_tags; try done. by apply inert_default. }
  assert (Hprosv : inert (Page.hotel_pros v) = true).
  { apply inert_tags; try done. by apply inert_default. }
  assert (Hconsv : inert (Page.hotel_cons v) = true).
  { apply inert_tags; try done. by apply inert_default. }
  assert (Hbest : inert (Page.hotel_best_for_tags v) = true).
  { apply inert_tags; try done. by apply inert_default. }
  assert (Hloc : inert (Page.hotel_location_desc v) = true).
  { apply inert_mjoin. by repeat apply List.Forall_cons. }
  assert (Hhv : inert (Page.hotel_has_view v) = true).
  { cbn [v hotel_values_of Page.hotel_has_view]. by destruct (Hotel.hasAcropolisView hotel). }
  assert (Hhr : inert (Page.hotel_has_rooftop v) = true).
  { cbn [v hotel_values_of Page.hotel_has_rooftop]. by destruct (Hotel.hasRooftopBar hotel). }
  assert (Hbook : inert (Page.hotel_booking_url v) = true).
  { cbn [v hotel_values_of Page.hotel_booking_url]. by apply inert_app. }
  assert (Hstars : inert (Page.hotel_stars v) = true) by apply inert_stars.
  assert (Hcards : inert (Page.hotel_similar_hotels v) = true) by by apply inert_cards.
  unfold Generate.hotel_html.
  rewrite (hotelCards_cards (Generate.similar inp hotel))
    by (eapply Forall_impl; [exact Hsim|]; apply presentable_rating).
  rewrite generateStars_stars by by apply presentable_rating.
  rewrite Hq. cbn [rbind]. f_equal.
  rewrite page_badges_badges, or_string_shown.
  change (mjoin [js "https://www.booking.com/searchresults.html?ss="; q])
    with (js "https://www.booking.com/searchresults.html?ss=" ++ q ++ []).
  rewrite (app_nil_r q).
  change (js "{{NAME}}") with (hole (js "NAME")).
  change (js "{{NEIGHBORHOOD_ID}}") with (hole (js "NEIGHBORHOOD_ID")).
  change (js "{{NEIGHBORHOOD_NAME}}") with (hole (js "NEIGHBORHOOD_NAME")).
  change (js "{{STARS}}") with (hole (js "STARS")).
  change (js "{{STAR_RATING}}") with (hole (js "STAR_RATING")).
  change (js "{{BADGES}}") with (hole (js "BADGES")).
  change (js "{{PRICE}}") with (hole (js "PRICE")).
  change (js "{{PRICE_MIN}}") with (hole (js "PRICE_MIN")).
  change (js "{{PRICE_MAX}}") with (hole (js "PRICE_MAX")).
  change (js "{{OVERVIEW}}") with (hole (js "OVERVIEW")).
  change (js "{{AMENITIES}}") with (hole (js "AMENITIES")).
  change (js "{{PROS}}") with (hole (js "PROS")).
  change (js "{{CONS}}") with (hole (js "CONS")).
  change (js "{{LOCATION_DESC}}") with (hole (js "LOCATION_DESC")).
  change (js "{{DISTANCE_ACROPOLIS}}") with (hole (js "DISTANCE_ACROPOLIS")).
  change (js "{{DISTANCE_METRO}}") with (hole (js "DISTANCE_METRO")).
  change (js "{{HAS_VIEW}}") with (hole (js "HAS_VIEW")).
  change (js "{{HAS_ROOFTOP}}") with (hole (js "HAS_ROOFTOP")).
  change (js "{{BEST_FOR_TAGS}}") with (hole (js "BEST_FOR_TAGS")).
  change (js "{{SIMILAR_HOTELS}}") with (hole (js "SIMILAR_HOTELS")).
  change (js "{{BOOKING_URL}}") with (hole (js "BOOKING_URL")).
  match goal with
  | |- Generate.wrapInLayout _ ?c _ _ _ = _ =>
      assert (Hcontent : c = Page.hotel_content tmpl v
                         ∧ well_formed (Page.hotel_filled tmpl v) = true)
  end.
  { unfold Page.hotel_content, Page.hotel_filled.
    repeat (first [apply fills_first | apply fills_all];
            [|reflexivity|
             first [apply inert_String_of_Z | exact Hname | exact Hhood | exact Hshown
                   | exact Hstars | apply inert_page_badges | exact Hover | exact Hamen
                   | exact Hprosv | exact Hconsv | exact Hloc | exact Hdist | reflexivity
                   | exact Hhv | exact Hhr | exact Hbest | exact Hcards | exact Hbook]]).
    by split. }
  destruct Hcontent as [-> _].
  change (mjoin [js "https://hotelsofathens.com/hotel/"; Hotel.slug hotel])
    with (js "https://hotelsofathens.com/hotel/" ++ Hotel.slug hotel ++ []).
  rewrite (app_nil_r (Hotel.slug hotel)).
  apply wrapInLayout_in_layout; try done.
  - apply inert_mjoin. repeat apply List.Forall_cons; try done.
    + apply inert_String_of_Z.
    + by apply inert_interpolate.
    + apply inert_String_of_Z.
    + by destruct (Hotel.hasAcropolisView hotel).
  - unfold Page.hotel_content, Page.hotel_filled.
    repeat (first [apply dollar_free_fill_first | apply dollar_free_fill_all];
            [|apply inert_dollar_free;
             first [apply inert_String_of_Z | exact Hname | exact Hhood | exact Hshown
                   | exact Hstars | apply inert_page_badges | exact Hover | exact Hamen
                   | exact Hprosv | exact Hconsv | exact Hloc | exact Hdist | reflexivity
                   | exact Hhv | exact Hhr | exact Hbest | exact Hcards | exact Hbook]]).
    done.
Qed.
End hotel_page.

(** *** The guide pages *)

Section guide_pages.
Import Template.

Lemma inert_guide_content (heading tagline intro grid : jsstring) :
  inert heading = true → inert tagline = true → inert intro = true →
  inert grid = true → inert (Page.guide_content heading tagline intro grid) = true.
Proof.
  intros H1 H2 H3 H4. apply inert_mjoin. by repeat apply List.Forall_cons.
Qed.

Lemma Forall_Array_sort {A} (P : A → Prop) (cmp : A → A → Z) (l : list A) :
  Forall P l → Forall P (Array_sort cmp l).
Proof. intros Hl. by rewrite Array_sort_Permutation. Qed.

Lemma guide_page_in_layout (inp : Generate.Input) (layout : list seg)
    (heading tagline intro title description url : jsstring) (l : list Hotel.t) :
  Generate.layoutTemplate inp = flat layout → well_formed layout = true →
  inert heading = true → inert tagline = true → inert intro = true →
  inert title = true → inert description = true → inert url = true →
  Forall (λ h, Page.presentable h = true) l →
  Generate.wrapInLayout inp (Page.guide_content heading tagline intro (Page.cards l))
    title description url
  = Page.in_layout layout (Page.guide_content heading tagline intro (Page.cards l))
      title description url.
Proof.
  intros. apply wrapInLayout_in_layout; try done.
  apply inert_dollar_free, inert_guide_content; try done. by apply inert_cards.
Qed.

(** The run of [generateGuidePages]: three files, each the layout around
    the fixed text of its guide and the cards of its hotels. *)
Lemma generateGuidePages_run (inp : Generate.Input) (w : Generate.world)
    (layout : list seg) :
  Generate.layoutTemplate inp = flat layout → well_formed layout = true →
  forallb Page.presentable (hotels (Generate.allHotelsData inp)) = true →
  Generate.generateGuidePages inp w
  = (Generate.World
       (<[js "best-rooftop-bars-athens.html" :=
            Page.in_layout layout
              (Page.guide_content (js "Best Rooftop Bar Hotels in Athens")
                 (js "Sunset cocktails with Acropolis views")
                 (js "Nothing beats watching the sunset over the Acropolis with a cocktail in hand. These hotels offer the best rooftop experiences in Athens.")
                 (Page.cards (Generate.guide_rooftopHotels inp)))
              (js "Best Rooftop Bar Hotels in Athens")
              (js "Hotels with the best rooftop bars in Athens. Acropolis views, sunset cocktails, unforgettable evenings.")
              (js "https://hotelsofathens.com/best-rooftop-bars-athens")]>
        (<[js "luxury-hotels-athens.html" :=
            Page.in_layout layout
              (Page.guide_content (js "Luxury Hotels in Athens")
                 (js "The finest 5-star experiences")
                 (js "Experience Athens in style at these exceptional luxury hotels. World-class service, stunning views, and unforgettable experiences await.")
                 (Page.cards (Generate.guide_luxuryHotels inp)))
              (js "Luxury Hotels in Athens")
              (js "Discover Athens' finest 5-star hotels. Rooftop pools, Acropolis views, world-class service.")
              (js "https://hotelsofathens.com/luxury-hotels-athens")]>
        (<[js "budget-hotels-athens.html" :=
            Page.in_layout layout
              (Page.guide_content (js "Budget Hotels in Athens")
                 (js "Great stays under " ++ [8364%N] ++ js "80/night")
                 (js "Athens offers excellent budget accommodation without sacrificing location or comfort. These hotels prove you don't need to spend a fortune to enjoy the Greek capital.")
                 (Page.cards (Generate.guide_budgetHotels inp)))
              (js "Budget Hotels in Athens")
              (js "Find affordable Athens hotels under " ++ [8364%N]
               ++ js "80/night. Great locations, clean rooms, excellent value.")
              (js "https://hotelsofathens.com/budget-hotels-athens")]>
          (Generate.files w))))
       (Generate.ticks w),
     Ok ()).
Proof.
  intros Hlayout Hwfl Hall. apply forallb_Forall in Hall.
  assert (Hb : Forall (λ h, Page.presentable h = true) (Generate.guide_budgetHotels inp)).
  { apply Forall_Array_sort, Forall_forall. intros h [_ Hh]%list_elem_of_filter.
    by eapply Forall_forall in Hall. }
  assert (Hl : Forall (λ h, Page.presentable h = true) (Generate.guide_luxuryHotels inp)).
  { apply Forall_Array_sort, Forall_forall. intros h [_ Hh]%list_elem_of_filter.
    by eapply Forall_forall in Hall. }
  assert (Hr : Forall (λ h, Page.presentable h = true) (Generate.guide_rooftopHotels inp)).
  { apply Forall_Array_sort, Forall_forall. intros h [_ Hh]%list_elem_of_filter.
    by eapply Forall_forall in Hall. }
  unfold Generate.generateGuidePages.
  rewrite (hotelCards_cards (Generate.guide_budgetHotels inp))
    by (eapply Forall_impl; [exact Hb|]; apply presentable_rating).
  rewrite (hotelCards_cards (Generate.guide_luxuryHotels inp))
    by (eapply Forall_impl; [exact Hl|]; apply presentable_rating).
  rewrite (hotelCards_cards (Generate.guide_rooftopHotels inp))
    by (eapply Forall_impl; [exact Hr|]; apply presentable_rating).
  unfold mbind, Generate.M_bind, Generate.bind, Generate.lift, Generate.writeFileSync.
  cbn [fst snd].
  rewrite <- (guide_page_in_layout inp layout _ _ _ _ _ _ (Generate.guide_budgetHotels inp))
    by done.
  rewrite <- (guide_page_in_layout inp layout _ _ _ _ _ _ (Generate.guide_luxuryHotels inp))
    by done.
  rewrite <- (guide_page_in_layout inp layout _ _ _ _ _ _ (Generate.guide_rooftopHotels inp))
    by done.
  reflexivity.
Qed.
End guide_pages.

(** *** The hotel page in its file *)

Section hotel_file.
Import Template.
Context (inp : Generate.Input) (layout tmpl : list seg).
Hypothesis Hlayout : Generate.layoutTemplate inp = flat layout.
Hypothesis Hwfl : well_formed layout = true.
Hypothesis Htmpl : Generate.hotelTemplate inp = flat tmpl.
Hypothesis Hwft : well_formed tmpl = true.
Hypothesis Hdollar : dollar_free (flat tmpl) = true.
Hypothesis Hall : forallb Page.presentable (hotels (Generate.allHotelsData inp)) = true.

(** [generateHotelPages] ends without an exception and leaves, at the path
    of a hotel that no later hotel shares its slug with, the page of that
    hotel. *)
Lemma hotel_page_written (w : Generate.world) (before after : list Hotel.t)
    (hotel : Hotel.t) :
  hotels (Generate.allHotelsData inp) = before ++ hotel :: after →
  Forall (λ h, Hotel.slug h ≠ Hotel.slug hotel) after →
  ∃ q, encodeURIComponent (Hotel.name hotel ++ js " Athens") = Ok q ∧
       Forall (λ c, uri_unreserved c = true ∨ c = 37%N) q ∧
       (Generate.generateHotelPages inp w).2 = Ok () ∧
       Generate.files (Generate.generateHotelPages inp w).1
         !! (js "hotel/" ++ Hotel.slug hotel ++ js ".html")
       = Some (Page.in_layout layout (Page.hotel_content tmpl (hotel_values_of inp hotel q))
                 (Hotel.name hotel)
                 (mjoin [Hotel.name hotel; js " - "; Page.decimal (Hotel.starRating hotel);
                         js "-star hotel in ";
                         Generate.interpolate (Hotel.neighborhoodName hotel);
                         js ", Athens. From "; [8364%N];
                         Page.decimal (Hotel.pricePerNight hotel); js "/night. ";
                         if Hotel.hasAcropolisView hotel
                         then js "Acropolis views available." else []])
                 (js "https://hotelsofathens.com/hotel/" ++ Hotel.slug hotel)).
Proof.
  intros Hsplit Hafter.
  pose proof Hall as Hall'. apply forallb_Forall in Hall'.
  assert (Hhotel : Page.presentable hotel = true).
  { eapply Forall_forall in Hall'; [exact Hall'|]. rewrite Hsplit.
    apply elem_of_app. right. left. }
  destruct (hotel_html_page inp layout tmpl hotel Hlayout Hwfl Htmpl Hwft Hdollar
              Hall Hhotel) as (q & Hq & Hsafe & Hpage).
  exists q. split; [done|]. split; [done|].
  unfold Generate.generateHotelPages.
  destruct (for_of_hotel_pages inp (hotels (Generate.allHotelsData inp)) w)
    as (fs & -> & Hfs).
  { intros h Hh. eapply Forall_forall in Hall'; [|exact Hh].
    destruct (hotel_html_page inp layout tmpl h Hlayout Hwfl Htmpl Hwft Hdollar
                Hall Hall') as (q' & _ & _ & Hh').
    eexists. exact Hh'. }
  split; [done|]. cbn [fst Generate.files].
  specialize (Hfs (Generate.hotel_path hotel)).
  assert (Hlast : last (filter (λ h, Generate.hotel_path h = Generate.hotel_path hotel)
                          (hotels (Generate.allHotelsData inp))) = Some hotel).
  { rewrite Hsplit, filter_app, filter_cons, decide_True by done.
    assert (filter (λ h, Generate.hotel_path h = Generate.hotel_path hotel) after = [])
      as ->.
    { clear -Hafter. induction Hafter as [|h l Hh _ IH]; [done|].
      rewrite filter_cons, decide_False; [exact IH|].
      intros Hpath. apply Hh.
      unfold Generate.hotel_path, Generate.path_join in Hpath. simpl in Hpath.
      by simplify_list_eq. }
    by rewrite last_snoc. }
  rewrite Hlast, Hpage in Hfs.
  change (Generate.hotel_path hotel)
    with (js "hotel/" ++ Hotel.slug hotel ++ js ".html" ++ []) in Hfs.
  rewrite app_nil_r in Hfs.
  destruct (fs !! (js "hotel/" ++ Hotel.slug hotel ++ js ".html")) as [page|];
    simpl in Hfs; [|done].
  by injection Hfs as ->.
Qed.
End hotel_file.

(** *** The sections of the home page, on the page *)



(** *** The guides, on their pages *)



(** *** What a hotel page shows *)







Lemma uri_unreserved_units (c : N) :
  uri_unreserved c = true →
  (65 ≤ c ≤ 90 ∨ 97 ≤ c ≤ 122 ∨ 48 ≤ c ≤ 57
   ∨ c ∈ [45; 95; 46; 33; 126; 42; 39; 40; 41; 37])%N.
Proof.
  unfold uri_unreserved.
  rewrite !orb_true_iff, !andb_true_iff, !N.leb_le, bool_decide_eq_true.
  intros [[[H|H]|H]|H]; [lia|lia|lia|].
  do 3 right. revert H. rewrite !elem_of_cons, !elem_of_nil. tauto.
Qed.



(** *** Tiers on the cards and in the master file *)

(** X11. The two scripts cut the prices into tiers at the same bounds: the
    card that [generateHotelCard] renders of a hotel carries, as its
    [data-tier], the tier of the price of the hotel (bounds at 80, 150 and
    250, a price on a bound in the higher tier), and each count of
    [priceStats] in the master file is the number of hotels of the master
    file whose card carries the tier of that name. *)
Theorem tier_counts_match_cards (seedHotels : gmap jsstring (list Fetch.SeedHotel))
    (neighborhoods : list Hood.t) :
  let master := (Fetch.build seedHotels neighborhoods).2 in
  let stats := priceStats master in
  let tier_of h :=
    let p := Hotel.pricePerNight h in
    if decide (p < 80) then js "budget"
    else if decide (p < 150) then js "mid"
    else if decide (p < 250) then js "upscale"
    else js "luxury" in
  let carrying tier :=
    Z.of_nat (length (filter (λ h, tier_of h = tier) (hotels master))) in
  (∀ h : Hotel.t, 0 ≤ Hotel.starRating h ≤ 5 →
     ∃ view name stars hood badges price : jsstring,
       Generate.generateHotelCard h
       = Ok (Page.card_with (Hotel.slug h) (tier_of h) view name stars hood badges
               price)) ∧
  budget_count stats = carrying (js "budget") ∧
  midRange_count stats = carrying (js "mid") ∧
  upscale_count stats = carrying (js "upscale") ∧
  luxury_count stats = carrying (js "luxury").
Proof.
  intros master stats tier_of carrying. split.
  { intros h Hh. eexists _, _, _, _, _, _. by apply generateHotelCard_card. }
  subst stats carrying. cbn beta.
  assert (priceStats master
          = {| budget_count :=
                 Fetch.count (λ h, Hotel.pricePerNight h <? 80) (hotels master);
               midRange_count :=
                 Fetch.count (λ h, (80 <=? Hotel.pricePerNight h)
                                   && (Hotel.pricePerNight h <? 150)) (hotels master);
               upscale_count :=
                 Fetch.count (λ h, (150 <=? Hotel.pricePerNight h)
                                   && (Hotel.pricePerNight h <? 250)) (hotels master);
               luxury_count :=
                 Fetch.count (λ h, 250 <=? Hotel.pricePerNight h) (hotels master) |})
    as -> by reflexivity.
  cbn [budget_count midRange_count upscale_count luxury_count]. unfold Fetch.count.
  repeat split; do 2 f_equal; apply List_filter_filter; intros h; subst tier_of;
    cbn beta zeta; rewrite ?andb_true_iff, ?Z.leb_le, ?Z.ltb_lt;
    repeat case_decide; split; intros; try lia; try discriminate; try reflexivity.
Qed.

(** *** The sitemap in its file *)

Lemma split_head_date (date time : jsstring) :
  84%N ∉ date → split_head 84 (date ++ 84%N :: time) = date.
Proof.
  induction date as [|c date IH]; intros Hd; simpl; [done|].
  apply not_elem_of_cons in Hd as [Hc Hd].
  destruct (N.eqb_spec c 84) as [->|_]; [done|]. by rewrite IH.
Qed.

Lemma lines_join (l : list jsstring) : Page.lines l = Array_join [10%N] l.
Proof.
  induction l as [|x l IH]; [done|]. destruct l as [|y l]; [done|].
  change (Page.lines (x :: y :: l)) with (x ++ 10%N :: Page.lines (y :: l)).
  by rewrite IH.
Qed.

Lemma sitemap_document_sitemap (elements : list jsstring) :
  Generate.sitemap_document elements = Page.sitemap elements.
Proof.
  unfold Generate.sitemap_document, Page.sitemap.
  rewrite <- (lines_join elements). generalize (Page.lines elements). intros body.
  vm_compute. reflexivity.
Qed.

Lemma url_element_entry (u : Generate.url) (date time : jsstring) :
  84%N ∉ date →
  Generate.url_element u (date ++ 84%N :: time)
  = Page.sitemap_entry (Generate.loc u) date (Generate.priority u).
Proof.
  intros Hd. unfold Generate.url_element. rewrite split_head_date by done.
  generalize (Generate.loc u), (Generate.priority u). intros loc priority.
  unfold Page.sitemap_entry. cbn [Page.lines]. rewrite <- !app_assoc.
  vm_compute. reflexivity.
Qed.



